(** * ACG accessibility audit toolkit: discovery, scanning, aggregation, grading

    A shallow embedding of [src/crawler/sitemap-crawler.ts] and
    [src/index.ts], and of the lead package generator, the lead summary
    report and the pricing of the proposal generator.  JavaScript numbers
    that the program uses as counts, lengths, prices and millisecond clocks
    are integers of [Z]: the arithmetic of the two is the same as long as
    the numbers are whole and within [JS.maxSafeInteger] of zero.  Strings are
    [string]s of bytes; arrays are lists; the browser, the rule engine, the
    network and the clock are the operations of a [Host], threaded through
    the program by a state-and-exception monad.  Console output is not
    modelled. *)

From Stdlib Require Import ZArith List String Ascii Bool Lia Permutation Sorted.
From Stdlib Require Import Numbers.DecimalString.
Import ListNotations.

#[local] Open Scope string_scope.
#[local] Open Scope Z_scope.

(** ** The JavaScript built-ins the program calls *)

Module JS.

(** [a.length] as a number. *)
Definition len {A : Type} (a : list A) : Z := Z.of_nat (List.length a).

(** A string in a condition is true unless it is empty. *)
Definition truthy (s : string) : bool := negb (String.eqb s "").

(** An optional property ([error?: string]) in a condition: [undefined] is
    false. *)
Definition truthyOpt (o : option string) : bool :=
  match o with
  | Some s => truthy s
  | None => false
  end.

Definition toLowerChar (c : ascii) : ascii :=
  let n := nat_of_ascii c in
  if ((65 <=? n) && (n <=? 90))%nat then ascii_of_nat (n + 32) else c.

(** [s.toLowerCase()].  URL strings are byte strings here; the letters A-Z
    are the only bytes whose lower-case form can take part in the ASCII
    suffixes the crawler tests. *)
Fixpoint toLowerCase (s : string) : string :=
  match s with
  | EmptyString => EmptyString
  | String c r => String (toLowerChar c) (toLowerCase r)
  end.

(** [s.endsWith(suffix)]. *)
Definition endsWith (s suffix : string) : bool :=
  let n := String.length s in
  let m := String.length suffix in
  ((m <=? n)%nat && String.eqb (substring (n - m) m s) suffix)%bool.

(** [s.startsWith(p)]. *)
Definition startsWith (s p : string) : bool := String.prefix p s.

(** [a.join(sep)]. *)
Definition join (sep : string) (a : list string) : string := String.concat sep a.

(** [a.slice(0, e)] for an integer [e]: a negative [e] counts from the end. *)
Definition slice0 {A : Type} (a : list A) (e : Z) : list A :=
  let final := if e <? 0 then Z.max (len a + e) 0 else Z.min e (len a) in
  firstn (Z.to_nat final) a.

(** [a.sort(cmp)] is a stable sort: of two elements, the earlier one stays in
    front unless [cmp earlier later > 0].  Insertion from the right computes
    that order. *)
Fixpoint insertBy {A : Type} (cmp : A -> A -> Z) (x : A) (sorted : list A) : list A :=
  match sorted with
  | [] => [x]
  | y :: rest => if 0 <? cmp x y then y :: insertBy cmp x rest else x :: sorted
  end.

Fixpoint sort {A : Type} (cmp : A -> A -> Z) (a : list A) : list A :=
  match a with
  | [] => []
  | x :: rest => insertBy cmp x (sort cmp rest)
  end.

Definition isDigit (c : ascii) : bool :=
  let n := nat_of_ascii c in ((48 <=? n) && (n <=? 57))%nat.

Fixpoint decimal (s : string) (acc : N) : option N :=
  match s with
  | EmptyString => Some acc
  | String c r =>
      if isDigit c then decimal r (acc * 10 + (N_of_ascii c - 48))%N else None
  end.

(** A property key is an array index when it is the canonical decimal form
    of an integer between 0 and 2^32 - 2. *)
Definition arrayIndex (key : string) : option N :=
  match key with
  | EmptyString => None
  | String "0" EmptyString => Some 0%N
  | String "0" _ => None
  | _ =>
      match decimal key 0%N with
      | Some n => if (n <=? 4294967294)%N then Some n else None
      | None => None
      end
  end.

Definition isArrayIndex (key : string) : bool :=
  match arrayIndex key with Some _ => true | None => false end.

Definition indexOf (key : string) : Z :=
  match arrayIndex key with Some n => Z.of_N n | None => 0 end.

(** An object made by [{}] and used as a dictionary: its own properties in
    creation order.  Besides them it inherits the members of
    [Object.prototype] ([prototypeMembers] below). *)
Definition object (V : Type) : Type := list (string * V).

(** The value of an own property, as [Object.hasOwn(o, key) ? o[key] :
    undefined] would give it; [lookup] below is [o[key]]. *)
Fixpoint get {V : Type} (o : object V) (key : string) : option V :=
  match o with
  | [] => None
  | (k, v) :: rest => if String.eqb k key then Some v else get rest key
  end.

(** [o[key] = v]: an existing property keeps its place, a new one is
    created last. *)
Fixpoint set {V : Type} (o : object V) (key : string) (v : V) : object V :=
  match o with
  | [] => [(key, v)]
  | (k, v0) :: rest =>
      if String.eqb k key then (k, v) :: rest else (k, v0) :: set rest key v
  end.

(** [o[key].field++] and the like: the value of the own property changes in
    place.  Without such an own property the object stays as it is: what
    changes then is the object that the lookup found on the prototype. *)
Fixpoint modify {V : Type} (o : object V) (key : string) (f : V -> V) : object V :=
  match o with
  | [] => []
  | (k, v) :: rest =>
      if String.eqb k key then (k, f v) :: rest else (k, v) :: modify rest key f
  end.

(** [Object.entries(o)]: array-index keys first, in ascending numeric order,
    then the other keys in creation order. *)
Definition entries {V : Type} (o : object V) : list (string * V) :=
  (sort (fun a b => indexOf (fst a) - indexOf (fst b))
        (filter (fun kv => isArrayIndex (fst kv)) o)
   ++ filter (fun kv => negb (isArrayIndex (fst kv))) o)%list.

(** The names of the members of [Object.prototype]: functions, and the
    prototype itself under [__proto__]. *)
Definition prototypeMembers : list string :=
  [ "constructor"; "__defineGetter__"; "__defineSetter__"; "hasOwnProperty";
    "__lookupGetter__"; "__lookupSetter__"; "isPrototypeOf";
    "propertyIsEnumerable"; "toString"; "valueOf"; "__proto__";
    "toLocaleString" ].

Definition inherited (key : string) : bool :=
  existsb (String.eqb key) prototypeMembers.

(** What [o[key]] finds: an own property, else a member of
    [Object.prototype], else nothing. *)
Inductive Found (V : Type) : Type :=
  | own (v : V)
  | inherits
  | undefined.

Arguments own {V} v.
Arguments inherits {V}.
Arguments undefined {V}.

Definition lookup {V : Type} (o : object V) (key : string) : Found V :=
  match get o key with
  | Some v => own v
  | None => if inherited key then inherits else undefined
  end.

(** [s.includes(part)]. *)
Fixpoint includes (s part : string) : bool :=
  String.prefix part s
  || match s with
     | EmptyString => false
     | String _ rest => includes rest part
     end.

(** [a.indexOf(x)] on an array of strings: the first position of [x], -1
    when there is none. *)
Fixpoint arrayIndexOfFrom (a : list string) (x : string) (i : Z) : Z :=
  match a with
  | [] => -1
  | y :: rest => if String.eqb y x then i else arrayIndexOfFrom rest x (i + 1)
  end.

Definition arrayIndexOf (a : list string) (x : string) : Z := arrayIndexOfFrom a x 0.

(** [a[i]] for an integer [i]: [undefined] outside the array. *)
Definition item {A : Type} (a : list A) (i : Z) : option A :=
  if i <? 0 then None else nth_error a (Z.to_nat i).

(** [x || d] for a number that may be missing: a missing one and 0 are false
    in a condition. *)
Definition orNumber (x : option Z) (d : Z) : Z :=
  match x with
  | Some n => if n =? 0 then d else n
  | None => d
  end.

(** [Number.MAX_SAFE_INTEGER]: up to it, in either direction, every integer
    is a number, and sums and products that stay there are exact. *)
Definition maxSafeInteger : Z := 2 ^ 53 - 1.

(** [`${n}`] for an integer. *)
Definition numberText (n : Z) : string := NilZero.string_of_int (Z.to_int n).

End JS.

(** ** Data model *)

(** The four severity tokens of a violation's [impact]. *)
Inductive ImpactValue : Type := critical | serious | moderate | minor.

(** What the rule engine reports for one failed rule ([axe.Result]); its
    [impact] may be missing or [null]. *)
Module Axe.

Inductive Impact : Type :=
  | absent
  | null
  | value (i : ImpactValue).

Record Result : Type := mkResult {
  id : string;
  impact : Impact;
  description : string;
  help : string;
  helpUrl : string;
  tags : list string;
  nodes : list string
}.

Record Results : Type := mkResults {
  violations : list Result;
  passes : list Result;
  incomplete : list Result
}.

End Axe.

Module Violation.

Record t : Type := mk {
  id : string;
  impact : ImpactValue;
  description : string;
  help : string;
  helpUrl : string;
  wcagTags : string;
  nodeCount : Z;
  pageUrl : string
}.

End Violation.

Module PageResult.

Record t : Type := mk {
  url : string;
  violations : list Violation.t;
  passes : Z;
  incomplete : Z;
  scanTime : Z;
  error : option string
}.

End PageResult.

Inductive Source : Type := sitemap | fallback.

Module CrawlResult.

Record t : Type := mk {
  urls : list string;
  source : Source;
  totalFound : Z;
  filtered : Z
}.

End CrawlResult.

Module BySeverity.

Record t : Type := mk {
  critical : Z;
  serious : Z;
  moderate : Z;
  minor : Z
}.

End BySeverity.

(** The value stored per rule identifier in [issueCount]. *)
Module IssueCount.

Record t : Type := mk {
  count : Z;
  impact : ImpactValue
}.

End IssueCount.

Module Issue.

Record t : Type := mk {
  rule : string;
  count : Z;
  impact : ImpactValue
}.

End Issue.

Module AuditSummary.

Record t : Type := mk {
  domain : string;
  scanDate : string;
  pagesScanned : Z;
  pagesWithErrors : Z;
  totalViolations : Z;
  bySeverity : BySeverity.t;
  topIssues : list Issue.t;
  allViolations : list Violation.t
}.

End AuditSummary.

Module URL.

Record t : Type := mk {
  protocol : string;
  host : string;
  hostname : string
}.

End URL.

(** ** Effects *)

(** A thrown value: an [Error] with its message, or anything else. *)
Inductive Thrown : Type :=
  | ErrorObject (message : string)
  | OtherValue.

Inductive Completion (A : Type) : Type :=
  | Normal (a : A)
  | Abrupt (e : Thrown).

Arguments Normal {A} a.
Arguments Abrupt {A} e.

(** An awaited computation over the state [W] of the outside world. *)
Definition Async (W A : Type) : Type := W -> Completion A * W.

Definition ret {W A : Type} (a : A) : Async W A := fun w => (Normal a, w).

Definition bind {W A B : Type} (c : Async W A) (k : A -> Async W B) : Async W B :=
  fun w =>
    match c w with
    | (Normal a, w') => k a w'
    | (Abrupt e, w') => (Abrupt e, w')
    end.

(** [try { body } catch (error) { handler }]. *)
Definition tryCatch {W A : Type} (body : Async W A) (handler : Thrown -> Async W A)
  : Async W A :=
  fun w =>
    match body w with
    | (Normal a, w') => (Normal a, w')
    | (Abrupt e, w') => handler e w'
    end.

(** A pure operation that may throw. *)
Definition lift {W A : Type} (c : Completion A) : Async W A := fun w => (c, w).

(** An operation on the world that cannot throw. *)
Definition effect {W : Type} (f : W -> W) : Async W unit := fun w => (Normal tt, f w).

(** Reading the world. *)
Definition ask {W A : Type} (f : W -> A) : Async W A := fun w => (Normal (f w), w).

Declare Scope async_scope.
Delimit Scope async_scope with async.

Notation "x <- c ;; k" := (bind c (fun x => k))
  (at level 61, c at next level, right associativity) : async_scope.
Notation "c ;; k" := (bind c (fun _ => k))
  (at level 61, right associativity) : async_scope.

(** What the program asks of its environment. *)
Record Host : Type := mkHost {
  World : Type;
  (** [new URL(s)] *)
  newURL : string -> Completion URL.t;
  (** [sitemap.fetch()] with [sitemap.url] set to the argument; the [sites]
      of the answer, which may be missing *)
  sitemapFetch : string -> Async World (option (list string));
  (** [puppeteer.launch], [browser.newPage], [page.setViewport] *)
  launchBrowser : Async World unit;
  (** [page.goto(url, ...)] *)
  pageGoto : string -> Async World unit;
  (** [new AxePuppeteer(page).withTags(...).analyze()] *)
  axeAnalyze : Async World Axe.Results;
  (** [browser.close()] *)
  browserClose : Async World unit;
  (** a timer of the given number of milliseconds runs out *)
  setTimeout : Z -> World -> World;
  (** [Date.now()] *)
  dateNow : World -> Z;
  (** [new Date().toISOString()] *)
  dateISO : World -> string
}.

(** ** The sitemap crawler ([src/crawler/sitemap-crawler.ts]) *)

Definition sitemapLocations (domain : string) : list string :=
  [ String.append domain "/sitemap.xml";
    String.append domain "/sitemap_index.xml";
    String.append domain "/sitemap/sitemap.xml";
    String.append domain "/wp-sitemap.xml" ].

(** [`${url.protocol}//${url.host}`]. *)
Definition domainOf (url : URL.t) : string :=
  String.append (URL.protocol url) (String.append "//" (URL.host url)).

(** The callback of [allUrls.filter]: false for non-HTML resources. *)
Definition isHtmlUrl (u : string) : bool :=
  let lower := JS.toLowerCase u in
  if JS.endsWith lower ".pdf" then false
  else if JS.endsWith lower ".jpg" || JS.endsWith lower ".jpeg" then false
  else if JS.endsWith lower ".png" || JS.endsWith lower ".gif" then false
  else if JS.endsWith lower ".doc" || JS.endsWith lower ".docx" then false
  else if JS.endsWith lower ".xls" || JS.endsWith lower ".xlsx" then false
  else if JS.endsWith lower ".zip" || JS.endsWith lower ".rar" then false
  else true.

(** Filter to HTML pages, then limit to [maxPages]. *)
Definition limitedUrls (allUrls : list string) (maxPages : Z) : list string :=
  let htmlUrls := filter isHtmlUrl allUrls in
  JS.slice0 htmlUrls maxPages.

Section Crawler.

Variable host : Host.

#[local] Open Scope async_scope.

(** One turn of the loop over [sitemapLocations]: the sites found at this
    location, if any.  A fetch that throws is caught and the loop goes on. *)
Definition probe (sitemapUrl : string) : Async (World host) (option (list string)) :=
  tryCatch
    (answer <- sitemapFetch host sitemapUrl ;;
     match answer with
     | Some sites => if 0 <? JS.len sites then ret (Some sites) else ret None
     | None => ret None
     end)
    (fun _ => ret None).

(** The whole loop; its value is [allUrls] after it.  The first location
    with sites ends the loop. *)
Fixpoint probeSitemaps (locations : list string) : Async (World host) (list string) :=
  match locations with
  | [] => ret []
  | sitemapUrl :: rest =>
      found <- probe sitemapUrl ;;
      match found with
      | Some sites => ret sites
      | None => probeSitemaps rest
      end
  end.

Definition getUrlsFromSitemap (baseUrl : string) (maxPages : Z)
  : Async (World host) CrawlResult.t :=
  url <- lift (newURL host baseUrl) ;;
  let domain := domainOf url in
  allUrls <- probeSitemaps (sitemapLocations domain) ;;
  if JS.len allUrls =? 0 then
    ret {| CrawlResult.urls := [baseUrl];
           CrawlResult.source := fallback;
           CrawlResult.totalFound := 1;
           CrawlResult.filtered := 1 |}
  else
    let limited := limitedUrls allUrls maxPages in
    ret {| CrawlResult.urls := limited;
           CrawlResult.source := sitemap;
           CrawlResult.totalFound := JS.len allUrls;
           CrawlResult.filtered := JS.len limited |}.

End Crawler.

(** ** The scanner ([src/index.ts]) *)

(** [impact || 'minor']: a missing or [null] impact is false in a condition,
    a severity token is a non-empty string. *)
Definition impactOrMinor (i : Axe.Impact) : ImpactValue :=
  match i with
  | Axe.value v => v
  | Axe.absent | Axe.null => minor
  end.

(** The callback of [results.violations.map] in [scanPage]. *)
Definition toViolation (url : string) (v : Axe.Result) : Violation.t :=
  {| Violation.id := Axe.id v;
     Violation.impact := impactOrMinor (Axe.impact v);
     Violation.description := Axe.description v;
     Violation.help := Axe.help v;
     Violation.helpUrl := Axe.helpUrl v;
     Violation.wcagTags :=
       JS.join ", " (filter (fun t => JS.startsWith t "wcag") (Axe.tags v));
     Violation.nodeCount := JS.len (Axe.nodes v);
     Violation.pageUrl := url |}.

(** [error instanceof Error ? error.message : 'Unknown error']. *)
Definition errorText (error : Thrown) : string :=
  match error with
  | ErrorObject message => message
  | OtherValue => "Unknown error"
  end.

Section Scanner.

Variable host : Host.

#[local] Open Scope async_scope.

(** The body of the [try] of [scanPage] up to the answer of the rule engine:
    navigate, let the page settle, analyze. *)
Definition loadAndAnalyze (url : string) : Async (World host) Axe.Results :=
  pageGoto host url ;;
  effect (setTimeout host 2000) ;;
  axeAnalyze host.

Definition scanPage (url : string) : Async (World host) PageResult.t :=
  startTime <- ask (dateNow host) ;;
  tryCatch
    (results <- loadAndAnalyze url ;;
     let violations := map (toViolation url) (Axe.violations results) in
     endTime <- ask (dateNow host) ;;
     ret {| PageResult.url := url;
            PageResult.violations := violations;
            PageResult.passes := JS.len (Axe.passes results);
            PageResult.incomplete := JS.len (Axe.incomplete results);
            PageResult.scanTime := endTime - startTime;
            PageResult.error := None |})
    (fun error =>
       endTime <- ask (dateNow host) ;;
       ret {| PageResult.url := url;
              PageResult.violations := [];
              PageResult.passes := 0;
              PageResult.incomplete := 0;
              PageResult.scanTime := endTime - startTime;
              PageResult.error := Some (errorText error) |}).

(** What one turn of the scanning loop does to [allViolations]. *)
Definition collect (allViolations : list Violation.t) (result : PageResult.t)
  : list Violation.t :=
  if JS.truthyOpt (PageResult.error result) then allViolations
  else if 0 <? JS.len (PageResult.violations result)
       then (allViolations ++ PageResult.violations result)%list
       else allViolations.

(** The loop of step 3 over the URLs still to scan, from the current
    [allResults] and [allViolations].  There is a pause of one second after
    every page but the last. *)
Fixpoint scanLoop (urls : list string)
    (allResults : list PageResult.t) (allViolations : list Violation.t)
  : Async (World host) (list PageResult.t * list Violation.t) :=
  match urls with
  | [] => ret (allResults, allViolations)
  | url :: rest =>
      result <- scanPage url ;;
      let allResults := (allResults ++ [result])%list in
      let allViolations := collect allViolations result in
      match rest with
      | [] => ret tt
      | _ :: _ => effect (setTimeout host 1000)
      end ;;
      scanLoop rest allResults allViolations
  end.

End Scanner.

(** ** Step 4 of [runFullAudit]: compiling the summary *)

(** [bySeverity[impact]++]. *)
Definition increment (bySeverity : BySeverity.t) (impact : ImpactValue) : BySeverity.t :=
  match impact with
  | critical =>
      {| BySeverity.critical := BySeverity.critical bySeverity + 1;
         BySeverity.serious := BySeverity.serious bySeverity;
         BySeverity.moderate := BySeverity.moderate bySeverity;
         BySeverity.minor := BySeverity.minor bySeverity |}
  | serious =>
      {| BySeverity.critical := BySeverity.critical bySeverity;
         BySeverity.serious := BySeverity.serious bySeverity + 1;
         BySeverity.moderate := BySeverity.moderate bySeverity;
         BySeverity.minor := BySeverity.minor bySeverity |}
  | moderate =>
      {| BySeverity.critical := BySeverity.critical bySeverity;
         BySeverity.serious := BySeverity.serious bySeverity;
         BySeverity.moderate := BySeverity.moderate bySeverity + 1;
         BySeverity.minor := BySeverity.minor bySeverity |}
  | minor =>
      {| BySeverity.critical := BySeverity.critical bySeverity;
         BySeverity.serious := BySeverity.serious bySeverity;
         BySeverity.moderate := BySeverity.moderate bySeverity;
         BySeverity.minor := BySeverity.minor bySeverity + 1 |}
  end.

(** [issueCount[id].count++]. *)
Definition countUp (data : IssueCount.t) : IssueCount.t :=
  {| IssueCount.count := IssueCount.count data + 1;
     IssueCount.impact := IssueCount.impact data |}.

(** The callback of [allViolations.forEach], on the two objects it updates.
    [issueCount[v.id]] is an object, true in a condition, when it is found,
    be it an inherited member: then nothing is created, and the count that
    is raised is a property of what was found, not of [issueCount]. *)
Definition tallyOne (state : BySeverity.t * JS.object IssueCount.t) (v : Violation.t)
  : BySeverity.t * JS.object IssueCount.t :=
  let bySeverity := increment (fst state) (Violation.impact v) in
  let issueCount :=
    match JS.lookup (snd state) (Violation.id v) with
    | JS.undefined =>
        JS.set (snd state) (Violation.id v)
          {| IssueCount.count := 0; IssueCount.impact := Violation.impact v |}
    | JS.own _ | JS.inherits => snd state
    end in
  (bySeverity, JS.modify issueCount (Violation.id v) countUp).

Definition tally (allViolations : list Violation.t)
  : BySeverity.t * JS.object IssueCount.t :=
  fold_left tallyOne allViolations
    ({| BySeverity.critical := 0; BySeverity.serious := 0;
        BySeverity.moderate := 0; BySeverity.minor := 0 |}, []).

Definition toIssue (entry : string * IssueCount.t) : Issue.t :=
  {| Issue.rule := fst entry;
     Issue.count := IssueCount.count (snd entry);
     Issue.impact := IssueCount.impact (snd entry) |}.

(** [Object.entries(issueCount).map(...).sort((a, b) => b.count - a.count)]:
    the ranking of the rules before it is cut to ten. *)
Definition ranking (issueCount : JS.object IssueCount.t) : list Issue.t :=
  JS.sort (fun a b => Issue.count b - Issue.count a)
          (map toIssue (JS.entries issueCount)).

Definition compileSummary (domain scanDate : string) (crawlResult : CrawlResult.t)
    (allResults : list PageResult.t) (allViolations : list Violation.t)
  : AuditSummary.t :=
  let counted := tally allViolations in
  let topIssues := JS.slice0 (ranking (snd counted)) 10 in
  {| AuditSummary.domain := domain;
     AuditSummary.scanDate := scanDate;
     AuditSummary.pagesScanned := JS.len (CrawlResult.urls crawlResult);
     AuditSummary.pagesWithErrors :=
       JS.len (filter (fun r => JS.truthyOpt (PageResult.error r)) allResults);
     AuditSummary.totalViolations := JS.len allViolations;
     AuditSummary.bySeverity := fst counted;
     AuditSummary.topIssues := topIssues;
     AuditSummary.allViolations := allViolations |}.

Section Audit.

Variable host : Host.

#[local] Open Scope async_scope.

(** Steps 1 to 3 of [runFullAudit]: the pages to scan, and [allResults] and
    [allViolations] when the browser is closed. *)
Definition scanSite (baseUrl : string) (maxPages : Z)
  : Async (World host) (CrawlResult.t * list PageResult.t * list Violation.t) :=
  crawlResult <- getUrlsFromSitemap host baseUrl maxPages ;;
  launchBrowser host ;;
  scanned <- scanLoop host (CrawlResult.urls crawlResult) [] [] ;;
  browserClose host ;;
  ret (crawlResult, fst scanned, snd scanned).

Definition runFullAudit (baseUrl : string) (maxPages : Z)
  : Async (World host) AuditSummary.t :=
  gathered <- scanSite baseUrl maxPages ;;
  url <- lift (newURL host baseUrl) ;;
  scanDate <- ask (dateISO host) ;;
  ret (compileSummary (URL.hostname url) scanDate
         (fst (fst gathered)) (snd (fst gathered)) (snd gathered)).

End Audit.

(** ** Lead qualification *)

Inductive LeadGrade : Type := A_LEAD | B_LEAD | C_LEAD | SKIP.

(** The branch [printSummary] takes under "LEAD QUALIFICATION". *)
Definition printSummary_lead (summary : AuditSummary.t) : LeadGrade :=
  let totalIssues := AuditSummary.totalViolations summary in
  let criticalSerious :=
    BySeverity.critical (AuditSummary.bySeverity summary)
    + BySeverity.serious (AuditSummary.bySeverity summary) in
  if (criticalSerious >=? 10) || (totalIssues >=? 25) then A_LEAD
  else if (criticalSerious >=? 5) || (totalIssues >=? 15) then B_LEAD
  else if totalIssues >? 0 then C_LEAD
  else SKIP.

(** The branch [exportSummaryText] takes under "LEAD QUALIFICATION". *)
Definition exportSummaryText_lead (summary : AuditSummary.t) : LeadGrade :=
  let criticalSerious :=
    BySeverity.critical (AuditSummary.bySeverity summary)
    + BySeverity.serious (AuditSummary.bySeverity summary) in
  if (criticalSerious >=? 10) || (AuditSummary.totalViolations summary >=? 25)
  then A_LEAD
  else if (criticalSerious >=? 5) || (AuditSummary.totalViolations summary >=? 15)
  then B_LEAD
  else if AuditSummary.totalViolations summary >? 0 then C_LEAD
  else SKIP.

(** The line each branch of [exportSummaryText] appends to the text. *)
Definition summaryTextLine (grade : LeadGrade) : string :=
  match grade with
  | A_LEAD => String.append "A-LEAD: High priority target" (String "010" "")
  | B_LEAD => String.append "B-LEAD: Medium priority target" (String "010" "")
  | C_LEAD => String.append "C-LEAD: Low priority target" (String "010" "")
  | SKIP => String.append "SKIP: Site appears compliant" (String "010" "")
  end.

(** Skip < C < B < A. *)
Definition level (grade : LeadGrade) : Z :=
  match grade with
  | SKIP => 0
  | C_LEAD => 1
  | B_LEAD => 2
  | A_LEAD => 3
  end.

(** The threshold rules in words: the first rule that applies gives the
    grade. *)
Definition gradeByRules (criticalSerious total : Z) : LeadGrade :=
  if (10 <=? criticalSerious) || (25 <=? total) then A_LEAD
  else if (5 <=? criticalSerious) || (15 <=? total) then B_LEAD
  else if 1 <=? total then C_LEAD
  else SKIP.

(** ** The rest of the crawler, and the entry point of [src/index.ts] *)

(** [isValidUrl] of the crawler. *)
Definition isValidUrl (host : Host) (urlString : string) : bool :=
  match newURL host urlString with
  | Normal _ => true
  | Abrupt _ => false
  end.

(** What [main] makes of its arguments: it leaves with an exit code, or it
    audits a site. *)
Inductive Decision : Type :=
  | exits (code : Z)
  | audits (url : string) (maxPages : Z).

(** How [main] ends: with an exit code, or at step 5 with the summary it has
    printed and hands to the three exports. *)
Inductive Ended : Type :=
  | exited (code : Z)
  | exported (summary : AuditSummary.t).

Section Main.

Variable host : Host.

(** [parseInt(s, 10)]: an integer, or nothing for [NaN]. *)
Variable parseInt : string -> option Z.

(** The [--pages] option: the page cap, or nothing when [main] exits on an
    invalid value.  Without the option, or without a value after it, the cap
    is the default. *)
Definition readPages (args : list string) : option Z :=
  let pagesIndex := JS.arrayIndexOf args "--pages" in
  match JS.item args (pagesIndex + 1) with
  | Some value =>
      if negb (pagesIndex =? -1) && JS.truthy value then
        match parseInt value with
        | Some maxPages => if maxPages <? 1 then None else Some maxPages
        | None => None
        end
      else Some 10
  | None => Some 10
  end.

(** [main] before the audit. *)
Definition readArguments (args : list string) : Decision :=
  match args with
  | [] => exits 0
  | first :: _ =>
      if String.eqb first "--help" || String.eqb first "-h" then exits 0
      else
        let url := first in
        match readPages args with
        | None => exits 1
        | Some maxPages =>
            match newURL host url with
            | Abrupt _ => exits 1
            | Normal _ => audits url maxPages
            end
        end
  end.

(** [main] up to step 5; an audit that throws ends in exit code 1.  Writing
    the output files is not modelled. *)
Definition main (args : list string) (w : World host) : Ended * World host :=
  match readArguments args with
  | exits code => (exited code, w)
  | audits url maxPages =>
      match runFullAudit host url maxPages w with
      | (Normal summary, w') => (exported summary, w')
      | (Abrupt _, w') => (exited 1, w')
      end
  end.

End Main.

(** ** The lead summary report ([summarize-leads.js])

    It reads the [raw-results.json] of every scan folder; here its input is
    the parsed data of the folders that have one. *)

Module Summarize.

Record SeverityData : Type := mkSeverityData {
  critical : option Z;
  serious : option Z
}.

(** The properties of the parsed JSON that the report reads; each may be
    missing.  Of [topIssues] only the rules are read. *)
Record Data : Type := mkData {
  domain : option string;
  bySeverity : option SeverityData;
  totalViolations : option Z;
  topIssues : option (list (option string))
}.

Record Lead : Type := mkLead {
  leadDomain : option string;
  folder : string;
  total : Z;
  leadCritical : Z;
  leadSerious : Z;
  topIssue : string
}.

(** [data.bySeverity?.critical || 0]. *)
Definition criticalOf (data : Data) : Z :=
  JS.orNumber (match bySeverity data with
               | Some counts => critical counts
               | None => None
               end) 0.

Definition seriousOf (data : Data) : Z :=
  JS.orNumber (match bySeverity data with
               | Some counts => serious counts
               | None => None
               end) 0.

Definition totalOf (data : Data) : Z := JS.orNumber (totalViolations data) 0.

(** The key of [leads] under which a folder is filed. *)
Definition grade (data : Data) : LeadGrade :=
  let criticalSerious := criticalOf data + seriousOf data in
  let total := totalOf data in
  if (criticalSerious >=? 10) || (total >=? 25) then A_LEAD
  else if (criticalSerious >=? 5) || (total >=? 15) then B_LEAD
  else if total =? 0 then SKIP
  else C_LEAD.

(** [data.topIssues?.[0]?.rule || 'N/A']. *)
Definition topIssueOf (data : Data) : string :=
  match topIssues data with
  | Some (Some rule :: _) => if JS.truthy rule then rule else "N/A"
  | _ => "N/A"
  end.

Definition toLead (entry : string * Data) : Lead :=
  {| leadDomain := domain (snd entry);
     folder := fst entry;
     total := totalOf (snd entry);
     leadCritical := criticalOf (snd entry);
     leadSerious := seriousOf (snd entry);
     topIssue := topIssueOf (snd entry) |}.

(** What the output directory holds under a name.  [fs.statSync] follows
    the name and throws when it leads nowhere. *)
Inductive Kind : Type :=
  | directory
  | file
  | dangling.

(** The [raw-results.json] of a folder: not there; there, with the
    properties that the report reads; or there and not to be read: no JSON,
    or the JSON [null], of which no property can be read. *)
Inductive RawResults : Type :=
  | missing
  | holds (data : Data)
  | unreadable.

Record Entry : Type := mkEntry {
  name : string;
  kind : Kind;
  rawResults : RawResults
}.

(** [leads = { A: [], B: [], C: [], skip: [] }]. *)
Record Leads : Type := mkLeads {
  A : list Lead;
  B : list Lead;
  C : list Lead;
  skip : list Lead
}.

(** The callback of [readdirSync(outputDir).filter]:
    [stat.isDirectory() && f.includes('-202')], or what [statSync] throws. *)
Definition isScanFolder (f : Entry) : option bool :=
  match kind f with
  | dangling => None
  | directory => Some (JS.includes (name f) "-202")
  | file => Some false
  end.

(** [folders]: the filter visits every name in turn; what its callback
    throws ends the script. *)
Fixpoint folders (entries : list Entry) : option (list Entry) :=
  match entries with
  | [] => Some []
  | f :: rest =>
      match isScanFolder f with
      | None => None
      | Some keep =>
          option_map (fun kept => if keep then f :: kept else kept)
                     (folders rest)
      end
  end.

(** [leads[grade].push(lead)]. *)
Definition push (leads : Leads) (g : LeadGrade) (lead : Lead) : Leads :=
  match g with
  | A_LEAD => {| A := A leads ++ [lead]; B := B leads; C := C leads;
                 skip := skip leads |}
  | B_LEAD => {| A := A leads; B := B leads ++ [lead]; C := C leads;
                 skip := skip leads |}
  | C_LEAD => {| A := A leads; B := B leads; C := C leads ++ [lead];
                 skip := skip leads |}
  | SKIP => {| A := A leads; B := B leads; C := C leads;
               skip := skip leads ++ [lead] |}
  end.

(** The callback of [folders.forEach]: a folder without [raw-results.json]
    is passed over; [JSON.parse] throws on a file that is not to be read. *)
Definition fileFolder (leads : Leads) (folder : Entry) : option Leads :=
  match rawResults folder with
  | missing => Some leads
  | unreadable => None
  | holds data => Some (push leads (grade data) (toLead (name folder, data)))
  end.

Fixpoint fileFolders (kept : list Entry) (leads : Leads) : option Leads :=
  match kept with
  | [] => Some leads
  | folder :: rest =>
      match fileFolder leads folder with
      | None => None
      | Some leads' => fileFolders rest leads'
      end
  end.

(** [(a, b) => b.total - a.total]. *)
Definition byTotal (a b : Lead) : Z := total b - total a.

(** [Object.keys(leads).forEach(grade => leads[grade].sort(...))]. *)
Definition sortEach (leads : Leads) : Leads :=
  {| A := JS.sort byTotal (A leads);
     B := JS.sort byTotal (B leads);
     C := JS.sort byTotal (C leads);
     skip := JS.sort byTotal (skip leads) |}.

(** The four lists of the report, from the listing of the output directory;
    [None] when the script ends with an exception before it prints. *)
Definition leads (entries : list Entry) : option Leads :=
  match folders entries with
  | None => None
  | Some kept =>
      option_map sortEach
        (fileFolders kept {| A := []; B := []; C := []; skip := [] |})
  end.

(** What [JSON.parse] gives back of a summary written by [exportToJSON]. *)
Definition read (summary : AuditSummary.t) : Data :=
  {| domain := Some (AuditSummary.domain summary);
     bySeverity :=
       Some {| critical := Some (BySeverity.critical (AuditSummary.bySeverity summary));
               serious := Some (BySeverity.serious (AuditSummary.bySeverity summary)) |};
     totalViolations := Some (AuditSummary.totalViolations summary);
     topIssues := Some (map (fun issue => Some (Issue.rule issue))
                            (AuditSummary.topIssues summary)) |}.

End Summarize.

(** ** The aggregation of the lead package generator
    ([generate-lead-package.ts], "Aggregate results" of [runScan]) *)

Module LeadPackage.

Module Violation.

Record t : Type := mk {
  id : string;
  impact : ImpactValue;
  description : string;
  help : string;
  helpUrl : string;
  nodes : Z;
  pageUrl : string
}.

End Violation.

Module ScanResult.

Record t : Type := mk {
  domain : string;
  scanDate : string;
  pagesScanned : Z;
  totalViolations : Z;
  bySeverity : BySeverity.t;
  topIssues : list Issue.t;
  allViolations : list Violation.t;
  leadGrade : LeadGrade
}.

End ScanResult.

(** The record pushed for one violation of a page. *)
Definition toViolation (pageUrl : string) (violation : Axe.Result) : Violation.t :=
  {| Violation.id := Axe.id violation;
     Violation.impact := impactOrMinor (Axe.impact violation);
     Violation.description := Axe.description violation;
     Violation.help := Axe.help violation;
     Violation.helpUrl := Axe.helpUrl violation;
     Violation.nodes := JS.len (Axe.nodes violation);
     Violation.pageUrl := pageUrl |}.

(** [bySeverity[severity] += nodes]; each of the four severities is a key of
    [bySeverity], so the guard [severity in bySeverity] holds. *)
Definition add (bySeverity : BySeverity.t) (severity : ImpactValue) (nodes : Z)
  : BySeverity.t :=
  match severity with
  | critical =>
      {| BySeverity.critical := BySeverity.critical bySeverity + nodes;
         BySeverity.serious := BySeverity.serious bySeverity;
         BySeverity.moderate := BySeverity.moderate bySeverity;
         BySeverity.minor := BySeverity.minor bySeverity |}
  | serious =>
      {| BySeverity.critical := BySeverity.critical bySeverity;
         BySeverity.serious := BySeverity.serious bySeverity + nodes;
         BySeverity.moderate := BySeverity.moderate bySeverity;
         BySeverity.minor := BySeverity.minor bySeverity |}
  | moderate =>
      {| BySeverity.critical := BySeverity.critical bySeverity;
         BySeverity.serious := BySeverity.serious bySeverity;
         BySeverity.moderate := BySeverity.moderate bySeverity + nodes;
         BySeverity.minor := BySeverity.minor bySeverity |}
  | minor =>
      {| BySeverity.critical := BySeverity.critical bySeverity;
         BySeverity.serious := BySeverity.serious bySeverity;
         BySeverity.moderate := BySeverity.moderate bySeverity;
         BySeverity.minor := BySeverity.minor bySeverity + nodes |}
  end.

(** [issueCount[id].count += nodes]. *)
Definition countAdd (nodes : Z) (data : IssueCount.t) : IssueCount.t :=
  {| IssueCount.count := IssueCount.count data + nodes;
     IssueCount.impact := IssueCount.impact data |}.

(** The body of the loop over [allViolations]; as in [src/index.ts], an
    inherited member found under the rule identifier keeps [issueCount] as
    it is. *)
Definition tallyOne (state : BySeverity.t * JS.object IssueCount.t) (v : Violation.t)
  : BySeverity.t * JS.object IssueCount.t :=
  let bySeverity := add (fst state) (Violation.impact v) (Violation.nodes v) in
  let issueCount :=
    match JS.lookup (snd state) (Violation.id v) with
    | JS.undefined =>
        JS.set (snd state) (Violation.id v)
          {| IssueCount.count := 0; IssueCount.impact := Violation.impact v |}
    | JS.own _ | JS.inherits => snd state
    end in
  (bySeverity, JS.modify issueCount (Violation.id v) (countAdd (Violation.nodes v))).

Definition tally (allViolations : list Violation.t)
  : BySeverity.t * JS.object IssueCount.t :=
  fold_left tallyOne allViolations
    ({| BySeverity.critical := 0; BySeverity.serious := 0;
        BySeverity.moderate := 0; BySeverity.minor := 0 |}, []).

(** The grade starts as C and is raised to A or B; there is no other. *)
Definition grade (criticalSerious totalViolations : Z) : LeadGrade :=
  if (criticalSerious >=? 10) || (totalViolations >=? 25) then A_LEAD
  else if (criticalSerious >=? 5) || (totalViolations >=? 15) then B_LEAD
  else C_LEAD.

(** [runScan] from "Aggregate results" on: [pagesScanned] holds the pages
    that were scanned without a throw. *)
Definition aggregate (domain scanDate : string) (pagesScanned : list string)
    (allViolations : list Violation.t) : ScanResult.t :=
  let counted := tally allViolations in
  let bySeverity := fst counted in
  let topIssues := JS.slice0 (ranking (snd counted)) 10 in
  let totalViolations :=
    BySeverity.critical bySeverity + BySeverity.serious bySeverity
    + BySeverity.moderate bySeverity + BySeverity.minor bySeverity in
  let criticalSerious :=
    BySeverity.critical bySeverity + BySeverity.serious bySeverity in
  {| ScanResult.domain := domain;
     ScanResult.scanDate := scanDate;
     ScanResult.pagesScanned := JS.len pagesScanned;
     ScanResult.totalViolations := totalViolations;
     ScanResult.bySeverity := bySeverity;
     ScanResult.topIssues := topIssues;
     ScanResult.allViolations := allViolations;
     ScanResult.leadGrade := grade criticalSerious totalViolations |}.

End LeadPackage.

(** ** The pricing of a proposal ([src/generate-proposal.ts]) *)

Module Proposal.

Module ScanResult.

Record t : Type := mk {
  domain : string;
  totalViolations : Z;
  pagesScanned : Z;
  bySeverity : BySeverity.t
}.

End ScanResult.

Module Config.

Record t : Type := mk {
  organizationName : string;
  contactName : string;
  contactTitle : option string;
  contactEmail : string;
  estimatedPages : option Z;
  estimatedPDFs : option Z
}.

End Config.

Record Item : Type := mkItem {
  price : Z;
  description : string
}.

Module Pricing.

Record t : Type := mk {
  audit : Item;
  remediation : Item;
  pdf : Item;
  training : Item;
  monitoring : Item;
  total : Z;
  totalWithMonitoring : Z
}.

End Pricing.

(** The counts and the estimates are whole numbers.  The prices are exact
    as long as the PDF price and the totals stay within
    [JS.maxSafeInteger]; beyond it the program rounds its sums, which [Z]
    does not. *)
Definition calculatePricing (result : ScanResult.t) (config : Config.t) : Pricing.t :=
  let totalIssues := ScanResult.totalViolations result in
  let criticalSerious :=
    BySeverity.critical (ScanResult.bySeverity result)
    + BySeverity.serious (ScanResult.bySeverity result) in
  let pages := JS.orNumber (Config.estimatedPages config) 50 in
  let pdfs := JS.orNumber (Config.estimatedPDFs config) 50 in
  let auditPrice := 5000 in
  let auditPrice := if pages >? 100 then 10000 else auditPrice in
  let auditPrice := if pages >? 500 then 15000 else auditPrice in
  let remediationPrice := 15000 in
  let remediationPrice := if totalIssues >? 20 then 25000 else remediationPrice in
  let remediationPrice := if totalIssues >? 50 then 40000 else remediationPrice in
  let remediationPrice :=
    if criticalSerious >? 10 then remediationPrice + 10000 else remediationPrice in
  let pdfPrice := pdfs * 75 in
  let trainingPrice := 2500 in
  let monitoringPrice := 6000 in
  {| Pricing.audit :=
       {| price := auditPrice; description := "Comprehensive WCAG 2.1 AA Audit" |};
     Pricing.remediation :=
       {| price := remediationPrice;
          description := "Website Remediation & Code Fixes" |};
     Pricing.pdf :=
       {| price := pdfPrice;
          description :=
            String.append "PDF Remediation (est. "
              (String.append (JS.numberText pdfs) " documents)") |};
     Pricing.training :=
       {| price := trainingPrice; description := "Staff Accessibility Training" |};
     Pricing.monitoring :=
       {| price := monitoringPrice; description := "Annual Compliance Monitoring" |};
     Pricing.total := auditPrice + remediationPrice + pdfPrice + trainingPrice;
     Pricing.totalWithMonitoring :=
       auditPrice + remediationPrice + pdfPrice + trainingPrice + monitoringPrice |}.

(** The scan result that the proposal reads from the [raw-results.json] of
    an audit. *)
Definition read (summary : AuditSummary.t) : ScanResult.t :=
  {| ScanResult.domain := AuditSummary.domain summary;
     ScanResult.totalViolations := AuditSummary.totalViolations summary;
     ScanResult.pagesScanned := AuditSummary.pagesScanned summary;
     ScanResult.bySeverity := AuditSummary.bySeverity summary |}.

End Proposal.

(** ** A scripted environment

    A host whose answers are fixed in advance, to run the program on
    concrete sites: every sitemap location has one answer and every page has
    one behaviour; the clock advances with the timers. *)

Module Scripted.

Inductive Page : Type :=
  | navigationFails (e : Thrown)
  | analysisFails (e : Thrown)
  | analysed (results : Axe.Results).

Record State : Type := mkState {
  clock : Z;
  loaded : string
}.

Definition start : State := {| clock := 0; loaded := "" |}.

Definition host (parse : string -> Completion URL.t)
    (sitemaps : string -> Completion (option (list string)))
    (pages : string -> Page) : Host :=
  {| World := State;
     newURL := parse;
     sitemapFetch := fun location w => (sitemaps location, w);
     launchBrowser := fun w => (Normal tt, w);
     pageGoto := fun url w =>
       match pages url with
       | navigationFails e => (Abrupt e, w)
       | _ => (Normal tt, {| clock := clock w; loaded := url |})
       end;
     axeAnalyze := fun w =>
       match pages (loaded w) with
       | analysed results => (Normal results, w)
       | analysisFails e => (Abrupt e, w)
       | navigationFails e => (Abrupt e, w)
       end;
     browserClose := fun w => (Normal tt, w);
     setTimeout := fun ms w => {| clock := clock w + ms; loaded := loaded w |};
     dateNow := clock;
     dateISO := fun _ => "2026-01-02T09:00:00.000Z" |}.

(** The one base URL of the examples. *)
Definition parse (s : string) : Completion URL.t :=
  if String.eqb s "https://www.example.gov" then
    Normal {| URL.protocol := "https:"; URL.host := "www.example.gov";
              URL.hostname := "www.example.gov" |}
  else Abrupt (ErrorObject "Invalid URL").

Definition noSitemap (location : string) : Completion (option (list string)) :=
  if String.eqb location "https://www.example.gov/sitemap.xml"
  then Abrupt (ErrorObject "Request failed")
  else if String.eqb location "https://www.example.gov/sitemap_index.xml"
  then Normal None
  else Normal (Some []).

Definition oneSitemap (location : string) : Completion (option (list string)) :=
  if String.eqb location "https://www.example.gov/sitemap_index.xml"
  then Normal (Some [ "https://www.example.gov/";
                      "https://www.example.gov/Forms/Enrol.PDF";
                      "https://www.example.gov/contact";
                      "https://www.example.gov/about" ])
  else Abrupt OtherValue.

Definition imageAlt (nodes : list string) (impact : Axe.Impact) : Axe.Result :=
  {| Axe.id := "image-alt";
     Axe.impact := impact;
     Axe.description := "Ensures <img> elements have alternate text";
     Axe.help := "Images must have alternate text";
     Axe.helpUrl := "https://dequeuniversity.com/rules/axe/4.8/image-alt";
     Axe.tags := ["cat.text-alternatives"; "wcag2a"; "wcag111"];
     Axe.nodes := nodes |}.

Definition pages (url : string) : Page :=
  if String.eqb url "https://www.example.gov/"
  then analysed {| Axe.violations :=
                     [imageAlt ["<img src=a>"; "<img src=b>"; "<img src=c>"]
                               (Axe.value critical)];
                   Axe.passes := [];
                   Axe.incomplete := [] |}
  else if String.eqb url "https://www.example.gov/contact"
  then navigationFails (ErrorObject "Navigation timeout of 30000 ms exceeded")
  else if String.eqb url "https://www.example.gov/about"
  then analysed {| Axe.violations := [imageAlt ["<img src=d>"] Axe.null];
                   Axe.passes := [];
                   Axe.incomplete := [] |}
  else analysisFails OtherValue.

(** A sitemap that lists documents only. *)
Definition documentSitemap (location : string) : Completion (option (list string)) :=
  if String.eqb location "https://www.example.gov/sitemap.xml"
  then Normal (Some [ "https://www.example.gov/Forms/Enrol.PDF";
                      "https://www.example.gov/minutes.docx" ])
  else Abrupt OtherValue.

(** A site whose sitemap lists documents only. *)
Definition archiveSite : Host := host parse documentSitemap pages.

(** A site without a sitemap whose home page cannot be analysed. *)
Definition bareSite : Host := host parse noSitemap pages.

(** A site with a sitemap of four URLs. *)
Definition mappedSite : Host := host parse oneSitemap pages.




End Scripted.

(** A summary with the given tally and total, for the examples of grading. *)
Definition tallied (critical serious moderate minor total : Z) : AuditSummary.t :=
  {| AuditSummary.domain := "www.example.gov";
     AuditSummary.scanDate := "2026-01-02T09:00:00.000Z";
     AuditSummary.pagesScanned := 10;
     AuditSummary.pagesWithErrors := 0;
     AuditSummary.totalViolations := total;
     AuditSummary.bySeverity :=
       {| BySeverity.critical := critical; BySeverity.serious := serious;
          BySeverity.moderate := moderate; BySeverity.minor := minor |};
     AuditSummary.topIssues := [];
     AuditSummary.allViolations := [] |}.

(** ** Vocabulary of the properties *)

(** [sub] is [full] with some elements left out, the others in their order. *)
Inductive Subsequence {A : Type} : list A -> list A -> Prop :=
  | Subsequence_nil : Subsequence [] []
  | Subsequence_skip (x : A) (sub full : list A) :
      Subsequence sub full -> Subsequence sub (x :: full)
  | Subsequence_keep (x : A) (sub full : list A) :
      Subsequence sub full -> Subsequence (x :: sub) (x :: full).

(** The extensions the crawler refuses. *)
Definition deniedExtensions : list string :=
  ["pdf"; "jpg"; "jpeg"; "png"; "gif"; "doc"; "docx"; "xls"; "xlsx"; "zip"; "rar"].

Definition hasDeniedExtension (u : string) : Prop :=
  exists ext, In ext deniedExtensions
              /\ JS.endsWith (JS.toLowerCase u) (String.append "." ext) = true.

Definition impactEqb (a b : ImpactValue) : bool :=
  match a, b with
  | critical, critical | serious, serious | moderate, moderate | minor, minor => true
  | _, _ => false
  end.

(** [bySeverity[impact]]. *)
Definition bucket (bySeverity : BySeverity.t) (impact : ImpactValue) : Z :=
  match impact with
  | critical => BySeverity.critical bySeverity
  | serious => BySeverity.serious bySeverity
  | moderate => BySeverity.moderate bySeverity
  | minor => BySeverity.minor bySeverity
  end.

Definition severityTotal (bySeverity : BySeverity.t) : Z :=
  BySeverity.critical bySeverity + BySeverity.serious bySeverity
  + BySeverity.moderate bySeverity + BySeverity.minor bySeverity.

(** The records of one severity, and of one rule. *)
Definition withImpact (impact : ImpactValue) (records : list Violation.t)
  : list Violation.t :=
  filter (fun v => impactEqb (Violation.impact v) impact) records.

Definition withRule (rule : string) (records : list Violation.t) : list Violation.t :=
  filter (fun v => String.eqb (Violation.id v) rule) records.

(** The affected DOM nodes of a list of records, all together. *)
Definition occurrences (records : list Violation.t) : Z :=
  fold_right (fun v sum => Violation.nodeCount v + sum) 0 records.

(** The counts of a ranking, all together. *)
Definition countSum (issues : list Issue.t) : Z :=
  fold_right (fun issue sum => Issue.count issue + sum) 0 issues.

(** The counts stored in [issueCount], all together. *)
Definition storedSum (issueCount : JS.object IssueCount.t) : Z :=
  fold_right (fun entry sum => IssueCount.count (snd entry) + sum) 0 issueCount.

(** The count stored for one rule, 0 when there is none. *)
Definition storedCount (o : JS.object IssueCount.t) (key : string) : Z :=
  match JS.get o key with
  | Some data => IssueCount.count data
  | None => 0
  end.

(** A sitemap location gives nothing: the fetch throws, or there are no
    sites in its answer. *)
Definition givesNothing (answer : Completion (option (list string))) : bool :=
  match answer with
  | Abrupt _ => true
  | Normal None => true
  | Normal (Some []) => true
  | Normal (Some (_ :: _)) => false
  end.

(** Every location of the list gives nothing when probed in turn from [w]. *)
Fixpoint allGiveNothing (host : Host) (locations : list string) (w : World host)
  : bool :=
  match locations with
  | [] => true
  | location :: rest =>
      givesNothing (fst (sitemapFetch host location w))
      && allGiveNothing host rest (snd (sitemapFetch host location w))
  end.

(** [result] is the outcome of a page on which navigation and analysis ended
    as [attempt] did: a failure with the text of what was thrown and no
    records, or the records of what the rule engine found. *)
Definition outcomeOf (url : string) (attempt : Completion Axe.Results)
    (result : PageResult.t) : Prop :=
  match attempt with
  | Abrupt thrown =>
      PageResult.url result = url
      /\ PageResult.error result
         = Some match thrown with
                | ErrorObject message => message
                | OtherValue => "Unknown error"
                end
      /\ PageResult.violations result = []
      /\ PageResult.passes result = 0
      /\ PageResult.incomplete result = 0
  | Normal results =>
      PageResult.url result = url
      /\ PageResult.error result = None
      /\ PageResult.violations result
         = map (toViolation url) (Axe.violations results)
      /\ PageResult.passes result = JS.len (Axe.passes results)
      /\ PageResult.incomplete result = JS.len (Axe.incomplete results)
  end.

(** The world in which the page after [url] is scanned: the one [url] left,
    a second later unless [url] was the last page. *)
Definition afterPage (host : Host) (url : string) (rest : list string)
    (w : World host) : World host :=
  let w1 := snd (loadAndAnalyze host url w) in
  match rest with
  | [] => w1
  | _ :: _ => setTimeout host 1000 w1
  end.

(** The worlds in which the pages of a run are scanned, one per URL, and the
    world the run leaves. *)
Fixpoint pageWorlds (host : Host) (urls : list string) (w : World host)
  : list (World host) :=
  match urls with
  | [] => []
  | url :: rest => w :: pageWorlds host rest (afterPage host url rest w)
  end.

Fixpoint afterPages (host : Host) (urls : list string) (w : World host)
  : World host :=
  match urls with
  | [] => w
  | url :: rest => afterPages host rest (afterPage host url rest w)
  end.

(** [result] is the outcome of scanning a URL in a given world: the outcome
    of what navigation and analysis did there, with the time they took. *)
Definition scannedIn (host : Host) (page : string * World host)
    (result : PageResult.t) : Prop :=
  let attempt := loadAndAnalyze host (fst page) (snd page) in
  outcomeOf (fst page) (fst attempt) result
  /\ PageResult.scanTime result
     = dateNow host (snd attempt) - dateNow host (snd page).

(** An outcome carries a failure marker when its [error] is set. *)
Definition failed (result : PageResult.t) : bool :=
  match PageResult.error result with
  | Some _ => true
  | None => false
  end.

(** The world after the given sitemap locations have been fetched in turn. *)
Fixpoint afterProbes (host : Host) (locations : list string) (w : World host)
  : World host :=
  match locations with
  | [] => w
  | location :: rest => afterProbes host rest (snd (sitemapFetch host location w))
  end.

(** The first record of a rule. *)
Definition firstOfRule (rule : string) (records : list Violation.t)
  : option Violation.t :=
  find (fun v => String.eqb (Violation.id v) rule) records.

(** The impact stored for one rule in [issueCount]. *)
Definition storedImpact (o : JS.object IssueCount.t) (key : string)
  : option ImpactValue :=
  option_map IssueCount.impact (JS.get o key).

(** An issue that is not behind one with a smaller count. *)
Definition notBelow (earlier later : Issue.t) : Prop :=
  Issue.count later <= Issue.count earlier.

(** The records of the lead package generator: those of one severity, those
    of one rule, and the affected nodes of a list of them. *)
Definition leadWithImpact (impact : ImpactValue)
    (records : list LeadPackage.Violation.t) : list LeadPackage.Violation.t :=
  filter (fun v => impactEqb (LeadPackage.Violation.impact v) impact) records.

Definition leadWithRule (rule : string)
    (records : list LeadPackage.Violation.t) : list LeadPackage.Violation.t :=
  filter (fun v => String.eqb (LeadPackage.Violation.id v) rule) records.

Definition leadNodes (records : list LeadPackage.Violation.t) : Z :=
  fold_right (fun v sum => LeadPackage.Violation.nodes v + sum) 0 records.

(** A [parseInt] for the examples: the value of a text of decimal digits. *)
Definition parseDigits (text : string) : option Z :=
  if String.eqb text "" then None
  else option_map Z.of_N (JS.decimal text 0%N).

(** [main] shows the help: there is no argument, or the first one asks for
    it. *)
Definition showsHelp (args : list string) : bool :=
  match args with
  | [] => true
  | first :: _ => String.eqb first "--help" || String.eqb first "-h"
  end.

(** The site with a sitemap, with a browser that cannot be launched. *)
Definition noBrowser : Host :=
  {| World := World Scripted.mappedSite;
     newURL := newURL Scripted.mappedSite;
     sitemapFetch := sitemapFetch Scripted.mappedSite;
     launchBrowser := fun w =>
       (Abrupt (ErrorObject "Failed to launch the browser process!"), w);
     pageGoto := pageGoto Scripted.mappedSite;
     axeAnalyze := axeAnalyze Scripted.mappedSite;
     browserClose := browserClose Scripted.mappedSite;
     setTimeout := setTimeout Scripted.mappedSite;
     dateNow := dateNow Scripted.mappedSite;
     dateISO := dateISO Scripted.mappedSite |}.

(** The distinct strings of a list, in the order in which they first
    appear. *)
Fixpoint firstSeen (ids : list string) : list string :=
  match ids with
  | [] => []
  | x :: rest => x :: filter (fun y => negb (String.eqb y x)) (firstSeen rest)
  end.

(** The issues of a list that have a given count, in their order. *)
Definition withCount (count : Z) (issues : list Issue.t) : list Issue.t :=
  filter (fun issue => Issue.count issue =? count) issues.

(** [y] is not among [keys]. *)
Definition unseen (keys : list string) (y : string) : bool :=
  negb (existsb (String.eqb y) keys).

(** An amount that a JavaScript number holds exactly. *)
Definition exactAmount (n : Z) : Prop :=
  - JS.maxSafeInteger <= n <= JS.maxSafeInteger.

(** The list that the lead summary report keeps for a grade. *)
Definition listOf (g : LeadGrade) (leads : Summarize.Leads)
  : list Summarize.Lead :=
  match g with
  | A_LEAD => Summarize.A leads
  | B_LEAD => Summarize.B leads
  | C_LEAD => Summarize.C leads
  | SKIP => Summarize.skip leads
  end.

(** The scan folders of an output directory: the directories whose name
    contains [-202]; and those of them with a [raw-results.json] that can be
    read, each with what it holds. *)
Definition scanFolders (entries : list Summarize.Entry) : list Summarize.Entry :=
  filter (fun f =>
            match Summarize.kind f with
            | Summarize.directory => JS.includes (Summarize.name f) "-202"
            | _ => false
            end) entries.

Definition withResults (kept : list Summarize.Entry)
  : list (string * Summarize.Data) :=
  flat_map (fun f =>
              match Summarize.rawResults f with
              | Summarize.holds data => [(Summarize.name f, data)]
              | _ => []
              end) kept.

(** The leads of the folders of one grade, in the order of the folders. *)
Definition filedUnder (g : LeadGrade) (found : list (string * Summarize.Data))
  : list Summarize.Lead :=
  map Summarize.toLead
      (filter (fun entry =>
                 match Summarize.grade (snd entry), g with
                 | A_LEAD, A_LEAD | B_LEAD, B_LEAD
                 | C_LEAD, C_LEAD | SKIP, SKIP => true
                 | _, _ => false
                 end) found).

(** An output directory with two scan folders that hold results, one scan
    folder without results, a directory of another kind and a file. *)
Definition outputDirectory : list Summarize.Entry :=
  [ {| Summarize.name := "springfield-k12-2026-01-02";
       Summarize.kind := Summarize.directory;
       Summarize.rawResults :=
         Summarize.holds
           {| Summarize.domain := Some "www.springfield.k12.example.us";
              Summarize.bySeverity :=
                Some {| Summarize.critical := Some 3;
                        Summarize.serious := Some 4 |};
              Summarize.totalViolations := Some 16;
              Summarize.topIssues := Some [Some "image-alt"] |} |};
    {| Summarize.name := "lead-summary.txt";
       Summarize.kind := Summarize.file;
       Summarize.rawResults := Summarize.missing |};
    {| Summarize.name := "templates";
       Summarize.kind := Summarize.directory;
       Summarize.rawResults :=
         Summarize.holds
           {| Summarize.domain := Some "www.example.gov";
              Summarize.bySeverity := None;
              Summarize.totalViolations := Some 40;
              Summarize.topIssues := None |} |};
    {| Summarize.name := "shelbyville-2026-01-03";
       Summarize.kind := Summarize.directory;
       Summarize.rawResults := Summarize.missing |};
    {| Summarize.name := "capital-city-2026-01-05";
       Summarize.kind := Summarize.directory;
       Summarize.rawResults :=
         Summarize.holds
           {| Summarize.domain := Some "www.capitalcity.example.gov";
              Summarize.bySeverity :=
                Some {| Summarize.critical := Some 5;
                        Summarize.serious := Some 2 |};
              Summarize.totalViolations := Some 21;
              Summarize.topIssues := Some [Some "color-contrast"] |} |} ].

(** No own property bears the name of a member of [Object.prototype]. *)
Definition plainKeys {V : Type} (o : JS.object V) : Prop :=
  Forall (fun key => JS.inherited key = false) (map fst o).

(** The records whose rule identifier names no member of [Object.prototype],
    for the auditor and for the lead package generator. *)
Definition plainRule (v : Violation.t) : bool :=
  negb (JS.inherited (Violation.id v)).

Definition plainRecords (records : list Violation.t) : list Violation.t :=
  filter plainRule records.

Definition leadPlainRule (v : LeadPackage.Violation.t) : bool :=
  negb (JS.inherited (LeadPackage.Violation.id v)).

(** * Properties *)

(** ** Lead qualification *)

Ltac split_thresholds :=
  rewrite ?Z.geb_leb, ?Z.gtb_ltb;
  repeat match goal with
         | |- context [Z.leb ?a ?b] => destruct (Z.leb_spec a b)
         | |- context [Z.ltb ?a ?b] => destruct (Z.ltb_spec a b)
         end;
  cbn [orb].

(** The tallies of the other scenarios of grading. *)
Example lead_grade_scenarios :
  printSummary_lead (tallied 0 6 2 1 9) = B_LEAD
  /\ printSummary_lead (tallied 0 0 0 0 0) = SKIP
  /\ printSummary_lead (tallied 0 0 3 1 4) = C_LEAD.
Proof. repeat split. Qed.

Lemma printSummary_lead_rules (summary : AuditSummary.t) :
  printSummary_lead summary
  = gradeByRules
      (BySeverity.critical (AuditSummary.bySeverity summary)
       + BySeverity.serious (AuditSummary.bySeverity summary))
      (AuditSummary.totalViolations summary).
Proof.
  unfold printSummary_lead, gradeByRules.
  split_thresholds; try reflexivity; lia.
Qed.

Lemma gradeByRules_A (cs total : Z) :
  gradeByRules cs total = A_LEAD <-> (cs >= 10 \/ total >= 25).
Proof.
  unfold gradeByRules. split_thresholds; split; intros; try discriminate;
    try reflexivity; lia.
Qed.

Lemma gradeByRules_B (cs total : Z) :
  gradeByRules cs total = B_LEAD
  <-> ~ (cs >= 10 \/ total >= 25) /\ (cs >= 5 \/ total >= 15).
Proof.
  unfold gradeByRules. split_thresholds; split; intros; try discriminate;
    try reflexivity; lia.
Qed.

Lemma gradeByRules_C (cs total : Z) :
  gradeByRules cs total = C_LEAD
  <-> ~ (cs >= 10 \/ total >= 25) /\ ~ (cs >= 5 \/ total >= 15) /\ total >= 1.
Proof.
  unfold gradeByRules. split_thresholds; split; intros; try discriminate;
    try reflexivity; lia.
Qed.

Lemma gradeByRules_SKIP (cs total : Z) :
  gradeByRules cs total = SKIP
  <-> ~ (cs >= 10 \/ total >= 25) /\ ~ (cs >= 5 \/ total >= 15) /\ ~ total >= 1.
Proof.
  unfold gradeByRules. split_thresholds; split; intros; try discriminate;
    try reflexivity; lia.
Qed.

Lemma gradeByRules_monotone (cs cs' total total' : Z) :
  cs <= cs' -> total <= total' ->
  level (gradeByRules cs total) <= level (gradeByRules cs' total').
Proof.
  intros Hcs Htotal. unfold gradeByRules.
  split_thresholds; cbn [level]; lia.
Qed.

(** ** Arrays and objects *)

Example slice0_from_the_end : JS.slice0 [1; 2; 3; 4; 5] (-2) = [1; 2; 3].
Proof. reflexivity. Qed.

Example sort_is_stable :
  JS.sort (fun a b => snd b - snd a)
          [("a", 1); ("b", 3); ("c", 1); ("d", 3); ("e", 2)]
  = [("b", 3); ("d", 3); ("e", 2); ("a", 1); ("c", 1)].
Proof. reflexivity. Qed.

Example entries_put_array_indices_first :
  JS.entries [("label", 1); ("10", 2); ("image-alt", 3); ("2", 4); ("01", 5)]
  = [("2", 4); ("10", 2); ("label", 1); ("image-alt", 3); ("01", 5)].
Proof. reflexivity. Qed.

Example isHtmlUrl_upper_case_pdf :
  isHtmlUrl "https://www.example.gov/Forms/Enrol.PDF" = false
  /\ isHtmlUrl "https://www.example.gov/pdf" = true.
Proof. split; reflexivity. Qed.

Section Arrays.

Context {A : Type}.

Lemma len_nonneg (a : list A) : 0 <= JS.len a.
Proof. unfold JS.len. lia. Qed.

Lemma Subsequence_filter (f : A -> bool) (a : list A) : Subsequence (filter f a) a.
Proof.
  induction a as [|x a IH]; cbn.
  - constructor.
  - destruct (f x).
    + apply Subsequence_keep, IH.
    + apply Subsequence_skip, IH.
Qed.

Lemma Subsequence_firstn (n : nat) (a : list A) : Subsequence (firstn n a) a.
Proof.
  revert n. induction a as [|x a IH]; intros [|n]; cbn.
  - constructor.
  - constructor.
  - apply Subsequence_skip, (IH 0%nat).
  - apply Subsequence_keep, IH.
Qed.

Lemma Subsequence_trans (a b c : list A) :
  Subsequence a b -> Subsequence b c -> Subsequence a c.
Proof.
  intros Hab Hbc. revert a Hab.
  induction Hbc as [|x b c Hbc IH|x b c Hbc IH]; intros a Hab.
  - exact Hab.
  - apply Subsequence_skip, IH, Hab.
  - inversion Hab; subst.
    + apply Subsequence_skip, IH. assumption.
    + apply Subsequence_keep, IH. assumption.
Qed.

(** With a positive [e], [slice(0, e)] keeps the first [e] elements. *)
Lemma slice0_positive (a : list A) (e : Z) :
  0 < e -> JS.slice0 a e = firstn (Z.to_nat e) a.
Proof.
  intros He. unfold JS.slice0.
  destruct (Z.ltb_spec e 0) as [Hneg|_]; [lia|].
  destruct (Z.le_ge_cases e (JS.len a)) as [Hle|Hge].
  - rewrite Z.min_l by exact Hle. reflexivity.
  - rewrite Z.min_r by exact Hge.
    unfold JS.len in *. rewrite Nat2Z.id.
    rewrite firstn_all. symmetry. apply firstn_all2. lia.
Qed.

Lemma Subsequence_In (sub full : list A) (x : A) :
  Subsequence sub full -> In x sub -> In x full.
Proof.
  induction 1 as [|y sub full _ IH|y sub full _ IH]; cbn; intros Hin.
  - exact Hin.
  - right. apply IH, Hin.
  - destruct Hin as [Heq|Hin]; [left; exact Heq|right; apply IH, Hin].
Qed.

Lemma slice0_Subsequence (a : list A) (e : Z) : Subsequence (JS.slice0 a e) a.
Proof. unfold JS.slice0. apply Subsequence_firstn. Qed.

Lemma slice0_In (a : list A) (e : Z) (x : A) : In x (JS.slice0 a e) -> In x a.
Proof. apply Subsequence_In, slice0_Subsequence. Qed.

Lemma insertBy_Permutation (cmp : A -> A -> Z) (x : A) (a : list A) :
  Permutation (JS.insertBy cmp x a) (x :: a).
Proof.
  induction a as [|y a IH]; cbn.
  - apply Permutation_refl.
  - destruct (0 <? cmp x y).
    + rewrite IH. apply perm_swap.
    + apply Permutation_refl.
Qed.

Lemma sort_Permutation (cmp : A -> A -> Z) (a : list A) :
  Permutation (JS.sort cmp a) a.
Proof.
  induction a as [|x a IH]; cbn.
  - constructor.
  - rewrite insertBy_Permutation. constructor. exact IH.
Qed.

Lemma filter_split_Permutation (f : A -> bool) (a : list A) :
  Permutation (filter f a ++ filter (fun x => negb (f x)) a) a.
Proof.
  induction a as [|x a IH]; cbn.
  - constructor.
  - destruct (f x); cbn.
    + constructor. exact IH.
    + symmetry. apply Permutation_cons_app. symmetry. exact IH.
Qed.

End Arrays.

Lemma entries_Permutation {V : Type} (o : JS.object V) :
  Permutation (JS.entries o) o.
Proof.
  unfold JS.entries.
  rewrite sort_Permutation.
  apply (filter_split_Permutation (fun kv => JS.isArrayIndex (fst kv))).
Qed.

Section Objects.

Context {V : Type}.

Lemma get_set (o : JS.object V) (key key' : string) (v : V) :
  JS.get (JS.set o key v) key'
  = if String.eqb key key' then Some v else JS.get o key'.
Proof.
  induction o as [|[k v0] o IH]; cbn.
  - reflexivity.
  - destruct (String.eqb_spec k key) as [->|Hk]; cbn.
    + destruct (String.eqb_spec key key'); reflexivity.
    + rewrite IH. destruct (String.eqb_spec k key') as [->|Hk'].
      * destruct (String.eqb_spec key key') as [->|_]; [contradiction|reflexivity].
      * reflexivity.
Qed.

Lemma get_modify (o : JS.object V) (key key' : string) (f : V -> V) :
  JS.get (JS.modify o key f) key'
  = if String.eqb key key' then option_map f (JS.get o key') else JS.get o key'.
Proof.
  induction o as [|[k v0] o IH]; cbn.
  - destruct (String.eqb key key'); reflexivity.
  - destruct (String.eqb_spec k key) as [->|Hk]; cbn.
    + destruct (String.eqb_spec key key'); reflexivity.
    + rewrite IH. destruct (String.eqb_spec k key') as [->|Hk'].
      * destruct (String.eqb_spec key key') as [->|_]; [contradiction|reflexivity].
      * reflexivity.
Qed.

Lemma keys_modify (o : JS.object V) (key : string) (f : V -> V) :
  map fst (JS.modify o key f) = map fst o.
Proof.
  induction o as [|[k v0] o IH]; cbn.
  - reflexivity.
  - destruct (String.eqb k key); cbn; [reflexivity|]. now rewrite IH.
Qed.

Lemma get_None_not_key (o : JS.object V) (key : string) :
  JS.get o key = None -> ~ In key (map fst o).
Proof.
  induction o as [|[k v0] o IH]; cbn; intros Hget Hin.
  - exact Hin.
  - destruct (String.eqb_spec k key) as [->|Hk]; [discriminate|].
    destruct Hin as [Heq|Hin]; [contradiction|]. exact (IH Hget Hin).
Qed.

(** Creating a property that is not there puts it last. *)
Lemma set_fresh (o : JS.object V) (key : string) (v : V) :
  JS.get o key = None -> JS.set o key v = (o ++ [(key, v)])%list.
Proof.
  induction o as [|[k v0] o IH]; cbn; intros Hget.
  - reflexivity.
  - destruct (String.eqb k key); [discriminate|]. now rewrite IH.
Qed.

(** With distinct keys, an entry of the object is what a lookup finds. *)
Lemma get_entry (o : JS.object V) (key : string) (v : V) :
  NoDup (map fst o) -> In (key, v) o -> JS.get o key = Some v.
Proof.
  induction o as [|[k v0] o IH]; cbn; intros Hnodup Hin.
  - contradiction.
  - inversion Hnodup as [|? ? Hnotin Hrest]; subst.
    destruct Hin as [Heq|Hin].
    + injection Heq as -> ->. now rewrite String.eqb_refl.
    + destruct (String.eqb_spec k key) as [->|_].
      * exfalso. apply Hnotin. apply (in_map fst) in Hin. exact Hin.
      * apply IH; assumption.
Qed.

Lemma modify_absent (o : JS.object V) (key : string) (f : V -> V) :
  JS.get o key = None -> JS.modify o key f = o.
Proof.
  induction o as [|[k v0] o IH]; cbn; intros Hget.
  - reflexivity.
  - destruct (String.eqb k key); [discriminate|]. now rewrite IH.
Qed.

(** An object whose own keys are plain has no own property under an
    inherited name. *)
Lemma get_inherited (o : JS.object V) (key : string) :
  plainKeys o -> JS.inherited key = true -> JS.get o key = None.
Proof.
  unfold plainKeys.
  induction o as [|[k v0] o IH]; cbn; intros Hplain Hkey.
  - reflexivity.
  - inversion Hplain as [|? ? Hk Hrest]; subst.
    destruct (String.eqb_spec k key) as [->|_]; [congruence|].
    apply IH; assumption.
Qed.

Lemma lookup_inherited (o : JS.object V) (key : string) :
  plainKeys o -> JS.inherited key = true -> JS.lookup o key = JS.inherits.
Proof.
  intros Hplain Hkey. unfold JS.lookup.
  now rewrite (get_inherited o key Hplain Hkey), Hkey.
Qed.

Lemma lookup_plain (o : JS.object V) (key : string) :
  JS.inherited key = false ->
  JS.lookup o key
  = match JS.get o key with Some v => JS.own v | None => JS.undefined end.
Proof. intros Hkey. unfold JS.lookup. now rewrite Hkey. Qed.

Lemma plainKeys_modify (o : JS.object V) (key : string) (f : V -> V) :
  plainKeys o -> plainKeys (JS.modify o key f).
Proof. unfold plainKeys. now rewrite keys_modify. Qed.

Lemma plainKeys_set (o : JS.object V) (key : string) (v : V) :
  JS.inherited key = false -> plainKeys o -> plainKeys (JS.set o key v).
Proof.
  unfold plainKeys. intros Hkey.
  induction o as [|[k v0] o IH]; cbn; intros Hplain.
  - constructor; [exact Hkey|constructor].
  - inversion Hplain as [|? ? Hk Hrest]; subst.
    destruct (String.eqb k key); cbn; constructor; auto.
Qed.

End Objects.

(** ** The tally of step 4 *)

Lemma storedSum_app (o o' : JS.object IssueCount.t) :
  storedSum (o ++ o')%list = storedSum o + storedSum o'.
Proof.
  induction o as [|entry o IH]; cbn.
  - reflexivity.
  - fold (storedSum (o ++ o')%list). fold (storedSum o). rewrite IH. lia.
Qed.

Lemma storedSum_countUp (o : JS.object IssueCount.t) (key : string) :
  JS.get o key <> None ->
  storedSum (JS.modify o key countUp) = storedSum o + 1.
Proof.
  induction o as [|[k d] o IH]; cbn; intros Hget.
  - contradiction.
  - destruct (String.eqb k key); cbn.
    + fold (storedSum o). lia.
    + fold (storedSum o). fold (storedSum (JS.modify o key countUp)).
      rewrite IH by exact Hget. lia.
Qed.

(** One record adds one to its severity and one to its rule. *)
Lemma tallyOne_bucket (state : BySeverity.t * JS.object IssueCount.t)
    (v : Violation.t) (impact : ImpactValue) :
  bucket (fst (tallyOne state v)) impact
  = bucket (fst state) impact
    + (if impactEqb (Violation.impact v) impact then 1 else 0).
Proof.
  unfold tallyOne. cbn [fst].
  destruct (Violation.impact v), impact; cbn; lia.
Qed.

Lemma tallyOne_severityTotal (state : BySeverity.t * JS.object IssueCount.t)
    (v : Violation.t) :
  severityTotal (fst (tallyOne state v)) = severityTotal (fst state) + 1.
Proof.
  unfold tallyOne, severityTotal. cbn [fst].
  destruct (Violation.impact v); cbn; lia.
Qed.

(** A record whose rule identifier names an inherited member leaves
    [issueCount] as it is; any other record is counted under its rule, which
    is created when it is new. *)
Lemma tallyOne_inherited (state : BySeverity.t * JS.object IssueCount.t)
    (v : Violation.t) :
  plainKeys (snd state) -> plainRule v = false ->
  snd (tallyOne state v) = snd state.
Proof.
  unfold plainRule. intros Hplain Hv. apply Bool.negb_false_iff in Hv.
  unfold tallyOne. cbn [snd].
  rewrite (lookup_inherited _ _ Hplain Hv).
  apply modify_absent, get_inherited; assumption.
Qed.

Lemma tallyOne_counted (state : BySeverity.t * JS.object IssueCount.t)
    (v : Violation.t) :
  plainRule v = true ->
  snd (tallyOne state v)
  = JS.modify
      match JS.get (snd state) (Violation.id v) with
      | Some _ => snd state
      | None =>
          JS.set (snd state) (Violation.id v)
            {| IssueCount.count := 0; IssueCount.impact := Violation.impact v |}
      end
      (Violation.id v) countUp.
Proof.
  unfold plainRule. intros Hv. apply Bool.negb_true_iff in Hv.
  unfold tallyOne. cbn [snd]. rewrite (lookup_plain _ _ Hv).
  destruct (JS.get (snd state) (Violation.id v)); reflexivity.
Qed.

Lemma tallyOne_plainKeys (state : BySeverity.t * JS.object IssueCount.t)
    (v : Violation.t) :
  plainKeys (snd state) -> plainKeys (snd (tallyOne state v)).
Proof.
  intros Hplain. destruct (plainRule v) eqn:Hv.
  - rewrite (tallyOne_counted _ _ Hv). apply plainKeys_modify.
    destruct (JS.get (snd state) (Violation.id v)); [exact Hplain|].
    apply plainKeys_set; [|exact Hplain].
    unfold plainRule in Hv. now apply Bool.negb_true_iff in Hv.
  - now rewrite (tallyOne_inherited _ _ Hplain Hv).
Qed.

Lemma tallyOne_storedSum (state : BySeverity.t * JS.object IssueCount.t)
    (v : Violation.t) :
  plainKeys (snd state) ->
  storedSum (snd (tallyOne state v))
  = storedSum (snd state) + (if plainRule v then 1 else 0).
Proof.
  intros Hplain. destruct (plainRule v) eqn:Hv.
  - rewrite (tallyOne_counted _ _ Hv).
    destruct (JS.get (snd state) (Violation.id v)) as [d|] eqn:Hget.
    + apply storedSum_countUp. rewrite Hget. discriminate.
    + rewrite storedSum_countUp.
      * rewrite set_fresh by exact Hget. rewrite storedSum_app. cbn. lia.
      * rewrite get_set, String.eqb_refl. discriminate.
  - rewrite (tallyOne_inherited _ _ Hplain Hv). lia.
Qed.

Lemma tallyOne_storedCount (state : BySeverity.t * JS.object IssueCount.t)
    (v : Violation.t) (rule : string) :
  plainKeys (snd state) ->
  storedCount (snd (tallyOne state v)) rule
  = storedCount (snd state) rule
    + (if String.eqb (Violation.id v) rule && plainRule v then 1 else 0).
Proof.
  intros Hplain. destruct (plainRule v) eqn:Hv.
  - rewrite (tallyOne_counted _ _ Hv), Bool.andb_true_r.
    unfold storedCount. rewrite get_modify.
    destruct (JS.get (snd state) (Violation.id v)) as [d|] eqn:Hget.
    + destruct (String.eqb_spec (Violation.id v) rule) as [<-|_].
      * rewrite Hget. cbn. lia.
      * lia.
    + rewrite get_set.
      destruct (String.eqb_spec (Violation.id v) rule) as [<-|_].
      * rewrite Hget. cbn. lia.
      * lia.
  - rewrite (tallyOne_inherited _ _ Hplain Hv), Bool.andb_false_r. lia.
Qed.

Lemma tallyOne_keys (state : BySeverity.t * JS.object IssueCount.t)
    (v : Violation.t) :
  NoDup (map fst (snd state)) -> NoDup (map fst (snd (tallyOne state v))).
Proof.
  intros Hnodup. unfold tallyOne, JS.lookup. cbn [snd]. rewrite keys_modify.
  destruct (JS.get (snd state) (Violation.id v)) as [d|] eqn:Hget.
  - exact Hnodup.
  - destruct (JS.inherited (Violation.id v)); [exact Hnodup|].
    rewrite set_fresh by exact Hget. rewrite map_app. cbn.
    apply (Permutation_NoDup (l := Violation.id v :: map fst (snd state))).
    + apply Permutation_cons_append.
    + constructor; [apply get_None_not_key, Hget|exact Hnodup].
Qed.

Lemma len_cons {A : Type} (x : A) (a : list A) : JS.len (x :: a) = 1 + JS.len a.
Proof. unfold JS.len. cbn [List.length]. lia. Qed.

Section TallyLoop.

Variable records : list Violation.t.

Lemma tally_loop_bucket (impact : ImpactValue) :
  forall state,
    bucket (fst (fold_left tallyOne records state)) impact
    = bucket (fst state) impact + JS.len (withImpact impact records).
Proof.
  induction records as [|v rest IH]; intros state; cbn [fold_left].
  - cbn. lia.
  - rewrite IH, tallyOne_bucket. unfold withImpact. cbn [filter].
    destruct (impactEqb (Violation.impact v) impact).
    + rewrite len_cons. lia.
    + lia.
Qed.

Lemma tally_loop_severityTotal :
  forall state,
    severityTotal (fst (fold_left tallyOne records state))
    = severityTotal (fst state) + JS.len records.
Proof.
  induction records as [|v rest IH]; intros state; cbn [fold_left].
  - cbn. lia.
  - rewrite IH, tallyOne_severityTotal, len_cons. lia.
Qed.

Lemma tally_loop_plainKeys :
  forall state,
    plainKeys (snd state) -> plainKeys (snd (fold_left tallyOne records state)).
Proof.
  induction records as [|v rest IH]; intros state Hplain; cbn [fold_left].
  - exact Hplain.
  - apply IH, tallyOne_plainKeys, Hplain.
Qed.

Lemma tally_loop_storedSum :
  forall state,
    plainKeys (snd state) ->
    storedSum (snd (fold_left tallyOne records state))
    = storedSum (snd state) + JS.len (plainRecords records).
Proof.
  induction records as [|v rest IH]; intros state Hplain; cbn [fold_left].
  - cbn. lia.
  - rewrite IH by (apply tallyOne_plainKeys, Hplain).
    rewrite tallyOne_storedSum by exact Hplain.
    unfold plainRecords. cbn [filter].
    destruct (plainRule v).
    + rewrite len_cons. lia.
    + lia.
Qed.

Lemma tally_loop_storedCount (rule : string) :
  forall state,
    plainKeys (snd state) ->
    storedCount (snd (fold_left tallyOne records state)) rule
    = storedCount (snd state) rule
      + (if JS.inherited rule then 0 else JS.len (withRule rule records)).
Proof.
  induction records as [|v rest IH]; intros state Hplain; cbn [fold_left].
  - destruct (JS.inherited rule); cbn; lia.
  - rewrite IH by (apply tallyOne_plainKeys, Hplain).
    rewrite tallyOne_storedCount by exact Hplain.
    unfold withRule, plainRule. cbn [filter].
    destruct (String.eqb_spec (Violation.id v) rule) as [->|_]; cbn [andb].
    + destruct (JS.inherited rule); cbn [negb].
      * lia.
      * rewrite len_cons. lia.
    + lia.
Qed.

Lemma tally_loop_keys :
  forall state,
    NoDup (map fst (snd state)) ->
    NoDup (map fst (snd (fold_left tallyOne records state))).
Proof.
  induction records as [|v rest IH]; intros state Hnodup; cbn [fold_left].
  - exact Hnodup.
  - apply IH, tallyOne_keys, Hnodup.
Qed.

End TallyLoop.

(** What the tally holds after the loop: the number of records per severity
    and per rule. *)
Lemma tally_bucket (records : list Violation.t) (impact : ImpactValue) :
  bucket (fst (tally records)) impact = JS.len (withImpact impact records).
Proof. unfold tally. rewrite tally_loop_bucket. destruct impact; cbn; lia. Qed.

Lemma tally_severityTotal (records : list Violation.t) :
  severityTotal (fst (tally records)) = JS.len records.
Proof. unfold tally. rewrite tally_loop_severityTotal. cbn. lia. Qed.

Lemma plainKeys_nil {V : Type} : plainKeys (V := V) [].
Proof. constructor. Qed.

Lemma tally_plainKeys (records : list Violation.t) :
  plainKeys (snd (tally records)).
Proof. unfold tally. apply tally_loop_plainKeys, plainKeys_nil. Qed.

Lemma tally_storedSum (records : list Violation.t) :
  storedSum (snd (tally records)) = JS.len (plainRecords records).
Proof.
  unfold tally. rewrite tally_loop_storedSum by apply plainKeys_nil. cbn. lia.
Qed.

Lemma tally_storedCount (records : list Violation.t) (rule : string) :
  storedCount (snd (tally records)) rule
  = if JS.inherited rule then 0 else JS.len (withRule rule records).
Proof.
  unfold tally. rewrite tally_loop_storedCount by apply plainKeys_nil.
  cbn. lia.
Qed.

Lemma tally_keys (records : list Violation.t) :
  NoDup (map fst (snd (tally records))).
Proof. unfold tally. apply tally_loop_keys. cbn. constructor. Qed.

(** ** The ranking *)

Lemma countSum_Permutation (a b : list Issue.t) :
  Permutation a b -> countSum a = countSum b.
Proof.
  induction 1 as [|x a b _ IH|x y a|a b c _ IHab _ IHbc]; cbn.
  - reflexivity.
  - fold (countSum a). fold (countSum b). lia.
  - lia.
  - congruence.
Qed.

Lemma countSum_toIssue (o : JS.object IssueCount.t) :
  countSum (map toIssue o) = storedSum o.
Proof.
  induction o as [|entry o IH]; cbn.
  - reflexivity.
  - fold (countSum (map toIssue o)). fold (storedSum o). lia.
Qed.

Lemma ranking_Permutation (o : JS.object IssueCount.t) :
  Permutation (ranking o) (map toIssue o).
Proof.
  unfold ranking. rewrite sort_Permutation.
  apply Permutation_map, entries_Permutation.
Qed.

Lemma ranking_countSum (o : JS.object IssueCount.t) :
  countSum (ranking o) = storedSum o.
Proof.
  rewrite (countSum_Permutation _ _ (ranking_Permutation o)).
  apply countSum_toIssue.
Qed.

(** With distinct keys, an issue of the ranking carries the count stored for
    its rule. *)
Lemma ranking_entry (o : JS.object IssueCount.t) (issue : Issue.t) :
  NoDup (map fst o) -> In issue (ranking o) ->
  Issue.count issue = storedCount o (Issue.rule issue).
Proof.
  intros Hnodup Hin.
  apply (Permutation_in _ (ranking_Permutation o)) in Hin.
  apply in_map_iff in Hin. destruct Hin as [[key data] [<- Hin]].
  unfold storedCount. cbn. now rewrite (get_entry o key data Hnodup Hin).
Qed.

(** ** Awaited computations *)

Section Awaited.

Context {W A B : Type}.

Lemma bind_Normal (c : Async W A) (k : A -> Async W B) (w w' : W) (a : A) :
  c w = (Normal a, w') -> bind c k w = k a w'.
Proof. intros Hc. unfold bind. now rewrite Hc. Qed.

Lemma bind_returns (c : Async W A) (k : A -> Async W B) (w w2 : W) (b : B) :
  bind c k w = (Normal b, w2) ->
  exists a w1, c w = (Normal a, w1) /\ k a w1 = (Normal b, w2).
Proof.
  unfold bind. destruct (c w) as [[a|e] w1]; intros Hrun.
  - exists a, w1. split; [reflexivity|exact Hrun].
  - discriminate.
Qed.

End Awaited.

(** ** The sitemap crawler *)

Section CrawlerFacts.

Variable host : Host.

(** One probe never throws: it yields the sites of a location that has
    some, and nothing otherwise. *)
Lemma probe_run (location : string) (w : World host) :
  probe host location w
  = (Normal (match fst (sitemapFetch host location w) with
             | Normal (Some sites) => if 0 <? JS.len sites then Some sites else None
             | Normal None => None
             | Abrupt _ => None
             end),
     snd (sitemapFetch host location w)).
Proof.
  unfold probe, tryCatch, bind, ret.
  destruct (sitemapFetch host location w) as [[[sites|]|e] w']; cbn; try reflexivity.
  destruct (0 <? JS.len sites); reflexivity.
Qed.

Lemma probeSitemaps_returns (locations : list string) :
  forall w, exists allUrls w',
    probeSitemaps host locations w = (Normal allUrls, w').
Proof.
  induction locations as [|location rest IH]; intros w; cbn [probeSitemaps].
  - exists [], w. reflexivity.
  - rewrite (bind_Normal _ _ _ _ _ (probe_run location w)).
    destruct (fst (sitemapFetch host location w)) as [[sites|]|e];
      try apply IH.
    destruct (0 <? JS.len sites); [|apply IH].
    eexists _, _. reflexivity.
Qed.

Lemma probeSitemaps_nothing (locations : list string) :
  forall w, allGiveNothing host locations w = true ->
    exists w', probeSitemaps host locations w = (Normal [], w').
Proof.
  induction locations as [|location rest IH]; intros w Hnothing;
    cbn [probeSitemaps allGiveNothing] in *.
  - exists w. reflexivity.
  - apply andb_true_iff in Hnothing. destruct Hnothing as [Hthis Hrest].
    rewrite (bind_Normal _ _ _ _ _ (probe_run location w)).
    destruct (fst (sitemapFetch host location w)) as [[[|site sites]|]|e];
      try discriminate; cbn; apply IH, Hrest.
Qed.

(** When the probing found sites, the crawler answers with the filtered and
    limited list. *)
Lemma getUrlsFromSitemap_found (baseUrl : string) (maxPages : Z)
    (w w' : World host) (url : URL.t) (allUrls : list string) :
  newURL host baseUrl = Normal url ->
  probeSitemaps host (sitemapLocations (domainOf url)) w = (Normal allUrls, w') ->
  allUrls <> [] ->
  getUrlsFromSitemap host baseUrl maxPages w
  = (Normal {| CrawlResult.urls := limitedUrls allUrls maxPages;
               CrawlResult.source := sitemap;
               CrawlResult.totalFound := JS.len allUrls;
               CrawlResult.filtered := JS.len (limitedUrls allUrls maxPages) |},
     w').
Proof.
  intros Hurl Hprobe Hsome. unfold getUrlsFromSitemap.
  unfold lift at 1. unfold bind at 1. rewrite Hurl.
  rewrite (bind_Normal _ _ _ _ _ Hprobe).
  destruct allUrls as [|u rest]; [contradiction|].
  rewrite len_cons.
  destruct (Z.eqb_spec (1 + JS.len rest) 0) as [Hzero|_].
  - pose proof (len_nonneg rest). lia.
  - reflexivity.
Qed.

End CrawlerFacts.

(** C5: when all four probed sitemap locations throw or give no URLs, the
    crawler answers with exactly the root URL, tagged [fallback]; a probe
    that fails is never fatal (the probing always returns), and the
    fallback answer is returned, not thrown. *)
Theorem sitemap_fallback (host : Host) (baseUrl : string) (maxPages : Z)
    (w : World host) (url : URL.t) :
  newURL host baseUrl = Normal url ->
  allGiveNothing host (sitemapLocations (domainOf url)) w = true ->
  List.length (sitemapLocations (domainOf url)) = 4%nat
  /\ (forall locations w0, exists allUrls w1,
        probeSitemaps host locations w0 = (Normal allUrls, w1))
  /\ exists w',
       getUrlsFromSitemap host baseUrl maxPages w
       = (Normal {| CrawlResult.urls := [baseUrl];
                    CrawlResult.source := fallback;
                    CrawlResult.totalFound := 1;
                    CrawlResult.filtered := 1 |}, w').
Proof.
  intros Hurl Hnothing. split; [reflexivity|]. split.
  - intros locations w0. apply probeSitemaps_returns.
  - destruct (probeSitemaps_nothing host _ w Hnothing) as [w' Hprobe].
    exists w'. unfold getUrlsFromSitemap.
    unfold lift at 1. unfold bind at 1. rewrite Hurl.
    rewrite (bind_Normal _ _ _ _ _ Hprobe). reflexivity.
Qed.

Lemma sitemap_fallback_witness :
  newURL Scripted.bareSite "https://www.example.gov"
  = Normal {| URL.protocol := "https:"; URL.host := "www.example.gov";
              URL.hostname := "www.example.gov" |}
  /\ allGiveNothing Scripted.bareSite
       (sitemapLocations "https://www.example.gov") Scripted.start = true
  /\ exists w',
       getUrlsFromSitemap Scripted.bareSite "https://www.example.gov" 10
         Scripted.start
       = (Normal {| CrawlResult.urls := ["https://www.example.gov"];
                    CrawlResult.source := fallback;
                    CrawlResult.totalFound := 1;
                    CrawlResult.filtered := 1 |}, w').
Proof.
  split; [reflexivity|]. split; [reflexivity|].
  apply (sitemap_fallback Scripted.bareSite "https://www.example.gov" 10
           Scripted.start
           {| URL.protocol := "https:"; URL.host := "www.example.gov";
              URL.hostname := "www.example.gov" |});
    reflexivity.
Defined.

(** ** The URL filter *)

Lemma isHtmlUrl_no_denied_extension (u : string) :
  isHtmlUrl u = true -> ~ hasDeniedExtension u.
Proof.
  unfold isHtmlUrl, hasDeniedExtension. intros Hhtml [ext [Hin Hends]].
  set (lower := JS.toLowerCase u) in *.
  repeat match type of Hhtml with
         | context [JS.endsWith lower ?suffix] =>
             let E := fresh "E" in
             destruct (JS.endsWith lower suffix) eqn:E;
             cbn [orb] in Hhtml; [discriminate|]
         end.
  cbn [deniedExtensions In] in Hin.
  repeat (destruct Hin as [<-|Hin];
          [cbn [String.append] in Hends; congruence|]).
  exact Hin.
Qed.

(** C7: for a positive page cap, the filtered list is a subsequence of the
    discovered one (same relative order, nothing added, no duplicate
    removed), holds no URL whose lower-case form ends in a refused
    extension, and is the first [maxPages] survivors, so it has at most
    [maxPages] entries. *)
Theorem url_filter_keeps_order_and_cap (allUrls : list string) (maxPages : Z) :
  0 < maxPages ->
  Subsequence (limitedUrls allUrls maxPages) allUrls
  /\ Forall (fun u => ~ hasDeniedExtension u) (limitedUrls allUrls maxPages)
  /\ limitedUrls allUrls maxPages
     = firstn (Z.to_nat maxPages) (filter isHtmlUrl allUrls)
  /\ JS.len (limitedUrls allUrls maxPages) <= maxPages.
Proof.
  intros Hcap. unfold limitedUrls.
  split; [|split; [|split]].
  - apply Subsequence_trans with (b := filter isHtmlUrl allUrls).
    + apply slice0_Subsequence.
    + apply Subsequence_filter.
  - apply Forall_forall. intros u Hin.
    apply slice0_In in Hin. apply filter_In in Hin.
    apply isHtmlUrl_no_denied_extension, Hin.
  - apply slice0_positive, Hcap.
  - rewrite slice0_positive by exact Hcap. unfold JS.len.
    pose proof (firstn_le_length (Z.to_nat maxPages) (filter isHtmlUrl allUrls)).
    lia.
Qed.

Lemma url_filter_keeps_order_and_cap_witness :
  0 < 2
  /\ limitedUrls [ "https://www.example.gov/";
                   "https://www.example.gov/Forms/Enrol.PDF";
                   "https://www.example.gov/contact";
                   "https://www.example.gov/about" ] 2
     = [ "https://www.example.gov/"; "https://www.example.gov/contact" ]
  /\ JS.len (limitedUrls [ "https://www.example.gov/";
                           "https://www.example.gov/Forms/Enrol.PDF";
                           "https://www.example.gov/contact";
                           "https://www.example.gov/about" ] 2) <= 2.
Proof.
  split; [lia|]. split; [reflexivity|].
  apply (url_filter_keeps_order_and_cap
           [ "https://www.example.gov/";
             "https://www.example.gov/Forms/Enrol.PDF";
             "https://www.example.gov/contact";
             "https://www.example.gov/about" ] 2).
  lia.
Defined.

(** ** The scanner *)

Section ScannerFacts.

Variable host : Host.

(** [scanPage] never throws: whatever navigation and analysis do, there is
    an outcome. *)
Lemma scanPage_run (url : string) (w : World host) :
  exists result,
    scanPage host url w = (Normal result, snd (loadAndAnalyze host url w))
    /\ outcomeOf url (fst (loadAndAnalyze host url w)) result.
Proof.
  unfold scanPage, tryCatch, bind, ask, ret.
  destruct (loadAndAnalyze host url w) as [[results|e] w1]; cbn;
    eexists; (split; [reflexivity|]); cbn; repeat split.
Qed.

Lemma scanLoop_run (urls : list string) :
  forall allResults allViolations w,
  exists results allViolations' w',
    scanLoop host urls allResults allViolations w
    = (Normal ((allResults ++ results)%list, allViolations'), w')
    /\ Forall2 (fun url result =>
                  exists w0,
                    outcomeOf url (fst (loadAndAnalyze host url w0)) result)
               urls results.
Proof.
  induction urls as [|url rest IH]; intros allResults allViolations w;
    cbn [scanLoop].
  - exists [], allViolations, w. rewrite app_nil_r. split; [reflexivity|constructor].
  - destruct (scanPage_run url w) as [result [Hrun Hout]].
    rewrite (bind_Normal _ _ _ _ _ Hrun).
    set (w1 := snd (loadAndAnalyze host url w)).
    set (w2 := match rest with
               | [] => w1
               | _ :: _ => setTimeout host 1000 w1
               end).
    destruct (IH (allResults ++ [result])%list (collect allViolations result) w2)
      as [results [viols [w' [Hloop Hall]]]].
    exists (result :: results), viols, w'. split.
    + unfold bind at 1.
      replace ((match rest with
                | [] => ret tt
                | _ :: _ => effect (setTimeout host 1000)
                end) w1) with (Normal tt, w2)
        by (unfold w2; destruct rest; reflexivity).
      rewrite Hloop. rewrite <- app_assoc. reflexivity.
    + constructor; [exists w; exact Hout|exact Hall].
Qed.

Lemma scanLoop_length (urls : list string) (w : World host)
    (allResults : list PageResult.t) (allViolations : list Violation.t)
    (w' : World host) :
  scanLoop host urls [] [] w = (Normal (allResults, allViolations), w') ->
  JS.len allResults = JS.len urls.
Proof.
  intros Hloop.
  destruct (scanLoop_run urls [] [] w) as [results [viols [w1 [Hrun Hall]]]].
  rewrite Hrun in Hloop. cbn [app] in Hloop. injection Hloop as -> _ _.
  unfold JS.len. f_equal. symmetry. apply (Forall2_length Hall).
Qed.

End ScannerFacts.

Section ScannedPages.

Variable host : Host.

Lemma scanPage_scannedIn (url : string) (w : World host) :
  exists result,
    scanPage host url w = (Normal result, snd (loadAndAnalyze host url w))
    /\ scannedIn host (url, w) result.
Proof.
  unfold scannedIn, scanPage, tryCatch, bind, ask, ret. cbn [fst snd].
  destruct (loadAndAnalyze host url w) as [[results|[message|]] w1]; cbn;
    eexists; (split; [reflexivity|]); cbn; repeat split.
Qed.

Lemma pageWorlds_length (urls : list string) :
  forall w, List.length (pageWorlds host urls w) = List.length urls.
Proof.
  induction urls as [|url rest IH]; intros w; cbn.
  - reflexivity.
  - now rewrite IH.
Qed.

(** The loop scans each URL in the world its predecessors left. *)
Lemma scanLoop_scannedIn (urls : list string) :
  forall allResults allViolations w,
  exists results allViolations',
    scanLoop host urls allResults allViolations w
    = (Normal ((allResults ++ results)%list, allViolations'),
       afterPages host urls w)
    /\ Forall2 (scannedIn host) (combine urls (pageWorlds host urls w)) results.
Proof.
  induction urls as [|url rest IH]; intros allResults allViolations w;
    cbn [scanLoop pageWorlds afterPages combine].
  - exists [], allViolations. rewrite app_nil_r. split; [reflexivity|constructor].
  - destruct (scanPage_scannedIn url w) as [result [Hrun Hout]].
    rewrite (bind_Normal _ _ _ _ _ Hrun).
    destruct (IH (allResults ++ [result])%list (collect allViolations result)
                (afterPage host url rest w))
      as [results [viols [Hloop Hall]]].
    exists (result :: results), viols. split.
    + unfold bind at 1.
      replace ((match rest with
                | [] => ret tt
                | _ :: _ => effect (setTimeout host 1000)
                end) (snd (loadAndAnalyze host url w)))
        with (Normal tt, afterPage host url rest w)
        by (unfold afterPage; destruct rest; reflexivity).
      rewrite Hloop. rewrite <- app_assoc. reflexivity.
    + constructor; [exact Hout|exact Hall].
Qed.

End ScannedPages.

(** C6: the scanning loop never throws and gives exactly one outcome per
    URL, in the order of the URLs.  Each URL is scanned in the world that
    the pages before it left ([pageWorlds]), and its outcome is, when
    navigation or analysis threw there, a failure with the message of the
    [Error] thrown (the text [Unknown error] for any other thrown value),
    no records and no counts, and else the records of what the rule engine
    found; a failure does not stop the loop, which goes on to the next URL. *)
Theorem one_outcome_per_url (host : Host) (urls : list string) (w : World host) :
  exists allResults allViolations,
    scanLoop host urls [] [] w
    = (Normal (allResults, allViolations), afterPages host urls w)
    /\ List.length allResults = List.length urls
    /\ map PageResult.url allResults = urls
    /\ Forall2 (fun page result =>
                  let attempt := loadAndAnalyze host (fst page) (snd page) in
                  PageResult.url result = fst page
                  /\ PageResult.scanTime result
                     = dateNow host (snd attempt) - dateNow host (snd page)
                  /\ match fst attempt with
                     | Abrupt (ErrorObject message) =>
                         PageResult.error result = Some message
                         /\ PageResult.violations result = []
                         /\ PageResult.passes result = 0
                         /\ PageResult.incomplete result = 0
                     | Abrupt OtherValue =>
                         PageResult.error result = Some "Unknown error"
                         /\ PageResult.violations result = []
                         /\ PageResult.passes result = 0
                         /\ PageResult.incomplete result = 0
                     | Normal results =>
                         PageResult.error result = None
                         /\ PageResult.violations result
                            = map (toViolation (fst page))
                                  (Axe.violations results)
                         /\ PageResult.passes result
                            = JS.len (Axe.passes results)
                         /\ PageResult.incomplete result
                            = JS.len (Axe.incomplete results)
                     end)
               (combine urls (pageWorlds host urls w)) allResults.
Proof.
  destruct (scanLoop_scannedIn host urls [] [] w) as [results [viols [Hloop Hall]]].
  exists results, viols. cbn [app] in Hloop.
  assert (Hlength : List.length results = List.length urls).
  { rewrite <- (Forall2_length Hall), length_combine, pageWorlds_length.
    apply Nat.min_id. }
  split; [exact Hloop|]. split; [exact Hlength|]. split.
  - clear Hloop Hlength. revert w results Hall.
    induction urls as [|url rest IH]; intros w results Hall;
      cbn [pageWorlds combine] in Hall.
    + inversion Hall. reflexivity.
    + inversion Hall as [|page result pages results' [Hout _] Hrest]; subst.
      cbn [map]. rewrite (IH _ _ Hrest). f_equal.
      unfold outcomeOf in Hout. cbn [fst snd] in Hout.
      destruct (fst (loadAndAnalyze host url w)); apply Hout.
  - eapply Forall2_impl; [|exact Hall].
    intros [url w0] result [Hout Htime]. cbn [fst snd] in *.
    unfold outcomeOf in Hout.
    split; [|split; [exact Htime|]].
    + destruct (fst (loadAndAnalyze host url w0)); apply Hout.
    + destruct (fst (loadAndAnalyze host url w0)) as [found|[message|]];
        destruct Hout as [_ Hout]; exact Hout.
Qed.

(** On the site with a sitemap the second page cannot be loaded: its outcome
    carries the message of the error, and the third page is scanned all the
    same.  On the site without one the analysis throws something that is
    not an [Error]. *)
Example failed_page_does_not_stop_the_run :
  exists allResults allViolations w',
    scanLoop Scripted.mappedSite
      [ "https://www.example.gov/"; "https://www.example.gov/contact";
        "https://www.example.gov/about" ] [] [] Scripted.start
    = (Normal (allResults, allViolations), w')
    /\ map PageResult.error allResults
       = [ None; Some "Navigation timeout of 30000 ms exceeded"; None ]
    /\ map (fun result => JS.len (PageResult.violations result)) allResults
       = [1; 0; 1]
    /\ map PageResult.scanTime allResults = [2000; 0; 2000].
Proof.
  eexists _, _, _. split; [vm_compute; reflexivity|]. repeat split.
Qed.

Example thrown_value_without_message :
  exists result w',
    scanPage Scripted.bareSite "https://www.example.gov" Scripted.start
    = (Normal result, w')
    /\ PageResult.error result = Some "Unknown error"
    /\ PageResult.violations result = [].
Proof. eexists _, _. split; [vm_compute; reflexivity|]. repeat split. Qed.

(** C10: a violation entry of the rule engine whose impact is missing or
    [null] is recorded by [scanPage] with severity [minor], any other entry
    with the severity it has; so every record of a page's outcome has one of
    the four severities. *)
Theorem missing_impact_is_minor (host : Host) (url : string) (w : World host) :
  exists result w',
    scanPage host url w = (Normal result, w')
    /\ Forall (fun record =>
                 In (Violation.impact record) [critical; serious; moderate; minor])
              (PageResult.violations result)
    /\ match fst (loadAndAnalyze host url w) with
       | Normal results =>
           Forall2 (fun entry record =>
                      match Axe.impact entry with
                      | Axe.absent | Axe.null => Violation.impact record = minor
                      | Axe.value i => Violation.impact record = i
                      end)
                   (Axe.violations results) (PageResult.violations result)
       | Abrupt _ => PageResult.violations result = []
       end.
Proof.
  destruct (scanPage_run host url w) as [result [Hrun Hout]].
  exists result, (snd (loadAndAnalyze host url w)).
  split; [exact Hrun|]. split.
  - apply Forall_forall. intros record _.
    destruct (Violation.impact record); cbn; tauto.
  - unfold outcomeOf in Hout.
    destruct (fst (loadAndAnalyze host url w)) as [results|e].
    + destruct Hout as [_ [_ [-> _]]].
      induction (Axe.violations results) as [|entry entries IH]; cbn.
      * constructor.
      * constructor; [|exact IH].
        unfold toViolation. cbn [Violation.impact].
        destruct (Axe.impact entry); reflexivity.
    + apply Hout.
Qed.

(** ** The summary of a run *)

Lemma compileSummary_nothing (domain scanDate : string) (crawlResult : CrawlResult.t)
    (allResults : list PageResult.t) (allViolations : list Violation.t) :
  AuditSummary.totalViolations
    (compileSummary domain scanDate crawlResult allResults allViolations) = 0 ->
  allViolations = [].
Proof.
  cbn. unfold JS.len. destruct allViolations; [reflexivity|cbn; lia].
Qed.

(** C1: the lead grade is the first threshold rule that applies: A when
    critical + serious >= 10 or the total >= 25; else B when critical +
    serious >= 5 or the total >= 15; else C when the total >= 1; else Skip,
    which for the summary of a run means a total of 0.  The tally
    critical 2, serious 12, moderate 1, minor 0 with total 15 is graded A. *)
Theorem lead_grade_first_match :
  (forall summary : AuditSummary.t,
     let criticalSerious :=
       BySeverity.critical (AuditSummary.bySeverity summary)
       + BySeverity.serious (AuditSummary.bySeverity summary) in
     let total := AuditSummary.totalViolations summary in
     printSummary_lead summary = gradeByRules criticalSerious total
     /\ (printSummary_lead summary = A_LEAD
         <-> (criticalSerious >= 10 \/ total >= 25))
     /\ (printSummary_lead summary = B_LEAD
         <-> ~ (criticalSerious >= 10 \/ total >= 25)
             /\ (criticalSerious >= 5 \/ total >= 15))
     /\ (printSummary_lead summary = C_LEAD
         <-> ~ (criticalSerious >= 10 \/ total >= 25)
             /\ ~ (criticalSerious >= 5 \/ total >= 15)
             /\ total >= 1)
     /\ (printSummary_lead summary = SKIP
         <-> ~ (criticalSerious >= 10 \/ total >= 25)
             /\ ~ (criticalSerious >= 5 \/ total >= 15)
             /\ ~ total >= 1))
  /\ (forall domain scanDate crawlResult allResults allViolations,
        let summary :=
          compileSummary domain scanDate crawlResult allResults allViolations in
        printSummary_lead summary = SKIP
        <-> AuditSummary.totalViolations summary = 0)
  /\ (forall domain scanDate pagesScanned pagesWithErrors topIssues allViolations,
        printSummary_lead
          {| AuditSummary.domain := domain;
             AuditSummary.scanDate := scanDate;
             AuditSummary.pagesScanned := pagesScanned;
             AuditSummary.pagesWithErrors := pagesWithErrors;
             AuditSummary.totalViolations := 15;
             AuditSummary.bySeverity :=
               {| BySeverity.critical := 2; BySeverity.serious := 12;
                  BySeverity.moderate := 1; BySeverity.minor := 0 |};
             AuditSummary.topIssues := topIssues;
             AuditSummary.allViolations := allViolations |}
        = A_LEAD).
Proof.
  split; [|split].
  - intros summary criticalSerious total.
    rewrite printSummary_lead_rules. fold criticalSerious. fold total.
    split; [reflexivity|]. split; [apply gradeByRules_A|].
    split; [apply gradeByRules_B|]. split; [apply gradeByRules_C|].
    apply gradeByRules_SKIP.
  - intros domain scanDate crawlResult allResults allViolations summary.
    split.
    + rewrite printSummary_lead_rules, gradeByRules_SKIP.
      intros [_ [_ Hnone]]. subst summary. cbn in *.
      pose proof (len_nonneg allViolations). lia.
    + intros Hzero. subst summary.
      apply compileSummary_nothing in Hzero. subst allViolations. reflexivity.
  - intros. reflexivity.
Qed.

(** C8: a summary whose critical + serious count is higher, with a total
    that is not lower, is graded at least as high, in the order
    Skip < C < B < A.  This covers a tally in which critical or serious
    findings are added and the moderate and minor counts stay as they are,
    the total growing by what was added, and a total that stays as it is. *)
Theorem lead_grade_monotone (first second : AuditSummary.t) :
  AuditSummary.totalViolations first <= AuditSummary.totalViolations second ->
  BySeverity.critical (AuditSummary.bySeverity first)
  + BySeverity.serious (AuditSummary.bySeverity first)
  <= BySeverity.critical (AuditSummary.bySeverity second)
     + BySeverity.serious (AuditSummary.bySeverity second) ->
  level (printSummary_lead first) <= level (printSummary_lead second).
Proof.
  intros Htotal Hmore. rewrite !printSummary_lead_rules.
  apply gradeByRules_monotone; lia.
Qed.

Lemma lead_grade_monotone_witness :
  level (printSummary_lead (tallied 0 4 2 1 7))
  <= level (printSummary_lead (tallied 1 4 2 1 8))
  /\ printSummary_lead (tallied 0 4 2 1 7) = C_LEAD
  /\ printSummary_lead (tallied 1 4 2 1 8) = B_LEAD.
Proof.
  split; [|split; reflexivity].
  apply (lead_grade_monotone (tallied 0 4 2 1 7) (tallied 1 4 2 1 8)).
  - cbn. lia.
  - cbn. lia.
Defined.

(** C9: the branch of [printSummary] and the branch of [exportSummaryText],
    each computed from the summary by its own copy of the threshold rule,
    are the same grade for every summary, so the line written to the text
    file names the grade printed on the console. *)
Theorem console_and_text_agree (summary : AuditSummary.t) :
  printSummary_lead summary = exportSummaryText_lead summary
  /\ summaryTextLine (exportSummaryText_lead summary)
     = summaryTextLine (printSummary_lead summary).
Proof.
  assert (Hsame : printSummary_lead summary = exportSummaryText_lead summary).
  { unfold printSummary_lead, exportSummaryText_lead.
    destruct (_ || _); [reflexivity|].
    destruct (_ || _); [reflexivity|].
    destruct (_ >? 0); reflexivity. }
  split; [exact Hsame|]. now rewrite Hsame.
Qed.

Section AuditFacts.

Variable host : Host.

(** A run that returns went through its steps without a throw. *)
Lemma scanSite_returns (baseUrl : string) (maxPages : Z) (w w' : World host)
    (crawlResult : CrawlResult.t) (allResults : list PageResult.t)
    (allViolations : list Violation.t) :
  scanSite host baseUrl maxPages w
  = (Normal (crawlResult, allResults, allViolations), w') ->
  exists w1 w2 w3,
    getUrlsFromSitemap host baseUrl maxPages w = (Normal crawlResult, w1)
    /\ launchBrowser host w1 = (Normal tt, w2)
    /\ scanLoop host (CrawlResult.urls crawlResult) [] [] w2
       = (Normal (allResults, allViolations), w3)
    /\ browserClose host w3 = (Normal tt, w').
Proof.
  unfold scanSite. intros Hrun.
  apply bind_returns in Hrun. destruct Hrun as [crawl [w1 [Hcrawl Hrun]]].
  apply bind_returns in Hrun. destruct Hrun as [[] [w2 [Hlaunch Hrun]]].
  apply bind_returns in Hrun. destruct Hrun as [[results viols] [w3 [Hloop Hrun]]].
  apply bind_returns in Hrun. destruct Hrun as [[] [w4 [Hclose Hrun]]].
  unfold ret in Hrun. cbn [fst snd] in Hrun.
  injection Hrun as -> -> -> ->.
  exists w1, w2, w3. repeat split; assumption.
Qed.

Lemma runFullAudit_returns (baseUrl : string) (maxPages : Z) (w w' : World host)
    (summary : AuditSummary.t) :
  runFullAudit host baseUrl maxPages w = (Normal summary, w') ->
  exists crawlResult allResults allViolations url,
    scanSite host baseUrl maxPages w
    = (Normal (crawlResult, allResults, allViolations), w')
    /\ newURL host baseUrl = Normal url
    /\ summary = compileSummary (URL.hostname url) (dateISO host w')
                   crawlResult allResults allViolations.
Proof.
  unfold runFullAudit. intros Hrun.
  apply bind_returns in Hrun.
  destruct Hrun as [[[crawl results] viols] [w1 [Hscan Hrun]]].
  apply bind_returns in Hrun. destruct Hrun as [url [w2 [Hurl Hrun]]].
  apply bind_returns in Hrun. destruct Hrun as [scanDate [w3 [Hdate Hrun]]].
  unfold lift in Hurl. unfold ask in Hdate. unfold ret in Hrun.
  injection Hurl as Hurl <-. injection Hdate as <- <-. injection Hrun as <- <-.
  exists crawl, results, viols, url. cbn [fst snd]. repeat split; assumption.
Qed.

End AuditFacts.

(** The rules of the ranking are own keys of [issueCount]: none names an
    inherited member, and each carries the number of its records. *)
Lemma ranking_plain (o : JS.object IssueCount.t) (issue : Issue.t) :
  plainKeys o -> In issue (ranking o) -> JS.inherited (Issue.rule issue) = false.
Proof.
  unfold plainKeys. intros Hplain Hin.
  apply (Permutation_in _ (ranking_Permutation o)) in Hin.
  apply in_map_iff in Hin. destruct Hin as [[key data] [<- Hin]]. cbn.
  apply (in_map fst) in Hin. cbn [fst] in Hin.
  exact (proj1 (Forall_forall _ _) Hplain key Hin).
Qed.

Lemma tally_ranked_count (records : list Violation.t) (issue : Issue.t) :
  In issue (ranking (snd (tally records))) ->
  Issue.count issue = JS.len (withRule (Issue.rule issue) records).
Proof.
  intros Hin.
  rewrite (ranking_entry _ _ (tally_keys records) Hin), tally_storedCount.
  now rewrite (ranking_plain _ _ (tally_plainKeys records) Hin).
Qed.

(** C2, as the program has it: each severity count of the summary is the
    number of records of that severity, and the count of each rule of the
    ranking, cut or not, is the number of records of that rule; a record
    counts once, whatever its number of affected nodes. *)
Theorem tally_counts_records (domain scanDate : string)
    (crawlResult : CrawlResult.t) (allResults : list PageResult.t)
    (allViolations : list Violation.t) :
  let summary :=
    compileSummary domain scanDate crawlResult allResults allViolations in
  let counted (issue : Issue.t) :=
    Issue.count issue = JS.len (withRule (Issue.rule issue) allViolations) in
  BySeverity.critical (AuditSummary.bySeverity summary)
  = JS.len (withImpact critical allViolations)
  /\ BySeverity.serious (AuditSummary.bySeverity summary)
     = JS.len (withImpact serious allViolations)
  /\ BySeverity.moderate (AuditSummary.bySeverity summary)
     = JS.len (withImpact moderate allViolations)
  /\ BySeverity.minor (AuditSummary.bySeverity summary)
     = JS.len (withImpact minor allViolations)
  /\ Forall counted (ranking (snd (tally allViolations)))
  /\ Forall counted (AuditSummary.topIssues summary).
Proof.
  cbn.
  assert (Hranked : Forall (fun issue =>
                              Issue.count issue
                              = JS.len (withRule (Issue.rule issue) allViolations))
                           (ranking (snd (tally allViolations)))).
  { apply Forall_forall. intros issue Hin. now apply tally_ranked_count. }
  repeat split.
  - apply (tally_bucket allViolations critical).
  - apply (tally_bucket allViolations serious).
  - apply (tally_bucket allViolations moderate).
  - apply (tally_bucket allViolations minor).
  - exact Hranked.
  - apply Forall_forall. intros issue Hin. apply slice0_In in Hin.
    revert issue Hin. apply Forall_forall. exact Hranked.
Qed.


Lemma plainRecords_all (records : list Violation.t) :
  Forall (fun v => JS.inherited (Violation.id v) = false) records ->
  plainRecords records = records.
Proof.
  unfold plainRecords, plainRule.
  induction 1 as [|v rest Hv _ IH]; cbn [filter].
  - reflexivity.
  - rewrite Hv. cbn [negb]. now rewrite IH.
Qed.

(** X27: in the summary of a run, the total used for grading is the number
    of records and the sum of the four severity counts; the counts of the
    ranking of the rules, before it is cut to its ten first, sum to the
    number of records whose rule identifier names no member of
    [Object.prototype].  The three agree when no rule has such a name. *)
Theorem totals_agree_for_plain_rules (host : Host) (baseUrl : string)
    (maxPages : Z) (w w' : World host) (summary : AuditSummary.t) :
  runFullAudit host baseUrl maxPages w = (Normal summary, w') ->
  let records := AuditSummary.allViolations summary in
  let untruncated := ranking (snd (tally records)) in
  AuditSummary.topIssues summary = JS.slice0 untruncated 10
  /\ AuditSummary.totalViolations summary = JS.len records
  /\ AuditSummary.totalViolations summary
     = BySeverity.critical (AuditSummary.bySeverity summary)
       + BySeverity.serious (AuditSummary.bySeverity summary)
       + BySeverity.moderate (AuditSummary.bySeverity summary)
       + BySeverity.minor (AuditSummary.bySeverity summary)
  /\ countSum untruncated = JS.len (plainRecords records)
  /\ (Forall (fun v => JS.inherited (Violation.id v) = false) records ->
      AuditSummary.totalViolations summary = countSum untruncated).
Proof.
  intros Hrun.
  destruct (runFullAudit_returns host _ _ _ _ _ Hrun)
    as [crawl [results [viols [url [_ [_ ->]]]]]].
  cbn [compileSummary AuditSummary.allViolations AuditSummary.topIssues
       AuditSummary.totalViolations AuditSummary.bySeverity].
  split; [reflexivity|]. split; [reflexivity|]. split; [|split].
  - symmetry. apply (tally_severityTotal viols).
  - rewrite ranking_countSum. apply tally_storedSum.
  - intros Hplain. rewrite ranking_countSum, tally_storedSum.
    now rewrite (plainRecords_all _ Hplain).
Qed.

Lemma totals_agree_for_plain_rules_witness :
  exists summary w',
    runFullAudit Scripted.mappedSite "https://www.example.gov" 10 Scripted.start
    = (Normal summary, w')
    /\ AuditSummary.totalViolations summary = 2
    /\ AuditSummary.totalViolations summary
       = countSum (ranking (snd (tally (AuditSummary.allViolations summary)))).
Proof.
  eexists _, _. split; [reflexivity|]. split; [reflexivity|].
  eapply (totals_agree_for_plain_rules Scripted.mappedSite
            "https://www.example.gov" 10 Scripted.start).
  - reflexivity.
  - repeat constructor.
Defined.

(** ** Counting pages *)

Lemma len_filter_le {A : Type} (f : A -> bool) (a : list A) :
  JS.len (filter f a) <= JS.len a.
Proof.
  induction a as [|x a IH]; cbn [filter].
  - lia.
  - destruct (f x); rewrite !len_cons; lia.
Qed.

Lemma len_filter_split {A : Type} (f : A -> bool) (a : list A) :
  JS.len a = JS.len (filter (fun x => negb (f x)) a) + JS.len (filter f a).
Proof.
  induction a as [|x a IH]; cbn [filter].
  - reflexivity.
  - destruct (f x); cbn [negb]; rewrite !len_cons; lia.
Qed.

(** An optional error text counts in a condition exactly when it is set,
    unless it is the empty text. *)
Lemma truthyOpt_failed (result : PageResult.t) :
  PageResult.error result <> Some "" ->
  JS.truthyOpt (PageResult.error result) = failed result.
Proof.
  unfold failed, JS.truthyOpt, JS.truthy.
  destruct (PageResult.error result) as [text|]; [|reflexivity].
  intros Hnonempty. destruct (String.eqb_spec text "") as [->|_].
  - contradiction.
  - reflexivity.
Qed.

Lemma filter_truthyOpt_failed (results : list PageResult.t) :
  Forall (fun result => PageResult.error result <> Some "") results ->
  filter (fun r => JS.truthyOpt (PageResult.error r)) results
  = filter failed results.
Proof.
  induction 1 as [|result results Hnonempty _ IH]; cbn [filter].
  - reflexivity.
  - rewrite (truthyOpt_failed result Hnonempty), IH. reflexivity.
Qed.

(** An outcome that failed with an empty message is not among the pages
    with errors. *)
Example empty_error_text_not_counted :
  AuditSummary.pagesWithErrors
    (compileSummary "www.example.gov" "2026-01-02T09:00:00.000Z"
       {| CrawlResult.urls := ["https://www.example.gov"];
          CrawlResult.source := fallback;
          CrawlResult.totalFound := 1;
          CrawlResult.filtered := 1 |}
       [ {| PageResult.url := "https://www.example.gov";
            PageResult.violations := [];
            PageResult.passes := 0;
            PageResult.incomplete := 0;
            PageResult.scanTime := 12;
            PageResult.error := Some "" |} ]
       [])
  = 0.
Proof. reflexivity. Qed.

(** C3, as the program has it: in the summary of a run, [pagesScanned] is
    the number of URLs that were to be scanned, one outcome each, failed or
    not; [pagesWithErrors] is the number of outcomes whose error text counts
    in a condition and is at most [pagesScanned]; when no outcome has an
    empty error text, [pagesWithErrors] is the number of outcomes with a
    failure marker, and [pagesScanned] is the number of outcomes without one
    plus [pagesWithErrors]. *)
Theorem page_counts (host : Host) (baseUrl : string) (maxPages : Z)
    (w w' : World host) (summary : AuditSummary.t) :
  runFullAudit host baseUrl maxPages w = (Normal summary, w') ->
  exists crawlResult allResults allViolations,
    scanSite host baseUrl maxPages w
    = (Normal (crawlResult, allResults, allViolations), w')
    /\ AuditSummary.pagesScanned summary = JS.len (CrawlResult.urls crawlResult)
    /\ JS.len allResults = JS.len (CrawlResult.urls crawlResult)
    /\ AuditSummary.pagesWithErrors summary
       = JS.len (filter (fun r => JS.truthyOpt (PageResult.error r)) allResults)
    /\ AuditSummary.pagesWithErrors summary <= AuditSummary.pagesScanned summary
    /\ (Forall (fun result => PageResult.error result <> Some "") allResults ->
        AuditSummary.pagesWithErrors summary = JS.len (filter failed allResults)
        /\ AuditSummary.pagesScanned summary
           = JS.len (filter (fun r => negb (failed r)) allResults)
             + AuditSummary.pagesWithErrors summary).
Proof.
  intros Hrun.
  destruct (runFullAudit_returns host _ _ _ _ _ Hrun)
    as [crawl [results [viols [url [Hscan [_ ->]]]]]].
  exists crawl, results, viols. split; [exact Hscan|].
  destruct (scanSite_returns host _ _ _ _ _ _ _ Hscan)
    as [w1 [w2 [w3 [_ [_ [Hloop _]]]]]].
  pose proof (scanLoop_length host (CrawlResult.urls crawl) w2
                results viols w3 Hloop) as Hlen.
  cbn [compileSummary AuditSummary.pagesScanned AuditSummary.pagesWithErrors].
  split; [reflexivity|]. split; [exact Hlen|]. split; [reflexivity|]. split.
  - rewrite <- Hlen. apply len_filter_le.
  - intros Hnonempty. rewrite (filter_truthyOpt_failed results Hnonempty).
    split; [reflexivity|]. rewrite <- Hlen. apply len_filter_split.
Qed.

Lemma page_counts_witness :
  exists summary w',
    runFullAudit Scripted.mappedSite "https://www.example.gov" 10 Scripted.start
    = (Normal summary, w')
    /\ AuditSummary.pagesScanned summary = 3
    /\ AuditSummary.pagesWithErrors summary = 1
    /\ AuditSummary.pagesWithErrors summary <= AuditSummary.pagesScanned summary.
Proof.
  eexists _, _. split; [reflexivity|]. split; [reflexivity|].
  split; [reflexivity|].
  destruct (page_counts Scripted.mappedSite "https://www.example.gov" 10
              Scripted.start _ _ eq_refl)
    as [crawl [results [viols [_ [_ [_ [_ [Hle _]]]]]]]].
  exact Hle.
Defined.

(** On a site with a sitemap of three pages of which one cannot be loaded,
    [pagesScanned] is 3, not the 2 pages that were scanned with success, and
    [pagesScanned + pagesWithErrors] is 4, not the 3 URLs of the run. *)
Lemma page_counts_counterexample :
  exists summary crawlResult allResults allViolations w',
    runFullAudit Scripted.mappedSite "https://www.example.gov" 10 Scripted.start
    = (Normal summary, w')
    /\ scanSite Scripted.mappedSite "https://www.example.gov" 10 Scripted.start
       = (Normal (crawlResult, allResults, allViolations), w')
    /\ ~ (AuditSummary.pagesScanned summary
          = JS.len (filter (fun r => negb (failed r)) allResults)
          /\ AuditSummary.pagesWithErrors summary
             = JS.len (filter failed allResults)
          /\ AuditSummary.pagesScanned summary
             + AuditSummary.pagesWithErrors summary
             = JS.len (CrawlResult.urls crawlResult)).
Proof.
  eexists _, _, _, _, _. split; [reflexivity|]. split; [reflexivity|].
  intros [Hscanned _]. vm_compute in Hscanned. discriminate.
Qed.

(** On a site whose home page fails rule [image-alt] on three nodes with
    impact critical, and another page on one node with no impact, the
    summary counts 1 critical where the records of that severity have 3
    occurrences, and ranks [image-alt] with count 2 where its records have
    4. *)
Lemma tally_counts_records_counterexample :
  exists summary w',
    runFullAudit Scripted.mappedSite "https://www.example.gov" 10 Scripted.start
    = (Normal summary, w')
    /\ map Violation.nodeCount (AuditSummary.allViolations summary) = [3; 1]
    /\ ~ (forall impact,
            bucket (AuditSummary.bySeverity summary) impact
            = occurrences (withImpact impact (AuditSummary.allViolations summary)))
    /\ ~ Forall (fun issue =>
                   Issue.count issue
                   = occurrences (withRule (Issue.rule issue)
                                    (AuditSummary.allViolations summary)))
                (AuditSummary.topIssues summary).
Proof.
  eexists _, _. split; [reflexivity|]. split; [reflexivity|]. split.
  - intros Hall. specialize (Hall critical). vm_compute in Hall. discriminate.
  - intros Hall. inversion Hall as [|issue issues Hcount _]; subst.
    vm_compute in Hcount. discriminate.
Qed.

(** * Further properties of the crawler *)

Lemma Subsequence_len {A : Type} (sub full : list A) :
  Subsequence sub full -> JS.len sub <= JS.len full.
Proof.
  induction 1 as [|x sub full _ IH|x sub full _ IH]; rewrite ?len_cons; lia.
Qed.

Lemma limitedUrls_len (allUrls : list string) (maxPages : Z) :
  JS.len (limitedUrls allUrls maxPages) <= JS.len allUrls.
Proof.
  apply Subsequence_len. unfold limitedUrls.
  apply Subsequence_trans with (b := filter isHtmlUrl allUrls).
  - apply slice0_Subsequence.
  - apply Subsequence_filter.
Qed.

Section CrawlerMore.

Variable host : Host.

(** What a crawl that returns went through. *)
Lemma getUrlsFromSitemap_returns (baseUrl : string) (maxPages : Z)
    (w w' : World host) (crawlResult : CrawlResult.t) :
  getUrlsFromSitemap host baseUrl maxPages w = (Normal crawlResult, w') ->
  exists url allUrls,
    newURL host baseUrl = Normal url
    /\ probeSitemaps host (sitemapLocations (domainOf url)) w = (Normal allUrls, w')
    /\ crawlResult
       = match allUrls with
         | [] => {| CrawlResult.urls := [baseUrl];
                    CrawlResult.source := fallback;
                    CrawlResult.totalFound := 1;
                    CrawlResult.filtered := 1 |}
         | _ :: _ =>
             {| CrawlResult.urls := limitedUrls allUrls maxPages;
                CrawlResult.source := sitemap;
                CrawlResult.totalFound := JS.len allUrls;
                CrawlResult.filtered := JS.len (limitedUrls allUrls maxPages) |}
         end.
Proof.
  unfold getUrlsFromSitemap. intros Hrun.
  apply bind_returns in Hrun. destruct Hrun as [url [w0 [Hurl Hrun]]].
  unfold lift in Hurl. injection Hurl as Hurl <-.
  apply bind_returns in Hrun. destruct Hrun as [allUrls [w1 [Hprobe Hrun]]].
  exists url, allUrls. split; [exact Hurl|].
  destruct allUrls as [|u rest].
  - cbn in Hrun. unfold ret in Hrun. injection Hrun as <- <-.
    split; [exact Hprobe|reflexivity].
  - assert (Hsome : (JS.len (u :: rest) =? 0) = false).
    { apply Z.eqb_neq. rewrite len_cons. pose proof (len_nonneg rest). lia. }
    rewrite Hsome in Hrun. unfold ret in Hrun. injection Hrun as <- <-.
    split; [exact Hprobe|reflexivity].
Qed.

(** The probing stops at the first location with sites. *)
Lemma probeSitemaps_first (before after : list string) (location : string)
    (sites : list string) :
  forall w,
    allGiveNothing host before w = true ->
    fst (sitemapFetch host location (afterProbes host before w))
    = Normal (Some sites) ->
    sites <> [] ->
    probeSitemaps host (before ++ location :: after)%list w
    = (Normal sites,
       snd (sitemapFetch host location (afterProbes host before w))).
Proof.
  induction before as [|skipped before IH]; intros w Hnothing Hfetch Hsome;
    cbn [app probeSitemaps allGiveNothing afterProbes] in *.
  - rewrite (bind_Normal _ _ _ _ _ (probe_run host location w)).
    rewrite Hfetch. destruct sites as [|site sites]; [contradiction|].
    rewrite len_cons.
    destruct (Z.ltb_spec 0 (1 + JS.len sites)) as [_|Hle].
    + reflexivity.
    + pose proof (len_nonneg sites). lia.
  - apply andb_true_iff in Hnothing. destruct Hnothing as [Hthis Hrest].
    rewrite (bind_Normal _ _ _ _ _ (probe_run host skipped w)).
    destruct (fst (sitemapFetch host skipped w)) as [[[|site others]|]|e];
      try discriminate; cbn; apply IH; assumption.
Qed.

End CrawlerMore.

(** X1: the probing is first-match.  When the locations before one give
    nothing and that one has sites, the crawler answers from those sites
    alone, tagged [sitemap], and the world is left as it was right after
    that fetch: no later location is fetched. *)
Theorem first_sitemap_wins (host : Host) (baseUrl : string) (maxPages : Z)
    (w : World host) (url : URL.t) (before after : list string)
    (location : string) (sites : list string) :
  newURL host baseUrl = Normal url ->
  sitemapLocations (domainOf url) = (before ++ location :: after)%list ->
  allGiveNothing host before w = true ->
  fst (sitemapFetch host location (afterProbes host before w))
  = Normal (Some sites) ->
  sites <> [] ->
  getUrlsFromSitemap host baseUrl maxPages w
  = (Normal {| CrawlResult.urls := limitedUrls sites maxPages;
               CrawlResult.source := sitemap;
               CrawlResult.totalFound := JS.len sites;
               CrawlResult.filtered := JS.len (limitedUrls sites maxPages) |},
     snd (sitemapFetch host location (afterProbes host before w))).
Proof.
  intros Hurl Hlocations Hnothing Hfetch Hsome.
  apply (getUrlsFromSitemap_found host baseUrl maxPages w _ url sites Hurl);
    [|exact Hsome].
  rewrite Hlocations.
  apply probeSitemaps_first; assumption.
Qed.

Lemma first_sitemap_wins_witness :
  exists w',
    getUrlsFromSitemap Scripted.mappedSite "https://www.example.gov" 2
      Scripted.start
    = (Normal {| CrawlResult.urls :=
                   [ "https://www.example.gov/";
                     "https://www.example.gov/contact" ];
                 CrawlResult.source := sitemap;
                 CrawlResult.totalFound := 4;
                 CrawlResult.filtered := 2 |}, w').
Proof.
  eexists.
  apply (first_sitemap_wins Scripted.mappedSite "https://www.example.gov" 2
           Scripted.start
           {| URL.protocol := "https:"; URL.host := "www.example.gov";
              URL.hostname := "www.example.gov" |}
           ["https://www.example.gov/sitemap.xml"]
           [ "https://www.example.gov/sitemap/sitemap.xml";
             "https://www.example.gov/wp-sitemap.xml" ]
           "https://www.example.gov/sitemap_index.xml"
           [ "https://www.example.gov/";
             "https://www.example.gov/Forms/Enrol.PDF";
             "https://www.example.gov/contact";
             "https://www.example.gov/about" ]);
    try reflexivity.
  discriminate.
Defined.

(** X2: whatever the crawler returns, [filtered] is the number of URLs it
    hands over, [totalFound] is at least 1 and [filtered] is never more;
    tagged [fallback] the URLs are the base URL alone, tagged [sitemap] they
    are the filtered and limited sites of a sitemap that had some. *)
Theorem crawl_result_is_consistent (host : Host) (baseUrl : string)
    (maxPages : Z) (w w' : World host) (crawlResult : CrawlResult.t) :
  getUrlsFromSitemap host baseUrl maxPages w = (Normal crawlResult, w') ->
  CrawlResult.filtered crawlResult = JS.len (CrawlResult.urls crawlResult)
  /\ CrawlResult.filtered crawlResult <= CrawlResult.totalFound crawlResult
  /\ 1 <= CrawlResult.totalFound crawlResult
  /\ match CrawlResult.source crawlResult with
     | fallback => CrawlResult.urls crawlResult = [baseUrl]
     | sitemap =>
         exists allUrls,
           allUrls <> []
           /\ CrawlResult.totalFound crawlResult = JS.len allUrls
           /\ CrawlResult.urls crawlResult = limitedUrls allUrls maxPages
     end.
Proof.
  intros Hrun.
  destruct (getUrlsFromSitemap_returns host _ _ _ _ _ Hrun)
    as [url [allUrls [_ [_ ->]]]].
  destruct allUrls as [|u rest]; cbn [CrawlResult.filtered CrawlResult.urls
    CrawlResult.totalFound CrawlResult.source].
  - repeat split; try reflexivity; cbn; lia.
  - split; [reflexivity|]. split; [apply limitedUrls_len|].
    split; [rewrite len_cons; pose proof (len_nonneg rest); lia|].
    exists (u :: rest). repeat split. discriminate.
Qed.

Lemma crawl_result_is_consistent_witness :
  exists crawlResult w',
    getUrlsFromSitemap Scripted.mappedSite "https://www.example.gov" 10
      Scripted.start = (Normal crawlResult, w')
    /\ CrawlResult.totalFound crawlResult = 4
    /\ CrawlResult.filtered crawlResult = 3
    /\ CrawlResult.filtered crawlResult <= CrawlResult.totalFound crawlResult.
Proof.
  eexists _, _. split; [reflexivity|]. split; [reflexivity|].
  split; [reflexivity|].
  eapply (crawl_result_is_consistent Scripted.mappedSite
            "https://www.example.gov" 10 Scripted.start).
  reflexivity.
Defined.

(** X3: the crawler returns exactly for the base URLs that [isValidUrl]
    accepts; for any other it throws before anything is fetched, the world
    untouched. *)
Theorem crawler_returns_iff_valid_url (host : Host) (baseUrl : string)
    (maxPages : Z) (w : World host) :
  if isValidUrl host baseUrl
  then exists crawlResult w',
         getUrlsFromSitemap host baseUrl maxPages w = (Normal crawlResult, w')
  else exists e,
         getUrlsFromSitemap host baseUrl maxPages w = (Abrupt e, w).
Proof.
  unfold isValidUrl, getUrlsFromSitemap.
  destruct (newURL host baseUrl) as [url|e] eqn:Hurl.
  - rewrite (bind_Normal (lift (Normal url)) _ w w url eq_refl).
    destruct (probeSitemaps_returns host (sitemapLocations (domainOf url)) w)
      as [allUrls [w' Hprobe]].
    rewrite (bind_Normal _ _ _ _ _ Hprobe).
    destruct (JS.len allUrls =? 0); eexists _, _; reflexivity.
  - exists e. reflexivity.
Qed.

Lemma filter_none {A : Type} (f : A -> bool) (a : list A) :
  Forall (fun x => f x = false) a -> filter f a = [].
Proof.
  induction 1 as [|x a Hx _ IH]; cbn.
  - reflexivity.
  - rewrite Hx. exact IH.
Qed.

Lemma filter_all {A : Type} (f : A -> bool) (a : list A) :
  Forall (fun x => f x = true) a -> filter f a = a.
Proof.
  induction 1 as [|x a Hx _ IH]; cbn.
  - reflexivity.
  - rewrite Hx, IH. reflexivity.
Qed.

Lemma limitedUrls_none (allUrls : list string) (maxPages : Z) :
  Forall (fun u => isHtmlUrl u = false) allUrls ->
  limitedUrls allUrls maxPages = [].
Proof.
  intros Hnone. unfold limitedUrls. rewrite (filter_none _ _ Hnone).
  unfold JS.slice0. now rewrite firstn_nil.
Qed.

(** X4: a sitemap that lists no HTML page does not make the crawler fall
    back to the home page: it answers with no URL at all, tagged [sitemap],
    and a run that completes has scanned no page, found nothing, and is
    graded Skip. *)
Theorem sitemap_of_documents_scans_nothing (host : Host) (baseUrl : string)
    (maxPages : Z) (w w1 : World host) (url : URL.t) (allUrls : list string) :
  newURL host baseUrl = Normal url ->
  probeSitemaps host (sitemapLocations (domainOf url)) w = (Normal allUrls, w1) ->
  allUrls <> [] ->
  Forall (fun u => isHtmlUrl u = false) allUrls ->
  getUrlsFromSitemap host baseUrl maxPages w
  = (Normal {| CrawlResult.urls := [];
               CrawlResult.source := sitemap;
               CrawlResult.totalFound := JS.len allUrls;
               CrawlResult.filtered := 0 |}, w1)
  /\ forall summary w',
       runFullAudit host baseUrl maxPages w = (Normal summary, w') ->
       AuditSummary.pagesScanned summary = 0
       /\ AuditSummary.pagesWithErrors summary = 0
       /\ AuditSummary.totalViolations summary = 0
       /\ AuditSummary.topIssues summary = []
       /\ printSummary_lead summary = SKIP.
Proof.
  intros Hurl Hprobe Hsome Hnone.
  assert (Hcrawl :
    getUrlsFromSitemap host baseUrl maxPages w
    = (Normal {| CrawlResult.urls := [];
                 CrawlResult.source := sitemap;
                 CrawlResult.totalFound := JS.len allUrls;
                 CrawlResult.filtered := 0 |}, w1)).
  { rewrite (getUrlsFromSitemap_found host baseUrl maxPages w w1 url allUrls
               Hurl Hprobe Hsome).
    rewrite (limitedUrls_none allUrls maxPages Hnone). reflexivity. }
  split; [exact Hcrawl|].
  intros summary w' Hrun.
  destruct (runFullAudit_returns host _ _ _ _ _ Hrun)
    as [crawl [results [viols [url' [Hscan [_ ->]]]]]].
  destruct (scanSite_returns host _ _ _ _ _ _ _ Hscan)
    as [w2 [w3 [w4 [Hcrawl' [_ [Hloop _]]]]]].
  rewrite Hcrawl in Hcrawl'. injection Hcrawl' as <- _.
  cbn in Hloop. unfold ret in Hloop. injection Hloop as <- <- _.
  repeat split.
Qed.

Lemma sitemap_of_documents_scans_nothing_witness :
  exists summary w',
    runFullAudit Scripted.archiveSite "https://www.example.gov" 10 Scripted.start
    = (Normal summary, w')
    /\ AuditSummary.pagesScanned summary = 0
    /\ printSummary_lead summary = SKIP.
Proof.
  eexists _, _. split; [reflexivity|].
  destruct (sitemap_of_documents_scans_nothing Scripted.archiveSite
              "https://www.example.gov" 10 Scripted.start Scripted.start
              {| URL.protocol := "https:"; URL.host := "www.example.gov";
                 URL.hostname := "www.example.gov" |}
              [ "https://www.example.gov/Forms/Enrol.PDF";
                "https://www.example.gov/minutes.docx" ]
              eq_refl eq_refl)
    as [_ Hrun].
  - discriminate.
  - repeat constructor.
  - destruct (Hrun _ _ eq_refl) as [Hscanned [_ [_ [_ Hgrade]]]].
    split; [exact Hscanned|exact Hgrade].
Defined.

Lemma slice0_nonnegative {A : Type} (a : list A) (e : Z) :
  0 <= e -> JS.slice0 a e = firstn (Z.to_nat e) a.
Proof.
  intros He. destruct (Z.eq_dec e 0) as [->|Hpos].
  - unfold JS.slice0. cbn. pose proof (len_nonneg a).
    rewrite Z.min_l by assumption. reflexivity.
  - apply slice0_positive. lia.
Qed.

(** X5: a page cap that is at least the number of HTML URLs of the sitemap
    loses none of them: the crawler's list is all of them, in their order. *)
Theorem large_cap_keeps_every_page (allUrls : list string) (maxPages : Z) :
  JS.len (filter isHtmlUrl allUrls) <= maxPages ->
  limitedUrls allUrls maxPages = filter isHtmlUrl allUrls.
Proof.
  intros Hcap. unfold limitedUrls.
  pose proof (len_nonneg (filter isHtmlUrl allUrls)) as Hlen.
  rewrite slice0_nonnegative by lia.
  apply firstn_all2. unfold JS.len in Hcap. lia.
Qed.

Lemma large_cap_keeps_every_page_witness :
  limitedUrls [ "https://www.example.gov/";
                "https://www.example.gov/Forms/Enrol.PDF";
                "https://www.example.gov/contact" ] 2
  = [ "https://www.example.gov/"; "https://www.example.gov/contact" ].
Proof.
  apply (large_cap_keeps_every_page
           [ "https://www.example.gov/";
             "https://www.example.gov/Forms/Enrol.PDF";
             "https://www.example.gov/contact" ] 2).
  vm_compute. discriminate.
Defined.

(** X6: filtering and limiting is idempotent for a cap that is not negative:
    a list that went through the filter goes through it again unchanged. *)
Theorem url_filter_is_idempotent (allUrls : list string) (maxPages : Z) :
  0 <= maxPages ->
  limitedUrls (limitedUrls allUrls maxPages) maxPages
  = limitedUrls allUrls maxPages.
Proof.
  intros Hcap.
  assert (Hhtml : Forall (fun u => isHtmlUrl u = true)
                         (limitedUrls allUrls maxPages)).
  { apply Forall_forall. intros u Hin. unfold limitedUrls in Hin.
    apply slice0_In in Hin. apply filter_In in Hin. apply Hin. }
  unfold limitedUrls at 1. rewrite (filter_all _ _ Hhtml).
  rewrite slice0_nonnegative by exact Hcap.
  apply firstn_all2.
  unfold limitedUrls. rewrite slice0_nonnegative by exact Hcap.
  apply firstn_le_length.
Qed.

Lemma url_filter_is_idempotent_witness :
  limitedUrls
    (limitedUrls [ "https://www.example.gov/";
                   "https://www.example.gov/logo.png";
                   "https://www.example.gov/contact" ] 1) 1
  = limitedUrls [ "https://www.example.gov/";
                  "https://www.example.gov/logo.png";
                  "https://www.example.gov/contact" ] 1.
Proof.
  apply (url_filter_is_idempotent
           [ "https://www.example.gov/";
             "https://www.example.gov/logo.png";
             "https://www.example.gov/contact" ] 1).
  lia.
Defined.

(** * Further properties of the scanner *)

Lemma collect_outcome (url : string) (attempt : Completion Axe.Results)
    (result : PageResult.t) (allViolations : list Violation.t) :
  outcomeOf url attempt result ->
  collect allViolations result
  = (allViolations ++ PageResult.violations result)%list.
Proof.
  unfold outcomeOf, collect. destruct attempt as [results|e].
  - intros [_ [-> [-> _]]]. cbn [JS.truthyOpt].
    destruct (map (toViolation url) (Axe.violations results)) as [|v rest].
    + cbn. now rewrite app_nil_r.
    + rewrite len_cons.
      destruct (Z.ltb_spec 0 (1 + JS.len rest)) as [_|Hle]; [reflexivity|].
      pose proof (len_nonneg rest). lia.
  - intros [_ [-> [-> _]]]. rewrite app_nil_r.
    destruct (JS.truthyOpt _); reflexivity.
Qed.

Lemma outcome_failed_empty (url : string) (attempt : Completion Axe.Results)
    (result : PageResult.t) :
  outcomeOf url attempt result ->
  failed result = true -> PageResult.violations result = [].
Proof.
  unfold outcomeOf, failed. destruct attempt as [results|e].
  - intros [_ [-> _]]. discriminate.
  - intros [_ [_ [-> _]]] _. reflexivity.
Qed.

Lemma outcome_records (url : string) (attempt : Completion Axe.Results)
    (result : PageResult.t) :
  outcomeOf url attempt result ->
  Forall (fun v => Violation.pageUrl v = url /\ 0 <= Violation.nodeCount v)
         (PageResult.violations result).
Proof.
  unfold outcomeOf. destruct attempt as [results|e].
  - intros [_ [_ [-> _]]]. apply Forall_forall. intros v Hin.
    apply in_map_iff in Hin. destruct Hin as [entry [<- _]].
    cbn. split; [reflexivity|apply len_nonneg].
  - intros [_ [_ [-> _]]]. constructor.
Qed.

Section ScannerMore.

Variable host : Host.

(** The loop adds the records of every outcome, in the order of the pages. *)
Lemma scanLoop_collects (urls : list string) :
  forall allResults allViolations w,
  exists results w',
    scanLoop host urls allResults allViolations w
    = (Normal ((allResults ++ results)%list,
               (allViolations ++ flat_map PageResult.violations results)%list),
       w')
    /\ Forall2 (fun url result =>
                  exists w0,
                    outcomeOf url (fst (loadAndAnalyze host url w0)) result)
               urls results.
Proof.
  induction urls as [|url rest IH]; intros allResults allViolations w;
    cbn [scanLoop].
  - exists [], w. cbn [flat_map]. rewrite !app_nil_r.
    split; [reflexivity|constructor].
  - destruct (scanPage_run host url w) as [result [Hrun Hout]].
    rewrite (bind_Normal _ _ _ _ _ Hrun).
    set (w1 := snd (loadAndAnalyze host url w)).
    set (w2 := match rest with
               | [] => w1
               | _ :: _ => setTimeout host 1000 w1
               end).
    destruct (IH (allResults ++ [result])%list (collect allViolations result) w2)
      as [results [w' [Hloop Hall]]].
    exists (result :: results), w'. split.
    + unfold bind at 1.
      replace ((match rest with
                | [] => ret tt
                | _ :: _ => effect (setTimeout host 1000)
                end) w1) with (Normal tt, w2)
        by (unfold w2; destruct rest; reflexivity).
      rewrite Hloop. rewrite (collect_outcome _ _ _ _ Hout).
      cbn [flat_map]. rewrite <- !app_assoc. reflexivity.
    + constructor; [exists w; exact Hout|exact Hall].
Qed.

(** What the results of a loop that started empty are. *)
Lemma scanLoop_returns (urls : list string) (w w' : World host)
    (allResults : list PageResult.t) (allViolations : list Violation.t) :
  scanLoop host urls [] [] w = (Normal (allResults, allViolations), w') ->
  allViolations = flat_map PageResult.violations allResults
  /\ Forall2 (fun url result =>
                exists w0,
                  outcomeOf url (fst (loadAndAnalyze host url w0)) result)
             urls allResults.
Proof.
  intros Hloop.
  destruct (scanLoop_collects urls [] [] w) as [results [w1 [Hrun Hall]]].
  rewrite Hrun in Hloop. cbn [app] in Hloop. injection Hloop as -> -> _.
  split; [reflexivity|exact Hall].
Qed.

End ScannerMore.

(** X7: the records gathered by the scanning loop are the records of its
    outcomes put end to end, in the order of the pages, and an outcome with
    a failure marker holds no record: a page is never both a failure and a
    source of records. *)
Theorem records_come_from_outcomes (host : Host) (urls : list string)
    (w : World host) :
  exists allResults allViolations w',
    scanLoop host urls [] [] w = (Normal (allResults, allViolations), w')
    /\ allViolations = flat_map PageResult.violations allResults
    /\ Forall (fun result =>
                 match PageResult.error result with
                 | Some _ => PageResult.violations result = []
                 | None => True
                 end) allResults.
Proof.
  destruct (scanLoop_collects host urls [] [] w) as [results [w' [Hrun Hall]]].
  exists results, (flat_map PageResult.violations results), w'.
  split; [exact Hrun|]. split; [reflexivity|].
  clear Hrun. induction Hall as [|url result urls' results' [w0 Hout] _ IH].
  - constructor.
  - constructor; [|exact IH].
    pose proof (outcome_failed_empty _ _ _ Hout) as Hempty.
    unfold failed in Hempty.
    destruct (PageResult.error result); [apply Hempty; reflexivity|exact I].
Qed.

(** X8: every record gathered by the scanning loop carries the URL of one
    of the pages of the scan list, and a number of nodes that is not
    negative. *)
Theorem records_belong_to_scanned_pages (host : Host) (urls : list string)
    (w : World host) :
  exists allResults allViolations w',
    scanLoop host urls [] [] w = (Normal (allResults, allViolations), w')
    /\ Forall (fun v => In (Violation.pageUrl v) urls
                        /\ 0 <= Violation.nodeCount v) allViolations.
Proof.
  destruct (scanLoop_collects host urls [] [] w) as [results [w' [Hrun Hall]]].
  exists results, (flat_map PageResult.violations results), w'.
  split; [exact Hrun|].
  clear Hrun. induction Hall as [|url result urls' results' [w0 Hout] _ IH].
  - constructor.
  - cbn [flat_map]. apply Forall_app. split.
    + pose proof (outcome_records _ _ _ Hout) as Hrecords.
      apply Forall_forall. intros v Hin.
      rewrite Forall_forall in Hrecords.
      destruct (Hrecords v Hin) as [-> Hnodes].
      split; [left; reflexivity|exact Hnodes].
    + apply Forall_forall. intros v Hin. rewrite Forall_forall in IH.
      destruct (IH v Hin) as [Hurl Hnodes].
      split; [right; exact Hurl|exact Hnodes].
Qed.

Lemma len_filter_all {A : Type} (f : A -> bool) (a : list A) :
  JS.len (filter f a) = JS.len a -> Forall (fun x => f x = true) a.
Proof.
  induction a as [|x a IH]; cbn [filter]; intros Hlen.
  - constructor.
  - destruct (f x) eqn:Hx.
    + rewrite !len_cons in Hlen. constructor; [exact Hx|apply IH; lia].
    + pose proof (len_filter_le f a). rewrite len_cons in Hlen. lia.
Qed.

Lemma flagged_outcomes_hold_nothing (host : Host) (urls : list string)
    (results : list PageResult.t) :
  Forall2 (fun url result =>
             exists w0,
               outcomeOf url (fst (loadAndAnalyze host url w0)) result)
          urls results ->
  Forall (fun r => JS.truthyOpt (PageResult.error r) = true) results ->
  flat_map PageResult.violations results = [].
Proof.
  induction 1 as [|u result urls' results' [w0 Houtcome] _ IH]; intros Hall.
  - reflexivity.
  - inversion Hall as [|? ? Hflag Hrest]; subst. cbn [flat_map].
    rewrite (IH Hrest), app_nil_r.
    apply (outcome_failed_empty _ _ _ Houtcome).
    unfold failed. destruct (PageResult.error result); [reflexivity|].
    discriminate.
Qed.

(** X9: a run in which every page has an error gathers no record, so its
    summary is empty and graded Skip, as for a site without any violation. *)
Theorem failed_run_is_graded_skip (host : Host) (baseUrl : string)
    (maxPages : Z) (w w' : World host) (summary : AuditSummary.t) :
  runFullAudit host baseUrl maxPages w = (Normal summary, w') ->
  AuditSummary.pagesWithErrors summary = AuditSummary.pagesScanned summary ->
  AuditSummary.allViolations summary = []
  /\ AuditSummary.totalViolations summary = 0
  /\ AuditSummary.topIssues summary = []
  /\ printSummary_lead summary = SKIP.
Proof.
  intros Hrun Hall.
  destruct (runFullAudit_returns host _ _ _ _ _ Hrun)
    as [crawl [results [viols [url [Hscan [_ ->]]]]]].
  destruct (scanSite_returns host _ _ _ _ _ _ _ Hscan)
    as [w1 [w2 [w3 [_ [_ [Hloop _]]]]]].
  pose proof (scanLoop_length host _ _ _ _ _ Hloop) as Hlen.
  destruct (scanLoop_returns host _ _ _ _ _ Hloop) as [-> Hout].
  cbn [compileSummary AuditSummary.pagesScanned AuditSummary.pagesWithErrors]
    in Hall.
  rewrite <- Hlen in Hall. apply len_filter_all in Hall.
  rewrite (flagged_outcomes_hold_nothing host _ _ Hout Hall).
  repeat split.
Qed.

Lemma failed_run_is_graded_skip_witness :
  exists summary w',
    runFullAudit Scripted.bareSite "https://www.example.gov" 10 Scripted.start
    = (Normal summary, w')
    /\ AuditSummary.pagesScanned summary = 1
    /\ AuditSummary.pagesWithErrors summary = 1
    /\ printSummary_lead summary = SKIP.
Proof.
  eexists _, _. split; [reflexivity|]. split; [reflexivity|].
  split; [reflexivity|].
  eapply (failed_run_is_graded_skip Scripted.bareSite
            "https://www.example.gov" 10 Scripted.start);
    reflexivity.
Defined.

(** * Further properties of the summary *)

Lemma insertBy_notBelow (x : Issue.t) (sorted : list Issue.t) :
  StronglySorted notBelow sorted ->
  StronglySorted notBelow
    (JS.insertBy (fun a b => Issue.count b - Issue.count a) x sorted).
Proof.
  induction 1 as [|y rest Hsorted IH Hy]; cbn [JS.insertBy].
  - repeat constructor.
  - destruct (Z.ltb_spec 0 (Issue.count y - Issue.count x)) as [Hless|Hmore].
    + constructor; [exact IH|].
      apply (Permutation_Forall
               (Permutation_sym (insertBy_Permutation _ x rest))).
      constructor; [unfold notBelow; lia|exact Hy].
    + constructor; [constructor; assumption|].
      constructor; [unfold notBelow; lia|].
      apply Forall_forall. intros z Hin. rewrite Forall_forall in Hy.
      specialize (Hy z Hin). unfold notBelow in *. lia.
Qed.

Lemma sort_notBelow (issues : list Issue.t) :
  StronglySorted notBelow
    (JS.sort (fun a b => Issue.count b - Issue.count a) issues).
Proof.
  induction issues as [|x issues IH]; cbn [JS.sort].
  - constructor.
  - apply insertBy_notBelow, IH.
Qed.

Lemma Subsequence_StronglySorted {A : Type} (R : A -> A -> Prop)
    (sub full : list A) :
  Subsequence sub full -> StronglySorted R full -> StronglySorted R sub.
Proof.
  induction 1 as [|x sub full Hsub IH|x sub full Hsub IH]; intros Hsorted.
  - constructor.
  - inversion Hsorted; subst. apply IH. assumption.
  - inversion Hsorted as [|? ? Hrest Hx]; subst.
    constructor; [apply IH; exact Hrest|].
    apply Forall_forall. intros y Hin. rewrite Forall_forall in Hx.
    apply Hx. apply (Subsequence_In _ _ _ Hsub Hin).
Qed.

Lemma Subsequence_map {A B : Type} (f : A -> B) (sub full : list A) :
  Subsequence sub full -> Subsequence (map f sub) (map f full).
Proof.
  induction 1 as [|x sub full _ IH|x sub full _ IH]; cbn.
  - constructor.
  - apply Subsequence_skip, IH.
  - apply Subsequence_keep, IH.
Qed.

Lemma Subsequence_NoDup {A : Type} (sub full : list A) :
  Subsequence sub full -> NoDup full -> NoDup sub.
Proof.
  induction 1 as [|x sub full Hsub IH|x sub full Hsub IH]; intros Hnodup.
  - constructor.
  - inversion Hnodup; subst. apply IH. assumption.
  - inversion Hnodup as [|? ? Hnotin Hrest]; subst.
    constructor; [|apply IH; exact Hrest].
    intros Hin. apply Hnotin. apply (Subsequence_In _ _ _ Hsub Hin).
Qed.

Lemma ranking_rules (o : JS.object IssueCount.t) :
  Permutation (map Issue.rule (ranking o)) (map fst o).
Proof.
  rewrite (Permutation_map Issue.rule (ranking_Permutation o)).
  rewrite map_map. cbn. apply Permutation_refl.
Qed.

(** The impact kept for a rule is the one it was created with. *)
Lemma tallyOne_storedImpact (state : BySeverity.t * JS.object IssueCount.t)
    (v : Violation.t) (rule : string) :
  plainKeys (snd state) ->
  storedImpact (snd (tallyOne state v)) rule
  = match storedImpact (snd state) rule with
    | Some impact => Some impact
    | None =>
        if String.eqb (Violation.id v) rule && plainRule v
        then Some (Violation.impact v)
        else None
    end.
Proof.
  intros Hplain. destruct (plainRule v) eqn:Hv.
  - rewrite (tallyOne_counted _ _ Hv), Bool.andb_true_r.
    unfold storedImpact. rewrite get_modify.
    destruct (JS.get (snd state) (Violation.id v)) as [d|] eqn:Hget.
    + destruct (String.eqb_spec (Violation.id v) rule) as [<-|_].
      * rewrite Hget. reflexivity.
      * destruct (JS.get (snd state) rule); reflexivity.
    + rewrite get_set.
      destruct (String.eqb_spec (Violation.id v) rule) as [<-|_].
      * rewrite Hget. reflexivity.
      * destruct (JS.get (snd state) rule); reflexivity.
  - rewrite (tallyOne_inherited _ _ Hplain Hv), Bool.andb_false_r.
    destruct (storedImpact (snd state) rule); reflexivity.
Qed.

Lemma tally_loop_storedImpact (records : list Violation.t) (rule : string) :
  forall state,
    plainKeys (snd state) ->
    storedImpact (snd (fold_left tallyOne records state)) rule
    = match storedImpact (snd state) rule with
      | Some impact => Some impact
      | None =>
          if JS.inherited rule then None
          else option_map Violation.impact (firstOfRule rule records)
      end.
Proof.
  induction records as [|v rest IH]; intros state Hplain; cbn [fold_left].
  - destruct (storedImpact (snd state) rule); [reflexivity|].
    destruct (JS.inherited rule); reflexivity.
  - rewrite IH by (apply tallyOne_plainKeys, Hplain).
    rewrite tallyOne_storedImpact by exact Hplain.
    unfold firstOfRule, plainRule. cbn [find].
    destruct (storedImpact (snd state) rule); [reflexivity|].
    destruct (String.eqb_spec (Violation.id v) rule) as [->|_]; cbn [andb].
    + destruct (JS.inherited rule); reflexivity.
    + reflexivity.
Qed.

Lemma tally_storedImpact (records : list Violation.t) (rule : string) :
  storedImpact (snd (tally records)) rule
  = if JS.inherited rule then None
    else option_map Violation.impact (firstOfRule rule records).
Proof.
  unfold tally. rewrite tally_loop_storedImpact by apply plainKeys_nil.
  reflexivity.
Qed.

Lemma get_key {V : Type} (o : JS.object V) (key : string) :
  In key (map fst o) <-> JS.get o key <> None.
Proof.
  induction o as [|[k v] o IH]; cbn.
  - split; [contradiction|intros H; apply H; reflexivity].
  - destruct (String.eqb_spec k key) as [->|Hk].
    + split; [discriminate|left; reflexivity].
    + rewrite <- IH. split; [intros [Heq|Hin]; [contradiction|exact Hin]|].
      intros Hin. right. exact Hin.
Qed.

Lemma firstOfRule_present (rule : string) (records : list Violation.t) :
  firstOfRule rule records <> None <-> In rule (map Violation.id records).
Proof.
  unfold firstOfRule. induction records as [|v rest IH]; cbn.
  - split; [intros H; apply H; reflexivity|contradiction].
  - destruct (String.eqb_spec (Violation.id v) rule) as [->|Hv].
    + split; [left; reflexivity|discriminate].
    + rewrite IH. split; [intros Hin; right; exact Hin|].
      intros [Heq|Hin]; [contradiction|exact Hin].
Qed.

(** The keys of [issueCount] are the rules of the records, those apart
    that name an inherited member. *)
Lemma tally_rules (records : list Violation.t) (rule : string) :
  In rule (map fst (snd (tally records)))
  <-> In rule (map Violation.id records) /\ JS.inherited rule = false.
Proof.
  rewrite get_key, <- firstOfRule_present.
  pose proof (tally_storedImpact records rule) as Himpact.
  unfold storedImpact in Himpact.
  destruct (JS.inherited rule);
    destruct (JS.get (snd (tally records)) rule);
    destruct (firstOfRule rule records); cbn in Himpact;
    try discriminate Himpact.
  - split; [intros H; exfalso; apply H; reflexivity|intros [_ H]; discriminate].
  - split; [intros H; exfalso; apply H; reflexivity|intros [_ H]; discriminate].
  - split; [intros _; split; [discriminate|reflexivity]|intros _; discriminate].
  - split; [intros H|intros [H _]]; exfalso; apply H; reflexivity.
Qed.

Lemma withRule_present (rule : string) (records : list Violation.t) :
  In rule (map Violation.id records) -> 1 <= JS.len (withRule rule records).
Proof.
  unfold withRule. induction records as [|v rest IH]; cbn [map In filter].
  - contradiction.
  - intros [<-|Hin].
    + rewrite String.eqb_refl, len_cons.
      pose proof (len_nonneg (filter (fun v0 => String.eqb (Violation.id v0)
                                                  (Violation.id v)) rest)).
      lia.
    + destruct (String.eqb (Violation.id v) rule).
      * rewrite len_cons.
        pose proof (len_nonneg (filter (fun v0 => String.eqb (Violation.id v0)
                                                    rule) rest)).
        lia.
      * apply IH, Hin.
Qed.

(** X10: the top issues of a summary are at most ten, in the order of their
    counts, highest first, one per rule, and each is a rule of at least one
    record. *)
Theorem top_issues_are_ranked (domain scanDate : string)
    (crawlResult : CrawlResult.t) (allResults : list PageResult.t)
    (allViolations : list Violation.t) :
  let summary :=
    compileSummary domain scanDate crawlResult allResults allViolations in
  JS.len (AuditSummary.topIssues summary) <= 10
  /\ StronglySorted notBelow (AuditSummary.topIssues summary)
  /\ NoDup (map Issue.rule (AuditSummary.topIssues summary))
  /\ Forall (fun issue =>
               In (Issue.rule issue) (map Violation.id allViolations)
               /\ 1 <= Issue.count issue)
            (AuditSummary.topIssues summary).
Proof.
  cbn.
  pose proof (slice0_Subsequence (ranking (snd (tally allViolations))) 10)
    as Hsub.
  split; [|split; [|split]].
  - rewrite slice0_positive by lia. unfold JS.len.
    pose proof (firstn_le_length (Z.to_nat 10)
                  (ranking (snd (tally allViolations)))) as Hle.
    change (Z.to_nat 10) with 10%nat in *. lia.
  - apply (Subsequence_StronglySorted _ _ _ Hsub). apply sort_notBelow.
  - apply (Subsequence_NoDup _ _ (Subsequence_map Issue.rule _ _ Hsub)).
    apply (Permutation_NoDup
             (Permutation_sym (ranking_rules (snd (tally allViolations))))).
    apply tally_keys.
  - apply Forall_forall. intros issue Hin.
    apply (Subsequence_In _ _ _ Hsub) in Hin.
    assert (Hrule : In (Issue.rule issue) (map Violation.id allViolations)).
    { apply (tally_rules allViolations (Issue.rule issue)).
      apply (Permutation_in _ (ranking_rules (snd (tally allViolations)))).
      apply in_map, Hin. }
    split; [exact Hrule|].
    rewrite (tally_ranked_count _ _ Hin). apply withRule_present, Hrule.
Qed.

(** X11: before the cut, the ranking holds every rule that has a record,
    those apart whose identifier names a member of [Object.prototype], and
    no other rule; the top issues are its first ten, so all of it when it
    has at most ten rules. *)
Theorem ranking_covers_every_rule (domain scanDate : string)
    (crawlResult : CrawlResult.t) (allResults : list PageResult.t)
    (allViolations : list Violation.t) :
  let summary :=
    compileSummary domain scanDate crawlResult allResults allViolations in
  let untruncated := ranking (snd (tally allViolations)) in
  (forall rule,
     In rule (map Issue.rule untruncated)
     <-> In rule (map Violation.id allViolations)
         /\ JS.inherited rule = false)
  /\ AuditSummary.topIssues summary = firstn 10 untruncated
  /\ (JS.len untruncated <= 10 -> AuditSummary.topIssues summary = untruncated).
Proof.
  cbn. split; [|split].
  - intros rule. rewrite <- tally_rules. split.
    + apply Permutation_in, ranking_rules.
    + apply Permutation_in, Permutation_sym, ranking_rules.
  - rewrite slice0_positive by lia. reflexivity.
  - intros Hfew. rewrite slice0_positive by lia.
    apply firstn_all2. unfold JS.len in Hfew.
    change (Z.to_nat 10) with 10%nat. lia.
Qed.

(** X12: the impact shown for a rule in the ranking is the impact of the
    first record of that rule, whatever the impacts of its later records. *)
Theorem ranked_impact_is_first_seen (domain scanDate : string)
    (crawlResult : CrawlResult.t) (allResults : list PageResult.t)
    (allViolations : list Violation.t) :
  let summary :=
    compileSummary domain scanDate crawlResult allResults allViolations in
  Forall (fun issue =>
            option_map Violation.impact
              (firstOfRule (Issue.rule issue) allViolations)
            = Some (Issue.impact issue))
         (AuditSummary.topIssues summary).
Proof.
  cbn. apply Forall_forall. intros issue Hin.
  apply slice0_In in Hin.
  apply (Permutation_in _ (ranking_Permutation _)) in Hin.
  apply in_map_iff in Hin. destruct Hin as [[key data] [<- Hin]].
  cbn [toIssue Issue.rule Issue.impact fst snd].
  pose proof (tally_storedImpact allViolations key) as Himpact.
  rewrite (proj1 (Forall_forall _ _) (tally_plainKeys allViolations) key
             (in_map fst _ _ Hin)) in Himpact.
  rewrite <- Himpact. unfold storedImpact.
  rewrite (get_entry _ key data (tally_keys allViolations) Hin).
  reflexivity.
Qed.

Example ranked_impact_of_mixed_records :
  exists summary w',
    runFullAudit Scripted.mappedSite "https://www.example.gov" 10 Scripted.start
    = (Normal summary, w')
    /\ map Violation.impact (AuditSummary.allViolations summary)
       = [critical; minor]
    /\ map Issue.impact (AuditSummary.topIssues summary) = [critical].
Proof. eexists _, _. repeat split. Qed.

Lemma ranking_covers_every_rule_witness :
  let records :=
    map (toViolation "https://www.example.gov/")
        [ Scripted.imageAlt ["<img src=a>"] (Axe.value critical);
          Scripted.imageAlt ["<img src=b>"] Axe.absent ] in
  AuditSummary.topIssues
    (compileSummary "www.example.gov" "2026-01-02T09:00:00.000Z"
       {| CrawlResult.urls := ["https://www.example.gov/"];
          CrawlResult.source := fallback;
          CrawlResult.totalFound := 1;
          CrawlResult.filtered := 1 |} [] records)
  = ranking (snd (tally records)).
Proof.
  intros records.
  apply (ranking_covers_every_rule "www.example.gov" "2026-01-02T09:00:00.000Z"
           {| CrawlResult.urls := ["https://www.example.gov/"];
              CrawlResult.source := fallback;
              CrawlResult.totalFound := 1;
              CrawlResult.filtered := 1 |} [] records).
  vm_compute. discriminate.
Defined.

(** * Properties of the entry point *)

Lemma arrayIndexOfFrom_absent (a : list string) (x : string) :
  forall i, ~ In x a -> JS.arrayIndexOfFrom a x i = -1.
Proof.
  induction a as [|y a IH]; intros i Hnotin; cbn.
  - reflexivity.
  - destruct (String.eqb_spec y x) as [->|_].
    + exfalso. apply Hnotin. left. reflexivity.
    + apply IH. intros Hin. apply Hnotin. right. exact Hin.
Qed.

Lemma arrayIndexOfFrom_first (before after : list string) (x : string) :
  forall i, ~ In x before ->
    JS.arrayIndexOfFrom (before ++ x :: after) x i = i + JS.len before.
Proof.
  induction before as [|y before IH]; intros i Hnotin;
    cbn [app JS.arrayIndexOfFrom].
  - rewrite String.eqb_refl. cbn. lia.
  - destruct (String.eqb_spec y x) as [->|_].
    + exfalso. apply Hnotin. left. reflexivity.
    + rewrite IH, len_cons by (intros Hin; apply Hnotin; right; exact Hin).
      lia.
Qed.

Lemma arrayIndexOfFrom_range (a : list string) (x : string) :
  forall i, JS.arrayIndexOfFrom a x i = -1
            \/ i <= JS.arrayIndexOfFrom a x i.
Proof.
  induction a as [|y a IH]; intros i; cbn.
  - left. reflexivity.
  - destruct (String.eqb y x); [right; lia|].
    destruct (IH (i + 1)) as [Habsent|Hfound]; [left|right]; lia.
Qed.

Lemma item_after {A : Type} (before : list A) (x : A) (after : list A) :
  JS.item (before ++ x :: after) (JS.len before + 1) = hd_error after.
Proof.
  unfold JS.item. pose proof (len_nonneg before) as Hlen.
  destruct (Z.ltb_spec (JS.len before + 1) 0) as [Hneg|_]; [lia|].
  unfold JS.len. rewrite Z2Nat.inj_add, Nat2Z.id by lia.
  change (Z.to_nat 1) with 1%nat.
  rewrite nth_error_app2 by lia.
  replace (List.length before + 1 - List.length before)%nat with 1%nat by lia.
  destruct after; reflexivity.
Qed.

(** X13: how [--pages] is read.  Without the option the cap is 10.  The
    value is the argument after the first [--pages]: missing or empty, the
    cap is 10 without a word; not a number, or less than 1, [main] exits;
    otherwise it is the cap. *)
Theorem pages_option (parseInt : string -> option Z) (before : list string) :
  ~ In "--pages" before ->
  readPages parseInt before = Some 10
  /\ readPages parseInt (before ++ ["--pages"]) = Some 10
  /\ forall value after,
       readPages parseInt (before ++ "--pages" :: value :: after)
       = if String.eqb value "" then Some 10
         else match parseInt value with
              | Some maxPages => if maxPages <? 1 then None else Some maxPages
              | None => None
              end.
Proof.
  intros Hnotin. unfold readPages, JS.arrayIndexOf.
  split; [|split].
  - rewrite (arrayIndexOfFrom_absent before "--pages" 0 Hnotin).
    destruct (JS.item before (-1 + 1)); reflexivity.
  - rewrite (arrayIndexOfFrom_first before [] "--pages" 0 Hnotin).
    rewrite Z.add_0_l, item_after. reflexivity.
  - intros value after.
    rewrite (arrayIndexOfFrom_first before (value :: after) "--pages" 0 Hnotin).
    rewrite Z.add_0_l, item_after. cbn [hd_error].
    pose proof (len_nonneg before) as Hlen.
    destruct (Z.eqb_spec (JS.len before) (-1)) as [Habsurd|_]; [lia|].
    cbn [negb andb]. unfold JS.truthy.
    destruct (String.eqb value ""); reflexivity.
Qed.

Lemma pages_option_witness :
  readPages parseDigits ["https://www.example.gov"] = Some 10
  /\ readPages parseDigits ["https://www.example.gov"; "--pages"] = Some 10
  /\ readPages parseDigits ["https://www.example.gov"; "--pages"; "25"] = Some 25
  /\ readPages parseDigits ["https://www.example.gov"; "--pages"; "0"] = None
  /\ readPages parseDigits ["https://www.example.gov"; "--pages"; "many"] = None.
Proof.
  assert (Hnotin : ~ In "--pages" ["https://www.example.gov"]).
  { intros [Heq|[]]. discriminate. }
  destruct (pages_option parseDigits ["https://www.example.gov"] Hnotin)
    as [Hnone [Hlast Hvalue]].
  split; [exact Hnone|]. split; [exact Hlast|].
  split; [exact (Hvalue "25" [])|].
  split; [exact (Hvalue "0" [])|exact (Hvalue "many" [])].
Defined.

Lemma readPages_cap (parseInt : string -> option Z) (args : list string)
    (maxPages : Z) :
  readPages parseInt args = Some maxPages -> 1 <= maxPages.
Proof.
  unfold readPages.
  destruct (JS.item args (JS.arrayIndexOf args "--pages" + 1)) as [value|];
    [|intros [= <-]; lia].
  destruct (negb (JS.arrayIndexOf args "--pages" =? -1) && JS.truthy value);
    [|intros [= <-]; lia].
  destruct (parseInt value) as [n|]; [|discriminate].
  destruct (Z.ltb_spec n 1); [discriminate|]. intros [= <-]. assumption.
Qed.

Lemma readPages_default (parseInt : string -> option Z) (args : list string)
    (maxPages : Z) :
  JS.arrayIndexOf args "--pages" = -1 ->
  readPages parseInt args = Some maxPages -> maxPages = 10.
Proof.
  unfold readPages. intros ->.
  destruct (JS.item args (-1 + 1)); cbn; intros [= <-]; reflexivity.
Qed.

Lemma readArguments_audits (host : Host) (parseInt : string -> option Z)
    (args : list string) (url : string) (maxPages : Z) :
  readArguments host parseInt args = audits url maxPages ->
  showsHelp args = false
  /\ hd_error args = Some url
  /\ readPages parseInt args = Some maxPages
  /\ isValidUrl host url = true.
Proof.
  unfold readArguments, showsHelp, isValidUrl.
  destruct args as [|first rest]; [discriminate|].
  destruct (String.eqb first "--help" || String.eqb first "-h");
    [discriminate|].
  destruct (readPages parseInt (first :: rest)) as [n|]; [|discriminate].
  destruct (newURL host first) as [parsed|e] eqn:Hurl; [|discriminate].
  intros [= <- <-]. rewrite Hurl. repeat split.
Qed.

Lemma limitedUrls_cap (allUrls : list string) (maxPages : Z) :
  0 < maxPages -> JS.len (limitedUrls allUrls maxPages) <= maxPages.
Proof.
  intros Hcap. unfold limitedUrls. rewrite slice0_positive by exact Hcap.
  unfold JS.len.
  pose proof (firstn_le_length (Z.to_nat maxPages) (filter isHtmlUrl allUrls)).
  lia.
Qed.

(** X14: when [main] reaches the exports, it has audited its first argument,
    a URL that [isValidUrl] accepts, with a page cap of at least 1 (10
    without [--pages]), and the summary counts no more pages than the cap. *)
Theorem main_respects_page_cap (host : Host) (parseInt : string -> option Z)
    (args : list string) (w w' : World host) (summary : AuditSummary.t) :
  main host parseInt args w = (exported summary, w') ->
  exists url maxPages,
    hd_error args = Some url
    /\ isValidUrl host url = true
    /\ readPages parseInt args = Some maxPages
    /\ 1 <= maxPages
    /\ (JS.arrayIndexOf args "--pages" = -1 -> maxPages = 10)
    /\ runFullAudit host url maxPages w = (Normal summary, w')
    /\ AuditSummary.pagesScanned summary <= maxPages.
Proof.
  unfold main. intros Hmain.
  destruct (readArguments host parseInt args) as [code|url maxPages] eqn:Hargs;
    [discriminate|].
  destruct (runFullAudit host url maxPages w) as [[done|e] w1] eqn:Hrun;
    [|discriminate].
  injection Hmain as -> ->.
  destruct (readArguments_audits _ _ _ _ _ Hargs)
    as [_ [Hfirst [Hpages Hvalid]]].
  pose proof (readPages_cap _ _ _ Hpages) as Hcap.
  exists url, maxPages.
  split; [exact Hfirst|]. split; [exact Hvalid|]. split; [exact Hpages|].
  split; [exact Hcap|].
  split; [intros Hnone; exact (readPages_default _ _ _ Hnone Hpages)|].
  split; [exact Hrun|].
  destruct (runFullAudit_returns host _ _ _ _ _ Hrun)
    as [crawl [results [viols [parsed [Hscan [_ ->]]]]]].
  destruct (scanSite_returns host _ _ _ _ _ _ _ Hscan)
    as [w2 [w3 [w4 [Hcrawl _]]]].
  destruct (getUrlsFromSitemap_returns host _ _ _ _ _ Hcrawl)
    as [parsed' [allUrls [_ [_ ->]]]].
  cbn [compileSummary AuditSummary.pagesScanned].
  destruct allUrls as [|u rest]; cbn [CrawlResult.urls].
  - cbn. lia.
  - apply limitedUrls_cap. lia.
Qed.

Lemma main_respects_page_cap_witness :
  exists summary w',
    main Scripted.mappedSite parseDigits
      ["https://www.example.gov"; "--pages"; "2"] Scripted.start
    = (exported summary, w')
    /\ AuditSummary.pagesScanned summary = 2
    /\ AuditSummary.pagesScanned summary <= 2.
Proof.
  eexists _, _. split; [reflexivity|]. split; [reflexivity|].
  destruct (main_respects_page_cap Scripted.mappedSite parseDigits
              ["https://www.example.gov"; "--pages"; "2"] Scripted.start
              _ _ eq_refl)
    as [url [maxPages [_ [_ [Hpages [_ [_ [_ Hcap]]]]]]]].
  injection Hpages as <-. exact Hcap.
Defined.

(** X15: the exit codes of [main].  When it shows the help it exits with 0,
    and when the value of [--pages] is refused or the first argument is not
    a URL it exits with 1, in each case before anything is fetched; whenever
    it exits, the code is 0 if the help was shown and 1 if not. *)
Theorem main_exit_codes (host : Host) (parseInt : string -> option Z)
    (args : list string) (w : World host) :
  (showsHelp args = true -> main host parseInt args w = (exited 0, w))
  /\ (showsHelp args = false ->
      readPages parseInt args = None
      \/ (exists url, hd_error args = Some url /\ isValidUrl host url = false) ->
      main host parseInt args w = (exited 1, w))
  /\ (forall code w',
        main host parseInt args w = (exited code, w') ->
        code = if showsHelp args then 0 else 1).
Proof.
  unfold main, readArguments, showsHelp, isValidUrl.
  destruct args as [|first rest].
  - split; [reflexivity|]. split; [discriminate|].
    intros code w' [= <- _]. reflexivity.
  - destruct (String.eqb first "--help" || String.eqb first "-h").
    + split; [reflexivity|]. split; [discriminate|].
      intros code w' [= <- _]. reflexivity.
    + split; [discriminate|]. split.
      * intros _ [Hpages|[url [[= <-] Hinvalid]]].
        -- rewrite Hpages. reflexivity.
        -- destruct (readPages parseInt (first :: rest)); [|reflexivity].
           destruct (newURL host first); [discriminate|reflexivity].
      * intros code w'.
        destruct (readPages parseInt (first :: rest)) as [maxPages|];
          [|intros [= <- _]; reflexivity].
        destruct (newURL host first) as [parsed|e];
          [|intros [= <- _]; reflexivity].
        destruct (runFullAudit host first maxPages w) as [[summary|e] w1];
          [discriminate|intros [= <- _]; reflexivity].
Qed.

Lemma main_exit_codes_witness :
  main Scripted.mappedSite parseDigits ["--help"] Scripted.start
  = (exited 0, Scripted.start)
  /\ main Scripted.mappedSite parseDigits
       ["https://www.example.gov"; "--pages"; "-3"] Scripted.start
     = (exited 1, Scripted.start)
  /\ main Scripted.mappedSite parseDigits ["www.example.gov"] Scripted.start
     = (exited 1, Scripted.start).
Proof.
  split; [|split].
  - apply (main_exit_codes Scripted.mappedSite parseDigits ["--help"]
             Scripted.start).
    reflexivity.
  - apply (main_exit_codes Scripted.mappedSite parseDigits
             ["https://www.example.gov"; "--pages"; "-3"] Scripted.start).
    + reflexivity.
    + left. reflexivity.
  - apply (main_exit_codes Scripted.mappedSite parseDigits ["www.example.gov"]
             Scripted.start).
    + reflexivity.
    + right. exists "www.example.gov". split; reflexivity.
Defined.

(** * Properties of the lead summary report *)

Lemma orNumber_present (n : Z) : JS.orNumber (Some n) 0 = n.
Proof. unfold JS.orNumber. destruct (Z.eqb_spec n 0); congruence. Qed.

Lemma Summarize_grade_read (summary : AuditSummary.t) :
  0 <= AuditSummary.totalViolations summary ->
  Summarize.grade (Summarize.read summary) = printSummary_lead summary.
Proof.
  intros Htotal.
  unfold Summarize.grade, Summarize.criticalOf, Summarize.seriousOf,
    Summarize.totalOf, Summarize.read, printSummary_lead.
  cbn [Summarize.bySeverity Summarize.critical Summarize.serious
       Summarize.totalViolations].
  rewrite !orNumber_present.
  destruct (_ || _); [reflexivity|]. destruct (_ || _); [reflexivity|].
  rewrite Z.gtb_ltb.
  destruct (Z.eqb_spec (AuditSummary.totalViolations summary) 0) as [Hzero|Hsome];
    destruct (Z.ltb_spec 0 (AuditSummary.totalViolations summary));
    try reflexivity; lia.
Qed.

(** X16: the lead summary report files the [raw-results.json] of a run
    under the grade that the audit printed and wrote to [summary.txt]. *)
Theorem lead_summary_agrees_with_audit (host : Host) (baseUrl : string)
    (maxPages : Z) (w w' : World host) (summary : AuditSummary.t) :
  runFullAudit host baseUrl maxPages w = (Normal summary, w') ->
  Summarize.grade (Summarize.read summary) = printSummary_lead summary
  /\ Summarize.grade (Summarize.read summary) = exportSummaryText_lead summary.
Proof.
  intros Hrun.
  assert (Hsame : Summarize.grade (Summarize.read summary)
                  = printSummary_lead summary).
  { apply Summarize_grade_read.
    destruct (runFullAudit_returns host _ _ _ _ _ Hrun)
      as [crawl [results [viols [url [_ [_ ->]]]]]].
    cbn. apply len_nonneg. }
  split; [exact Hsame|]. rewrite Hsame.
  unfold printSummary_lead, exportSummaryText_lead.
  destruct (_ || _); [reflexivity|]. destruct (_ || _); reflexivity.
Qed.

Lemma lead_summary_agrees_with_audit_witness :
  exists summary w',
    runFullAudit Scripted.mappedSite "https://www.example.gov" 10 Scripted.start
    = (Normal summary, w')
    /\ printSummary_lead summary = C_LEAD
    /\ Summarize.grade (Summarize.read summary) = printSummary_lead summary.
Proof.
  eexists _, _. split; [reflexivity|]. split; [reflexivity|].
  eapply (lead_summary_agrees_with_audit Scripted.mappedSite
            "https://www.example.gov" 10 Scripted.start).
  reflexivity.
Defined.

Section SortByKey.

Context {A : Type}.

Variable key : A -> Z.

Lemma insertBy_descending (x : A) (sorted : list A) :
  StronglySorted (fun a b => key b <= key a) sorted ->
  StronglySorted (fun a b => key b <= key a)
    (JS.insertBy (fun a b => key b - key a) x sorted).
Proof.
  induction 1 as [|y rest Hsorted IH Hy]; cbn [JS.insertBy].
  - repeat constructor.
  - destruct (Z.ltb_spec 0 (key y - key x)) as [Hless|Hmore].
    + constructor; [exact IH|].
      apply (Permutation_Forall
               (Permutation_sym (insertBy_Permutation _ x rest))).
      constructor; [lia|exact Hy].
    + constructor; [constructor; assumption|].
      constructor; [lia|].
      apply Forall_forall. intros z Hin. rewrite Forall_forall in Hy.
      specialize (Hy z Hin). cbn in Hy. lia.
Qed.

Lemma sort_descending (a : list A) :
  StronglySorted (fun x y => key y <= key x)
    (JS.sort (fun x y => key y - key x) a).
Proof.
  induction a as [|x a IH]; cbn [JS.sort].
  - constructor.
  - apply insertBy_descending, IH.
Qed.

End SortByKey.

Lemma filedUnder_Permutation (found : list (string * Summarize.Data)) :
  Permutation
    (filedUnder A_LEAD found ++ filedUnder B_LEAD found
     ++ filedUnder C_LEAD found ++ filedUnder SKIP found)
    (map Summarize.toLead found).
Proof.
  unfold filedUnder.
  induction found as [|entry found IH]; cbn [filter map].
  - constructor.
  - destruct (Summarize.grade (snd entry)); cbn [map app].
    + constructor. exact IH.
    + symmetry. apply Permutation_cons_app. symmetry. exact IH.
    + symmetry. rewrite app_assoc. apply Permutation_cons_app.
      rewrite <- app_assoc. symmetry. exact IH.
    + symmetry. rewrite 2!app_assoc. apply Permutation_cons_app.
      rewrite <- 2!app_assoc. symmetry. exact IH.
Qed.

(** The filter keeps the scan folders, unless a name leads nowhere. *)
Lemma folders_scanFolders (entries : list Summarize.Entry) :
  Forall (fun f => Summarize.kind f <> Summarize.dangling) entries ->
  Summarize.folders entries = Some (scanFolders entries).
Proof.
  unfold scanFolders.
  induction 1 as [|f rest Hkind _ IH]; cbn [Summarize.folders filter].
  - reflexivity.
  - unfold Summarize.isScanFolder. rewrite IH.
    destruct (Summarize.kind f); [| |contradiction]; cbn [option_map].
    + destruct (JS.includes (Summarize.name f) "-202"); reflexivity.
    + reflexivity.
Qed.

Lemma listOf_push (g g' : LeadGrade) (leads : Summarize.Leads)
    (lead : Summarize.Lead) :
  listOf g (Summarize.push leads g' lead)
  = (listOf g leads
     ++ match g', g with
        | A_LEAD, A_LEAD | B_LEAD, B_LEAD | C_LEAD, C_LEAD | SKIP, SKIP => [lead]
        | _, _ => []
        end)%list.
Proof. destruct g, g'; cbn; now rewrite ?app_nil_r. Qed.

(** The loop over the folders puts every lead last in the list of its
    grade, unless a file cannot be read. *)
Lemma fileFolders_filedUnder (kept : list Summarize.Entry) :
  Forall (fun f => Summarize.rawResults f <> Summarize.unreadable) kept ->
  forall leads,
  exists filed,
    Summarize.fileFolders kept leads = Some filed
    /\ forall g,
         listOf g filed
         = (listOf g leads ++ filedUnder g (withResults kept))%list.
Proof.
  unfold withResults, filedUnder.
  induction 1 as [|f rest Hraw _ IH]; intros leads;
    cbn [Summarize.fileFolders flat_map].
  - exists leads. split; [reflexivity|]. intros g. cbn. now rewrite app_nil_r.
  - unfold Summarize.fileFolder.
    destruct (Summarize.rawResults f) as [|data|]; [| |contradiction].
    + cbn [app]. apply IH.
    + destruct (IH (Summarize.push leads (Summarize.grade data)
                      (Summarize.toLead (Summarize.name f, data))))
        as [filed [Hrun Hlists]].
      exists filed. split; [exact Hrun|]. intros g.
      rewrite Hlists, listOf_push. cbn [app filter snd].
      rewrite <- app_assoc. f_equal.
      destruct (Summarize.grade data), g; reflexivity.
Qed.

Lemma listOf_sortEach (g : LeadGrade) (leads : Summarize.Leads) :
  listOf g (Summarize.sortEach leads) = JS.sort Summarize.byTotal (listOf g leads).
Proof. destruct g; reflexivity. Qed.

(** X17: the lead summary report, on an output directory in which every
    name leads somewhere and every [raw-results.json] of a scan folder can
    be read, lists each scan folder that has results once, under its grade.
    Scan folders are the directories whose name contains [-202]; other
    directories, files, and scan folders without results are not listed.
    The four lists together are the leads of those folders, each list holds
    leads of its own grade only, and each is in the order of the totals,
    highest first. *)
Theorem leads_are_filed_once_and_sorted (entries : list Summarize.Entry) :
  Forall (fun f => Summarize.kind f <> Summarize.dangling) entries ->
  Forall (fun f => Summarize.rawResults f <> Summarize.unreadable)
         (scanFolders entries) ->
  exists report,
    Summarize.leads entries = Some report
    /\ Permutation
         (Summarize.A report ++ Summarize.B report
          ++ Summarize.C report ++ Summarize.skip report)
         (map Summarize.toLead (withResults (scanFolders entries)))
    /\ forall g,
         StronglySorted
           (fun a b => Summarize.total b <= Summarize.total a)
           (listOf g report)
         /\ Forall (fun lead =>
                      exists entry,
                        In entry (withResults (scanFolders entries))
                        /\ lead = Summarize.toLead entry
                        /\ Summarize.grade (snd entry) = g)
                   (listOf g report).
Proof.
  intros Hkinds Hraw.
  destruct (fileFolders_filedUnder _ Hraw
              {| Summarize.A := []; Summarize.B := []; Summarize.C := [];
                 Summarize.skip := [] |})
    as [filed [Hrun Hlists]].
  exists (Summarize.sortEach filed).
  assert (Hlist : forall g,
             listOf g (Summarize.sortEach filed)
             = JS.sort Summarize.byTotal
                 (filedUnder g (withResults (scanFolders entries)))).
  { intros g. rewrite listOf_sortEach, Hlists. destruct g; reflexivity. }
  split; [|split].
  - unfold Summarize.leads. rewrite (folders_scanFolders _ Hkinds), Hrun.
    reflexivity.
  - change (Permutation
              (listOf A_LEAD (Summarize.sortEach filed)
               ++ listOf B_LEAD (Summarize.sortEach filed)
               ++ listOf C_LEAD (Summarize.sortEach filed)
               ++ listOf SKIP (Summarize.sortEach filed))
              (map Summarize.toLead (withResults (scanFolders entries)))).
    rewrite !Hlist, !sort_Permutation. apply filedUnder_Permutation.
  - intros g. rewrite Hlist. split.
    + apply (sort_descending Summarize.total).
    + apply Forall_forall. intros lead Hin.
      apply (Permutation_in _ (sort_Permutation _ _)) in Hin.
      unfold filedUnder in Hin. apply in_map_iff in Hin.
      destruct Hin as [entry [<- Hin]]. apply filter_In in Hin.
      destruct Hin as [Hin Hgrade]. exists entry.
      split; [exact Hin|]. split; [reflexivity|].
      destruct (Summarize.grade (snd entry)), g; try discriminate; reflexivity.
Qed.

Lemma leads_are_filed_once_and_sorted_witness :
  exists report,
    Summarize.leads outputDirectory = Some report
    /\ map Summarize.folder (Summarize.A report) = []
    /\ map Summarize.folder (Summarize.B report)
       = ["capital-city-2026-01-05"; "springfield-k12-2026-01-02"]
    /\ Permutation
         (Summarize.A report ++ Summarize.B report
          ++ Summarize.C report ++ Summarize.skip report)
         (map Summarize.toLead (withResults (scanFolders outputDirectory))).
Proof.
  destruct (leads_are_filed_once_and_sorted outputDirectory)
    as [report [Hrun [Hall _]]].
  - repeat constructor; discriminate.
  - repeat constructor; discriminate.
  - exists report. split; [exact Hrun|].
    vm_compute in Hrun. injection Hrun as <-.
    split; [reflexivity|]. split; [reflexivity|]. exact Hall.
Defined.

(** A [raw-results.json] that cannot be read ends the report before it
    prints anything, and so does a name that leads nowhere; outside the scan
    folders such a file does no harm. *)
Example unreadable_results_end_the_report :
  Summarize.leads
    (outputDirectory
     ++ [ {| Summarize.name := "ogdenville-2026-01-06";
             Summarize.kind := Summarize.directory;
             Summarize.rawResults := Summarize.unreadable |} ])%list
  = None
  /\ Summarize.leads
       (outputDirectory
        ++ [ {| Summarize.name := "latest";
                Summarize.kind := Summarize.dangling;
                Summarize.rawResults := Summarize.missing |} ])%list
     = None
  /\ Summarize.leads
       (outputDirectory
        ++ [ {| Summarize.name := "drafts";
                Summarize.kind := Summarize.directory;
                Summarize.rawResults := Summarize.unreadable |} ])%list
     = Summarize.leads outputDirectory.
Proof. repeat split. Qed.

(** * Properties of the lead package generator *)

Section LeadPackageTally.

Import LeadPackage.

Lemma lead_tallyOne_bucket (state : BySeverity.t * JS.object IssueCount.t)
    (v : Violation.t) (impact : ImpactValue) :
  bucket (fst (tallyOne state v)) impact
  = bucket (fst state) impact
    + (if impactEqb (Violation.impact v) impact then Violation.nodes v else 0).
Proof.
  unfold tallyOne. cbn [fst].
  destruct (Violation.impact v), impact; cbn; lia.
Qed.

Lemma lead_tallyOne_severityTotal (state : BySeverity.t * JS.object IssueCount.t)
    (v : Violation.t) :
  severityTotal (fst (tallyOne state v))
  = severityTotal (fst state) + Violation.nodes v.
Proof.
  unfold tallyOne, severityTotal. cbn [fst].
  destruct (Violation.impact v); cbn; lia.
Qed.

Lemma lead_tallyOne_inherited (state : BySeverity.t * JS.object IssueCount.t)
    (v : Violation.t) :
  plainKeys (snd state) -> leadPlainRule v = false ->
  snd (tallyOne state v) = snd state.
Proof.
  unfold leadPlainRule. intros Hplain Hv. apply Bool.negb_false_iff in Hv.
  unfold tallyOne. cbn [snd].
  rewrite (lookup_inherited _ _ Hplain Hv).
  apply modify_absent, get_inherited; assumption.
Qed.

Lemma lead_tallyOne_counted (state : BySeverity.t * JS.object IssueCount.t)
    (v : Violation.t) :
  leadPlainRule v = true ->
  snd (tallyOne state v)
  = JS.modify
      match JS.get (snd state) (Violation.id v) with
      | Some _ => snd state
      | None =>
          JS.set (snd state) (Violation.id v)
            {| IssueCount.count := 0; IssueCount.impact := Violation.impact v |}
      end
      (Violation.id v) (countAdd (Violation.nodes v)).
Proof.
  unfold leadPlainRule. intros Hv. apply Bool.negb_true_iff in Hv.
  unfold tallyOne. cbn [snd]. rewrite (lookup_plain _ _ Hv).
  destruct (JS.get (snd state) (Violation.id v)); reflexivity.
Qed.

Lemma lead_tallyOne_plainKeys (state : BySeverity.t * JS.object IssueCount.t)
    (v : Violation.t) :
  plainKeys (snd state) -> plainKeys (snd (tallyOne state v)).
Proof.
  intros Hplain. destruct (leadPlainRule v) eqn:Hv.
  - rewrite (lead_tallyOne_counted _ _ Hv). apply plainKeys_modify.
    destruct (JS.get (snd state) (Violation.id v)); [exact Hplain|].
    apply plainKeys_set; [|exact Hplain].
    unfold leadPlainRule in Hv. now apply Bool.negb_true_iff in Hv.
  - now rewrite (lead_tallyOne_inherited _ _ Hplain Hv).
Qed.

Lemma lead_tallyOne_storedCount (state : BySeverity.t * JS.object IssueCount.t)
    (v : Violation.t) (rule : string) :
  plainKeys (snd state) ->
  storedCount (snd (tallyOne state v)) rule
  = storedCount (snd state) rule
    + (if String.eqb (Violation.id v) rule && leadPlainRule v
       then Violation.nodes v else 0).
Proof.
  intros Hplain. destruct (leadPlainRule v) eqn:Hv.
  - rewrite (lead_tallyOne_counted _ _ Hv), Bool.andb_true_r.
    unfold storedCount. rewrite get_modify.
    destruct (JS.get (snd state) (Violation.id v)) as [d|] eqn:Hget.
    + destruct (String.eqb_spec (Violation.id v) rule) as [<-|_].
      * rewrite Hget. cbn. lia.
      * lia.
    + rewrite get_set.
      destruct (String.eqb_spec (Violation.id v) rule) as [<-|_].
      * rewrite Hget. cbn. lia.
      * lia.
  - rewrite (lead_tallyOne_inherited _ _ Hplain Hv), Bool.andb_false_r. lia.
Qed.

Lemma lead_tallyOne_keys (state : BySeverity.t * JS.object IssueCount.t)
    (v : Violation.t) :
  NoDup (map fst (snd state)) -> NoDup (map fst (snd (tallyOne state v))).
Proof.
  intros Hnodup. unfold tallyOne, JS.lookup. cbn [snd]. rewrite keys_modify.
  destruct (JS.get (snd state) (Violation.id v)) as [d|] eqn:Hget.
  - exact Hnodup.
  - destruct (JS.inherited (Violation.id v)); [exact Hnodup|].
    rewrite set_fresh by exact Hget. rewrite map_app. cbn.
    apply (Permutation_NoDup (l := Violation.id v :: map fst (snd state))).
    + apply Permutation_cons_append.
    + constructor; [apply get_None_not_key, Hget|exact Hnodup].
Qed.

Lemma leadNodes_cons (v : Violation.t) (records : list Violation.t) :
  leadNodes (v :: records) = Violation.nodes v + leadNodes records.
Proof. reflexivity. Qed.

Lemma lead_tally_loop (records : list Violation.t) :
  forall state,
    plainKeys (snd state) ->
    (forall impact,
       bucket (fst (fold_left tallyOne records state)) impact
       = bucket (fst state) impact + leadNodes (leadWithImpact impact records))
    /\ severityTotal (fst (fold_left tallyOne records state))
       = severityTotal (fst state) + leadNodes records
    /\ (forall rule,
          storedCount (snd (fold_left tallyOne records state)) rule
          = storedCount (snd state) rule
            + (if JS.inherited rule then 0
               else leadNodes (leadWithRule rule records)))
    /\ (NoDup (map fst (snd state)) ->
        NoDup (map fst (snd (fold_left tallyOne records state))))
    /\ plainKeys (snd (fold_left tallyOne records state)).
Proof.
  induction records as [|v rest IH]; intros state Hplain; cbn [fold_left].
  - split; [|split; [|split; [|split]]].
    + intros impact. cbn. lia.
    + cbn. lia.
    + intros rule. destruct (JS.inherited rule); cbn; lia.
    + intros Hnodup. exact Hnodup.
    + exact Hplain.
  - destruct (IH (tallyOne state v) (lead_tallyOne_plainKeys _ _ Hplain))
      as [Hbucket [Htotal [Hcount [Hkeys Hkept]]]].
    split; [|split; [|split; [|split]]].
    + intros impact. rewrite Hbucket, lead_tallyOne_bucket.
      unfold leadWithImpact. cbn [filter].
      destruct (impactEqb (Violation.impact v) impact);
        rewrite ?leadNodes_cons; lia.
    + rewrite Htotal, lead_tallyOne_severityTotal, leadNodes_cons. lia.
    + intros rule. rewrite Hcount, lead_tallyOne_storedCount by exact Hplain.
      unfold leadWithRule, leadPlainRule. cbn [filter].
      destruct (String.eqb_spec (Violation.id v) rule) as [->|_]; cbn [andb].
      * destruct (JS.inherited rule); cbn [negb];
          rewrite ?leadNodes_cons; lia.
      * lia.
    + intros Hnodup. apply Hkeys, lead_tallyOne_keys, Hnodup.
    + exact Hkept.
Qed.

End LeadPackageTally.

(** The severity counts of the lead package generator after its loop. *)
Lemma lead_package_tally (records : list LeadPackage.Violation.t) :
  (forall impact,
     bucket (fst (LeadPackage.tally records)) impact
     = leadNodes (leadWithImpact impact records))
  /\ severityTotal (fst (LeadPackage.tally records)) = leadNodes records.
Proof.
  destruct (lead_tally_loop records
              ({| BySeverity.critical := 0; BySeverity.serious := 0;
                  BySeverity.moderate := 0; BySeverity.minor := 0 |}, [])
              plainKeys_nil)
    as [Hbucket [Htotal _]].
  fold (LeadPackage.tally records) in Hbucket, Htotal.
  split.
  - intros impact. rewrite Hbucket. destruct impact; cbn; lia.
  - rewrite Htotal. cbn. lia.
Qed.

(** X18: the lead package generator counts affected nodes: each severity
    count of its result is the number of nodes of the records of that
    severity, the total is the number of nodes of all records, and the count
    of each top issue is the number of nodes of the records of its rule. *)
Theorem lead_package_counts_nodes (domain scanDate : string)
    (pagesScanned : list string) (allViolations : list LeadPackage.Violation.t) :
  let result :=
    LeadPackage.aggregate domain scanDate pagesScanned allViolations in
  (forall impact,
     bucket (LeadPackage.ScanResult.bySeverity result) impact
     = leadNodes (leadWithImpact impact allViolations))
  /\ LeadPackage.ScanResult.totalViolations result = leadNodes allViolations
  /\ Forall (fun issue =>
               Issue.count issue
               = leadNodes (leadWithRule (Issue.rule issue) allViolations))
            (LeadPackage.ScanResult.topIssues result).
Proof.
  cbn -[LeadPackage.tally].
  destruct (lead_tally_loop allViolations
              ({| BySeverity.critical := 0; BySeverity.serious := 0;
                  BySeverity.moderate := 0; BySeverity.minor := 0 |}, [])
              plainKeys_nil)
    as [Hbucket [Htotal [Hcount [Hkeys Hplain]]]].
  fold (LeadPackage.tally allViolations) in Hbucket, Htotal, Hcount, Hkeys,
    Hplain.
  split; [|split].
  - intros impact. rewrite Hbucket. destruct impact; cbn; lia.
  - unfold severityTotal in Htotal. cbn in Htotal. lia.
  - apply Forall_forall. intros issue Hin. apply slice0_In in Hin.
    rewrite (ranking_entry _ _ (Hkeys (NoDup_nil _)) Hin).
    rewrite Hcount, (ranking_plain _ _ Hplain Hin). cbn. lia.
Qed.

Lemma lead_grade_not_below_rules (criticalSerious total : Z) :
  level (gradeByRules criticalSerious total)
  <= level (LeadPackage.grade criticalSerious total)
  /\ LeadPackage.grade criticalSerious total <> SKIP.
Proof.
  unfold gradeByRules, LeadPackage.grade. split_thresholds; cbn [level];
    split; try lia; discriminate.
Qed.

Lemma nodes_at_least_records (found : list (string * Axe.Result)) :
  Forall (fun entry => Axe.nodes (snd entry) <> []) found ->
  (forall impact,
     JS.len (withImpact impact
               (map (fun entry => toViolation (fst entry) (snd entry)) found))
     <= leadNodes
          (leadWithImpact impact
             (map (fun entry => LeadPackage.toViolation (fst entry) (snd entry))
                  found)))
  /\ JS.len found
     <= leadNodes
          (map (fun entry => LeadPackage.toViolation (fst entry) (snd entry))
               found).
Proof.
  induction 1 as [|entry found Hnodes _ [IHimpact IHall]].
  - split; [intros impact|]; cbn; lia.
  - assert (Hone : 1 <= JS.len (Axe.nodes (snd entry))).
    { destruct (Axe.nodes (snd entry)) as [|node nodes]; [contradiction|].
      rewrite len_cons. pose proof (len_nonneg nodes). lia. }
    split.
    + intros impact. specialize (IHimpact impact).
      unfold withImpact, leadWithImpact in *. cbn [map filter].
      cbn [toViolation LeadPackage.toViolation Violation.impact
           LeadPackage.Violation.impact].
      destruct (impactEqb (impactOrMinor (Axe.impact (snd entry))) impact).
      * rewrite len_cons, leadNodes_cons.
        change (LeadPackage.Violation.nodes
                  (LeadPackage.toViolation (fst entry) (snd entry)))
          with (JS.len (Axe.nodes (snd entry))).
        lia.
      * exact IHimpact.
    + cbn [map]. rewrite len_cons, leadNodes_cons.
      change (LeadPackage.Violation.nodes
                (LeadPackage.toViolation (fst entry) (snd entry)))
        with (JS.len (Axe.nodes (snd entry))).
      lia.
Qed.

(** X19: on the same findings, of which each has at least one node, the
    lead package generator never grades lower than the audit, and it has no
    Skip: for a site without findings the audit says Skip and the lead
    package says C. *)
Theorem lead_package_never_grades_lower (domain scanDate : string)
    (crawlResult : CrawlResult.t) (allResults : list PageResult.t)
    (pagesScanned : list string) (found : list (string * Axe.Result)) :
  Forall (fun entry => Axe.nodes (snd entry) <> []) found ->
  let audit :=
    compileSummary domain scanDate crawlResult allResults
      (map (fun entry => toViolation (fst entry) (snd entry)) found) in
  let package :=
    LeadPackage.aggregate domain scanDate pagesScanned
      (map (fun entry => LeadPackage.toViolation (fst entry) (snd entry)) found) in
  level (printSummary_lead audit)
  <= level (LeadPackage.ScanResult.leadGrade package)
  /\ LeadPackage.ScanResult.leadGrade package <> SKIP
  /\ (found = [] ->
      printSummary_lead audit = SKIP
      /\ LeadPackage.ScanResult.leadGrade package = C_LEAD).
Proof.
  intros Hnodes audit package.
  destruct (nodes_at_least_records found Hnodes) as [Himpact Hall].
  set (records := map (fun entry => toViolation (fst entry) (snd entry)) found)
    in *.
  set (leadRecords :=
         map (fun entry => LeadPackage.toViolation (fst entry) (snd entry)) found)
    in *.
  destruct (lead_package_tally leadRecords) as [Hbucket Htotal].
  split; [|split].
  - rewrite printSummary_lead_rules.
    subst audit package.
    cbn [compileSummary AuditSummary.bySeverity AuditSummary.totalViolations
         LeadPackage.aggregate LeadPackage.ScanResult.leadGrade].
    eapply Z.le_trans; [|apply lead_grade_not_below_rules].
    apply gradeByRules_monotone.
    + pose proof (tally_bucket records critical) as Hc.
      pose proof (tally_bucket records serious) as Hs.
      pose proof (Hbucket critical) as Hlc. pose proof (Hbucket serious) as Hls.
      pose proof (Himpact critical). pose proof (Himpact serious).
      cbn [bucket] in Hc, Hs, Hlc, Hls. lia.
    + unfold severityTotal in Htotal.
      unfold records at 1. unfold JS.len. rewrite length_map.
      fold (JS.len found). lia.
  - apply lead_grade_not_below_rules.
  - intros ->. split; reflexivity.
Qed.

Lemma lead_package_never_grades_lower_witness :
  let found :=
    [ ("https://www.example.gov/",
       Scripted.imageAlt
         ["<img 1>"; "<img 2>"; "<img 3>"; "<img 4>"; "<img 5>"]
         (Axe.value serious)) ] in
  printSummary_lead
    (compileSummary "www.example.gov" "2026-01-02T09:00:00.000Z"
       {| CrawlResult.urls := ["https://www.example.gov/"];
          CrawlResult.source := fallback;
          CrawlResult.totalFound := 1;
          CrawlResult.filtered := 1 |} []
       (map (fun entry => toViolation (fst entry) (snd entry)) found))
  = C_LEAD
  /\ LeadPackage.ScanResult.leadGrade
       (LeadPackage.aggregate "www.example.gov" "2026-01-02T09:00:00.000Z"
          ["https://www.example.gov/"]
          (map (fun entry => LeadPackage.toViolation (fst entry) (snd entry))
               found))
     = B_LEAD
  /\ LeadPackage.ScanResult.leadGrade
       (LeadPackage.aggregate "www.example.gov" "2026-01-02T09:00:00.000Z"
          ["https://www.example.gov/"]
          (map (fun entry => LeadPackage.toViolation (fst entry) (snd entry))
               found))
     <> SKIP.
Proof.
  intros found. split; [reflexivity|]. split; [reflexivity|].
  apply (lead_package_never_grades_lower "www.example.gov"
           "2026-01-02T09:00:00.000Z"
           {| CrawlResult.urls := ["https://www.example.gov/"];
              CrawlResult.source := fallback;
              CrawlResult.totalFound := 1;
              CrawlResult.filtered := 1 |} []
           ["https://www.example.gov/"] found).
  repeat constructor. discriminate.
Defined.

(** * Properties of the pricing of a proposal *)

Ltac open_pricing :=
  unfold Proposal.calculatePricing;
  cbn [Proposal.Pricing.total Proposal.Pricing.totalWithMonitoring
       Proposal.Pricing.audit Proposal.Pricing.remediation Proposal.Pricing.pdf
       Proposal.price Proposal.Config.estimatedPages
       Proposal.Config.estimatedPDFs].

Ltac split_prices :=
  rewrite ?Z.gtb_ltb;
  repeat match goal with
         | |- context [Z.ltb ?a ?b] => destruct (Z.ltb_spec a b)
         end.

(** X20: with the same configuration, a scan result with at least as many
    violations and at least as many critical and serious ones is never
    quoted less: the remediation price and both totals do not go down, and
    the audit and PDF prices are the same. *)
Theorem pricing_grows_with_findings (first second : Proposal.ScanResult.t)
    (config : Proposal.Config.t) :
  Proposal.ScanResult.totalViolations first
  <= Proposal.ScanResult.totalViolations second ->
  BySeverity.critical (Proposal.ScanResult.bySeverity first)
  + BySeverity.serious (Proposal.ScanResult.bySeverity first)
  <= BySeverity.critical (Proposal.ScanResult.bySeverity second)
     + BySeverity.serious (Proposal.ScanResult.bySeverity second) ->
  let low := Proposal.calculatePricing first config in
  let high := Proposal.calculatePricing second config in
  Proposal.price (Proposal.Pricing.remediation low)
  <= Proposal.price (Proposal.Pricing.remediation high)
  /\ Proposal.price (Proposal.Pricing.audit low)
     = Proposal.price (Proposal.Pricing.audit high)
  /\ Proposal.price (Proposal.Pricing.pdf low)
     = Proposal.price (Proposal.Pricing.pdf high)
  /\ Proposal.Pricing.total low <= Proposal.Pricing.total high
  /\ Proposal.Pricing.totalWithMonitoring low
     <= Proposal.Pricing.totalWithMonitoring high.
Proof.
  intros Htotal Hserious low high. subst low high. open_pricing.
  split_prices; repeat split; lia.
Qed.

Lemma pricing_grows_with_findings_witness :
  Proposal.Pricing.total
    (Proposal.calculatePricing (Proposal.read (tallied 0 4 2 1 7))
       {| Proposal.Config.organizationName := "Example County";
          Proposal.Config.contactName := "Administrator";
          Proposal.Config.contactTitle := None;
          Proposal.Config.contactEmail := "admin@example.org";
          Proposal.Config.estimatedPages := None;
          Proposal.Config.estimatedPDFs := None |})
  <= Proposal.Pricing.total
       (Proposal.calculatePricing (Proposal.read (tallied 3 9 10 1 23))
          {| Proposal.Config.organizationName := "Example County";
             Proposal.Config.contactName := "Administrator";
             Proposal.Config.contactTitle := None;
             Proposal.Config.contactEmail := "admin@example.org";
             Proposal.Config.estimatedPages := None;
             Proposal.Config.estimatedPDFs := None |}).
Proof.
  apply (pricing_grows_with_findings
           (Proposal.read (tallied 0 4 2 1 7))
           (Proposal.read (tallied 3 9 10 1 23))).
  - cbn. lia.
  - cbn. lia.
Defined.

(** X21: whatever the scan result and the estimates, the audit is priced
    between 5000 and 15000 and the remediation between 15000 and 50000.
    When the PDF price of 75 per document, and that price with the largest
    of the other amounts (73500), are amounts that a number holds exactly,
    the total is the audit, the remediation, the PDF price and 2500 of
    training, and the total with monitoring is 6000 more. *)
Theorem pricing_is_bounded (result : Proposal.ScanResult.t)
    (config : Proposal.Config.t) :
  let pricing := Proposal.calculatePricing result config in
  let pdfs := JS.orNumber (Proposal.Config.estimatedPDFs config) 50 in
  5000 <= Proposal.price (Proposal.Pricing.audit pricing) <= 15000
  /\ 15000 <= Proposal.price (Proposal.Pricing.remediation pricing) <= 50000
  /\ In (Proposal.price (Proposal.Pricing.audit pricing)) [5000; 10000; 15000]
  /\ In (Proposal.price (Proposal.Pricing.remediation pricing))
        [15000; 25000; 35000; 40000; 50000]
  /\ (exactAmount (75 * pdfs) -> exactAmount (75 * pdfs + 73500) ->
      Proposal.price (Proposal.Pricing.pdf pricing) = 75 * pdfs
      /\ Proposal.Pricing.total pricing
         = Proposal.price (Proposal.Pricing.audit pricing)
           + Proposal.price (Proposal.Pricing.remediation pricing)
           + 75 * pdfs + 2500
      /\ 22500 + 75 * pdfs <= Proposal.Pricing.total pricing <= 67500 + 75 * pdfs
      /\ Proposal.Pricing.totalWithMonitoring pricing
         = Proposal.Pricing.total pricing + 6000
      /\ exactAmount (Proposal.Pricing.total pricing)
      /\ exactAmount (Proposal.Pricing.totalWithMonitoring pricing)).
Proof.
  intros pricing pdfs. subst pricing pdfs. unfold exactAmount. open_pricing.
  cbn [In].
  split_prices; (repeat split; try lia); try intuition lia.
Qed.

Lemma pricing_is_bounded_witness :
  Proposal.Pricing.totalWithMonitoring
    (Proposal.calculatePricing (Proposal.read (tallied 3 9 10 1 23))
       {| Proposal.Config.organizationName := "Example County";
          Proposal.Config.contactName := "Administrator";
          Proposal.Config.contactTitle := None;
          Proposal.Config.contactEmail := "admin@example.org";
          Proposal.Config.estimatedPages := Some 120;
          Proposal.Config.estimatedPDFs := None |})
  = 10000 + 35000 + 75 * 50 + 2500 + 6000.
Proof.
  pose proof (pricing_is_bounded (Proposal.read (tallied 3 9 10 1 23))
                {| Proposal.Config.organizationName := "Example County";
                   Proposal.Config.contactName := "Administrator";
                   Proposal.Config.contactTitle := None;
                   Proposal.Config.contactEmail := "admin@example.org";
                   Proposal.Config.estimatedPages := Some 120;
                   Proposal.Config.estimatedPDFs := None |}) as Hpricing.
  destruct Hpricing as [_ [_ [_ [_ Hexact]]]].
  destruct Hexact as [_ [Htotal [_ [Hmonitoring _]]]].
  - unfold exactAmount. vm_compute. split; discriminate.
  - unfold exactAmount. vm_compute. split; discriminate.
  - rewrite Hmonitoring, Htotal. reflexivity.
Defined.

(** X22: the quote does not go down when an estimate of at least 1 page or
    document is raised; but an estimate of 0 is priced as a missing one, as
    50 pages and 50 documents, so that no PDF costs more than one PDF. *)
Theorem pricing_of_estimates (result : Proposal.ScanResult.t)
    (organizationName contactName contactEmail : string)
    (contactTitle : option string) (pages pages' pdfs pdfs' : Z) :
  let quote estimatedPages estimatedPDFs :=
    Proposal.Pricing.total
      (Proposal.calculatePricing result
         {| Proposal.Config.organizationName := organizationName;
            Proposal.Config.contactName := contactName;
            Proposal.Config.contactTitle := contactTitle;
            Proposal.Config.contactEmail := contactEmail;
            Proposal.Config.estimatedPages := estimatedPages;
            Proposal.Config.estimatedPDFs := estimatedPDFs |}) in
  1 <= pages <= pages' ->
  1 <= pdfs <= pdfs' ->
  quote (Some pages) (Some pdfs) <= quote (Some pages') (Some pdfs')
  /\ quote (Some 0) (Some 0) = quote None None
  /\ quote (Some pages) (Some 0) = quote (Some pages) (Some 50)
  /\ quote (Some pages) (Some 1) < quote (Some pages) (Some 0).
Proof.
  intros quote Hpages Hpdfs. subst quote. open_pricing.
  unfold JS.orNumber.
  destruct (Z.eqb_spec pages 0); [lia|]. destruct (Z.eqb_spec pages' 0); [lia|].
  destruct (Z.eqb_spec pdfs 0); [lia|]. destruct (Z.eqb_spec pdfs' 0); [lia|].
  change (0 =? 0) with true. change (1 =? 0) with false.
  change (50 =? 0) with false. cbv iota.
  split_prices; repeat split; lia.
Qed.

Lemma pricing_of_estimates_witness :
  Proposal.Pricing.total
    (Proposal.calculatePricing (Proposal.read (tallied 0 4 2 1 7))
       {| Proposal.Config.organizationName := "Example County";
          Proposal.Config.contactName := "Administrator";
          Proposal.Config.contactTitle := None;
          Proposal.Config.contactEmail := "admin@example.org";
          Proposal.Config.estimatedPages := Some 80;
          Proposal.Config.estimatedPDFs := Some 1 |})
  < Proposal.Pricing.total
      (Proposal.calculatePricing (Proposal.read (tallied 0 4 2 1 7))
         {| Proposal.Config.organizationName := "Example County";
            Proposal.Config.contactName := "Administrator";
            Proposal.Config.contactTitle := None;
            Proposal.Config.contactEmail := "admin@example.org";
            Proposal.Config.estimatedPages := Some 80;
            Proposal.Config.estimatedPDFs := Some 0 |}).
Proof.
  apply (pricing_of_estimates (Proposal.read (tallied 0 4 2 1 7))
           "Example County" "Administrator" "admin@example.org" None
           80 120 1 2); lia.
Defined.

(** * What can end a run *)

Lemma crawler_returns (host : Host) (baseUrl : string) (maxPages : Z)
    (w : World host) :
  if isValidUrl host baseUrl
  then exists crawlResult w',
         getUrlsFromSitemap host baseUrl maxPages w = (Normal crawlResult, w')
  else True.
Proof.
  unfold isValidUrl, getUrlsFromSitemap.
  destruct (newURL host baseUrl) as [url|e] eqn:Hurl; [|exact I].
  rewrite (bind_Normal (lift (Normal url)) _ w w url eq_refl).
  destruct (probeSitemaps_returns host (sitemapLocations (domainOf url)) w)
    as [allUrls [w' Hprobe]].
  rewrite (bind_Normal _ _ _ _ _ Hprobe).
  destruct (JS.len allUrls =? 0); eexists _, _; reflexivity.
Qed.

(** X23: for a base URL that [new URL] accepts, with a browser that launches
    and closes without a throw, [runFullAudit] always returns a summary,
    whatever the sitemap fetches, the navigations and the analyses do. *)
Theorem audit_completes (host : Host) (baseUrl : string) (maxPages : Z)
    (w : World host) :
  isValidUrl host baseUrl = true ->
  (forall w0, exists w1, launchBrowser host w0 = (Normal tt, w1)) ->
  (forall w0, exists w1, browserClose host w0 = (Normal tt, w1)) ->
  exists summary w',
    runFullAudit host baseUrl maxPages w = (Normal summary, w').
Proof.
  intros Hvalid Hlaunch Hclose.
  pose proof (crawler_returns host baseUrl maxPages w) as Hcrawl.
  rewrite Hvalid in Hcrawl. destruct Hcrawl as [crawl [w1 Hcrawl]].
  destruct (Hlaunch w1) as [w2 Hlaunched].
  destruct (scanLoop_run host (CrawlResult.urls crawl) [] [] w2)
    as [results [viols [w3 [Hloop _]]]].
  destruct (Hclose w3) as [w4 Hclosed].
  unfold isValidUrl in Hvalid.
  destruct (newURL host baseUrl) as [url|e] eqn:Hurl; [|discriminate].
  eexists _, w4. unfold runFullAudit, scanSite.
  unfold bind at 1. unfold bind at 1.
  rewrite Hcrawl. unfold bind at 1. rewrite Hlaunched.
  unfold bind at 1. rewrite Hloop. unfold bind at 1. rewrite Hclosed.
  unfold ret at 1. unfold bind at 1. unfold lift. rewrite Hurl.
  reflexivity.
Qed.

Lemma audit_completes_witness :
  exists summary w',
    runFullAudit Scripted.bareSite "https://www.example.gov" 10 Scripted.start
    = (Normal summary, w').
Proof.
  apply (audit_completes Scripted.bareSite "https://www.example.gov" 10
           Scripted.start).
  - reflexivity.
  - intros w0. exists w0. reflexivity.
  - intros w0. exists w0. reflexivity.
Defined.

(** X24: a browser that cannot be launched is fatal: the run throws what
    the launch threw, after the crawl and before any page is loaded, and
    [main] ends with exit code 1. *)
Theorem launch_failure_is_fatal (host : Host) (parseInt : string -> option Z)
    (args : list string) (url : string) (maxPages : Z)
    (w w1 w2 : World host) (crawlResult : CrawlResult.t) (e : Thrown) :
  readArguments host parseInt args = audits url maxPages ->
  getUrlsFromSitemap host url maxPages w = (Normal crawlResult, w1) ->
  launchBrowser host w1 = (Abrupt e, w2) ->
  runFullAudit host url maxPages w = (Abrupt e, w2)
  /\ main host parseInt args w = (exited 1, w2).
Proof.
  intros Hargs Hcrawl Hlaunch.
  assert (Hrun : runFullAudit host url maxPages w = (Abrupt e, w2)).
  { unfold runFullAudit, scanSite.
    unfold bind at 1. unfold bind at 1. rewrite Hcrawl.
    unfold bind at 1. rewrite Hlaunch. reflexivity. }
  split; [exact Hrun|].
  unfold main. rewrite Hargs, Hrun. reflexivity.
Qed.

Lemma launch_failure_is_fatal_witness :
  main noBrowser parseDigits ["https://www.example.gov"] Scripted.start
  = (exited 1, Scripted.start).
Proof.
  eapply (launch_failure_is_fatal noBrowser parseDigits
            ["https://www.example.gov"] "https://www.example.gov" 10
            Scripted.start Scripted.start Scripted.start);
    reflexivity.
Defined.

(** X25: on a site where no sitemap location gives anything, a run that
    completes has scanned the base URL and no other page. *)
Theorem run_without_sitemap_scans_home_page (host : Host) (baseUrl : string)
    (maxPages : Z) (w w' : World host) (url : URL.t)
    (summary : AuditSummary.t) :
  newURL host baseUrl = Normal url ->
  allGiveNothing host (sitemapLocations (domainOf url)) w = true ->
  runFullAudit host baseUrl maxPages w = (Normal summary, w') ->
  AuditSummary.pagesScanned summary = 1
  /\ Forall (fun v => Violation.pageUrl v = baseUrl)
            (AuditSummary.allViolations summary).
Proof.
  intros Hurl Hnothing Hrun.
  destruct (runFullAudit_returns host _ _ _ _ _ Hrun)
    as [crawl [results [viols [url' [Hscan [_ ->]]]]]].
  destruct (scanSite_returns host _ _ _ _ _ _ _ Hscan)
    as [w1 [w2 [w3 [Hcrawl [_ [Hloop _]]]]]].
  destruct (getUrlsFromSitemap_returns host _ _ _ _ _ Hcrawl)
    as [parsed [allUrls [Hparsed [Hprobe ->]]]].
  rewrite Hurl in Hparsed. injection Hparsed as <-.
  destruct (probeSitemaps_nothing host _ w Hnothing) as [w0 Hnone].
  rewrite Hnone in Hprobe. injection Hprobe as <- _.
  cbn [CrawlResult.urls] in Hloop.
  cbn [compileSummary AuditSummary.pagesScanned AuditSummary.allViolations
       CrawlResult.urls].
  split; [reflexivity|].
  destruct (scanLoop_returns host _ _ _ _ _ Hloop) as [-> Hout].
  inversion Hout as [|u result urls' results' [w4 Houtcome] Hrest]; subst.
  inversion Hrest; subst. cbn [flat_map]. rewrite app_nil_r.
  pose proof (outcome_records _ _ _ Houtcome) as Hrecords.
  apply Forall_forall. intros v Hin. rewrite Forall_forall in Hrecords.
  apply (Hrecords v Hin).
Qed.

Lemma run_without_sitemap_scans_home_page_witness :
  exists summary w',
    runFullAudit Scripted.bareSite "https://www.example.gov" 10 Scripted.start
    = (Normal summary, w')
    /\ AuditSummary.pagesScanned summary = 1.
Proof.
  eexists _, _. split; [reflexivity|].
  eapply (run_without_sitemap_scans_home_page Scripted.bareSite
            "https://www.example.gov" 10 Scripted.start);
    reflexivity.
Defined.

(** * The order of the ranking among equal counts *)

Lemma filter_twice {A : Type} (f g : A -> bool) (a : list A) :
  filter f (filter g a) = filter (fun x => g x && f x) a.
Proof.
  induction a as [|x a IH]; cbn.
  - reflexivity.
  - destruct (g x); cbn; [destruct (f x)|]; now rewrite IH.
Qed.

(** The sort is stable: issues with the same count keep their order. *)
Lemma insertBy_withCount (count : Z) (x : Issue.t) (sorted : list Issue.t) :
  withCount count (JS.insertBy (fun a b => Issue.count b - Issue.count a) x sorted)
  = withCount count (x :: sorted).
Proof.
  unfold withCount. induction sorted as [|y rest IH]; cbn [JS.insertBy].
  - reflexivity.
  - destruct (Z.ltb_spec 0 (Issue.count y - Issue.count x)) as [Hless|_];
      [|reflexivity].
    cbn [filter] in *. rewrite IH.
    destruct (Z.eqb_spec (Issue.count x) count) as [Hx|_];
      destruct (Z.eqb_spec (Issue.count y) count) as [Hy|_];
      try reflexivity.
    lia.
Qed.

Lemma sort_withCount (count : Z) (issues : list Issue.t) :
  withCount count (JS.sort (fun a b => Issue.count b - Issue.count a) issues)
  = withCount count issues.
Proof.
  induction issues as [|x issues IH]; cbn [JS.sort].
  - reflexivity.
  - rewrite insertBy_withCount. unfold withCount in *. cbn [filter].
    now rewrite IH.
Qed.

(** Without array-index keys, [Object.entries] follows the creation order. *)
Lemma entries_creation_order {V : Type} (o : JS.object V) :
  Forall (fun key => JS.isArrayIndex key = false) (map fst o) ->
  JS.entries o = o.
Proof.
  intros Hkeys. unfold JS.entries.
  assert (Hnone : Forall (fun kv : string * V => JS.isArrayIndex (fst kv) = false) o).
  { apply Forall_forall. intros kv Hin. rewrite Forall_forall in Hkeys.
    apply Hkeys. apply in_map, Hin. }
  rewrite (filter_none _ _ Hnone). cbn [JS.sort app].
  apply filter_all. apply Forall_forall. intros kv Hin.
  rewrite Forall_forall in Hnone. now rewrite (Hnone kv Hin).
Qed.

Lemma unseen_app (keys : list string) (x y : string) :
  unseen (keys ++ [x]) y = negb (String.eqb y x) && unseen keys y.
Proof.
  unfold unseen. rewrite existsb_app. cbn.
  destruct (existsb (String.eqb y) keys), (String.eqb y x); reflexivity.
Qed.

Lemma get_unseen {V : Type} (o : JS.object V) (key : string) :
  unseen (map fst o) key = match JS.get o key with Some _ => false | None => true end.
Proof.
  unfold unseen. induction o as [|[k v] o IH]; cbn.
  - reflexivity.
  - rewrite (String.eqb_sym key k).
    destruct (String.eqb k key); cbn; [reflexivity|exact IH].
Qed.

Lemma tallyOne_rules (state : BySeverity.t * JS.object IssueCount.t)
    (v : Violation.t) :
  map fst (snd (tallyOne state v))
  = if unseen (map fst (snd state)) (Violation.id v) && plainRule v
    then (map fst (snd state) ++ [Violation.id v])%list
    else map fst (snd state).
Proof.
  unfold tallyOne, JS.lookup, plainRule. cbn [snd].
  rewrite keys_modify, get_unseen.
  destruct (JS.get (snd state) (Violation.id v)) as [d|] eqn:Hget.
  - reflexivity.
  - destruct (JS.inherited (Violation.id v)); cbn [negb andb]; [reflexivity|].
    rewrite set_fresh by exact Hget. rewrite map_app. reflexivity.
Qed.

Lemma tally_loop_rules (records : list Violation.t) :
  forall state,
    map fst (snd (fold_left tallyOne records state))
    = (map fst (snd state)
       ++ filter (unseen (map fst (snd state)))
                 (firstSeen (map Violation.id (plainRecords records))))%list.
Proof.
  unfold plainRecords.
  induction records as [|v rest IH]; intros state; cbn [fold_left filter].
  - cbn. now rewrite app_nil_r.
  - rewrite IH, tallyOne_rules.
    destruct (plainRule v); [|now rewrite Bool.andb_false_r].
    rewrite Bool.andb_true_r. cbn [map firstSeen filter].
    destruct (unseen (map fst (snd state)) (Violation.id v)) eqn:Hnew.
    + rewrite <- app_assoc. cbn [app]. do 2 f_equal.
      rewrite filter_twice. apply filter_ext. intros y. apply unseen_app.
    + f_equal. rewrite filter_twice. apply filter_ext. intros y.
      destruct (String.eqb_spec y (Violation.id v)) as [->|_]; cbn.
      * exact Hnew.
      * reflexivity.
Qed.

(** X26: when no rule identifier is an array index, the rules are stored in
    the order in which they first appear among the records, those apart
    whose identifier names a member of [Object.prototype], and the ranking
    keeps that order among the rules that have the same count. *)
Theorem equal_counts_keep_first_seen_order (allViolations : list Violation.t) :
  Forall (fun v => JS.isArrayIndex (Violation.id v) = false) allViolations ->
  let issueCount := snd (tally allViolations) in
  map fst issueCount
  = firstSeen (map Violation.id (plainRecords allViolations))
  /\ forall count,
       withCount count (ranking issueCount)
       = withCount count (map toIssue issueCount).
Proof.
  intros Hids issueCount.
  assert (Hkeys : map fst issueCount
                  = firstSeen (map Violation.id (plainRecords allViolations))).
  { unfold issueCount, tally. rewrite tally_loop_rules. cbn [snd map app].
    apply filter_all. apply Forall_forall. intros y _. reflexivity. }
  split; [exact Hkeys|].
  intros count. unfold ranking. rewrite sort_withCount.
  rewrite entries_creation_order; [reflexivity|].
  apply Forall_forall. intros key Hin.
  assert (Hrule : In key (map Violation.id allViolations)).
  { apply (tally_rules allViolations key). exact Hin. }
  apply in_map_iff in Hrule. destruct Hrule as [v [<- Hv]].
  rewrite Forall_forall in Hids. apply Hids, Hv.
Qed.

Lemma equal_counts_keep_first_seen_order_witness :
  let records :=
    [ toViolation "https://www.example.gov/"
        {| Axe.id := "label"; Axe.impact := Axe.value serious;
           Axe.description := ""; Axe.help := ""; Axe.helpUrl := "";
           Axe.tags := []; Axe.nodes := ["<input>"] |};
      toViolation "https://www.example.gov/"
        (Scripted.imageAlt ["<img src=a>"] (Axe.value critical));
      toViolation "https://www.example.gov/about"
        {| Axe.id := "label"; Axe.impact := Axe.value serious;
           Axe.description := ""; Axe.help := ""; Axe.helpUrl := "";
           Axe.tags := []; Axe.nodes := ["<input>"] |};
      toViolation "https://www.example.gov/about"
        {| Axe.id := "html-has-lang"; Axe.impact := Axe.value serious;
           Axe.description := ""; Axe.help := ""; Axe.helpUrl := "";
           Axe.tags := []; Axe.nodes := ["<html>"] |} ] in
  map Issue.rule (ranking (snd (tally records)))
  = ["label"; "image-alt"; "html-has-lang"]
  /\ map fst (snd (tally records))
     = firstSeen (map Violation.id (plainRecords records)).
Proof.
  intros records. split; [reflexivity|].
  apply (equal_counts_keep_first_seen_order records).
  repeat constructor.
Defined.
